(** * ParallelRunner: a shallow embedding of
      [tensorforce/execution/parallel_runner.py]

    The runner drives one agent against several environments.  Everything
    the runner calls but does not define (the agent, the environments, the
    user callbacks, the clock, the progress bar) is an external
    collaborator: a call to one of them is recorded in a trace of events,
    and the value it returns is read from an oracle ([World]) that sees the
    trace so far.  The runner object is a record, its methods are programs
    of a state-and-exception monad over (runner, trace).

    Conventions
    - Python [float] is IEEE binary64, modelled by Rocq's primitive floats.
    - [float('inf')] ceilings and frequencies are [None : option Z].
    - Environments are addressed by their position in the local list
      [environments] of [run]: [0 .. n-1] are the training environments,
      [n] is the evaluation environment.
    - Console output ([print]) and the statistics shown by the progress
      bar are not modelled; the bar itself is a collaborator whose calls
      are traced.
    - Collaborators return normally and do not assign attributes of the
      runner. *)

From Stdlib Require Import ZArith Floats String Bool Lia.
From stdpp Require Import base list.

Local Open Scope Z_scope.

(** ** Python values returned by user callbacks *)

Inductive PyVal : Type :=
| VNone
| VBool (b : bool)
| VInt (z : Z)
| VFloat (f : float)
| VStr (s : string).

(** [isinstance(v, bool)] *)
Definition isinstance_bool (v : PyVal) : bool :=
  match v with VBool _ => true | _ => false end.

(** [isinstance(v, float)] *)
Definition isinstance_float (v : PyVal) : bool :=
  match v with VFloat _ => true | _ => false end.

(** Truth value testing, as done by [not], [and] and [if]. *)
Definition truthy (v : PyVal) : bool :=
  match v with
  | VNone => false
  | VBool b => b
  | VInt z => negb (z =? 0)
  | VFloat f => negb (PrimFloat.eqb f 0%float)
  | VStr s => negb (String.eqb s EmptyString)
  end.

(** [a and b]: the first operand when it is falsy, else the second. *)
Definition py_and (a b : PyVal) : PyVal := if truthy a then b else a.

(** [not a] *)
Definition py_not (a : PyVal) : bool := negb (truthy a).

(** ** Exceptions *)

Inductive Exn : Type :=
| AssertionError
| AttributeError
| IndexError
| NameError
| TypeError
| UnboundLocalError
| ValueError
| ZeroDivisionError
| TensorforceError_type
| TensorforceError_value.

(** ** Comparisons against ceilings and frequencies *)

(** [counter >= ceiling], where the ceiling may be [float('inf')]. *)
Definition reached (counter : Z) (ceiling : option Z) : bool :=
  match ceiling with
  | None => false
  | Some m => m <=? counter
  end.

(** [counter % frequency == 0].  With [frequency = float('inf')] the
    remainder of a non-negative counter is the counter itself and that of
    a negative one is [inf]; with [frequency = 0] Python raises
    [ZeroDivisionError]; otherwise the remainder has the sign of the
    divisor, as [Z.modulo]. *)
Definition divides (counter : Z) (frequency : option Z) : Exn + bool :=
  match frequency with
  | None => inr (counter =? 0)
  | Some 0 => inl ZeroDivisionError
  | Some k => inr (counter mod k =? 0)
  end.

(** ** What the collaborators exchange with the runner *)

(** Environment states and agent actions are opaque to the runner. *)
Definition StateVal : Type := Z.
Definition ActionVal : Type := Z.

(** An observation [(states, terminal, reward)] as returned by
    [receive_execute]; [terminal] is already converted by [int]. *)
Record Observation : Type := mkObservation {
  obs_states : StateVal;
  obs_terminal : option Z;
  obs_reward : option float
}.

(** Calls to collaborators, and the one assignment [self.finished = True]
    the temporal properties refer to. *)
Inductive Event : Type :=
| TimeTime
| TimeSleep
| AgentReset (evaluation : bool)
| AgentAct (states : option StateVal) (parallel : option nat) (evaluation : bool)
| AgentObserve (terminal : option Z) (reward : option float) (parallel : nat)
| AgentSave (directory : string)
| AgentClose
| EnvStartReset (n : nat)
| EnvStartExecute (n : nat) (actions : ActionVal)
| EnvReceiveExecute (n : nat)
| EnvClose (n : nat)
| CallbackCall (fn : nat) (parallel : nat)
| EvaluationCallbackCall
| TqdmCreate
| TqdmUpdate
| TqdmClose
| FinishedSet.

Abbreviation Trace := (list Event).

(** An [Environment] object, as far as the runner looks at it. *)
Record Environment : Type := mkEnvironment {
  env_states : Z;
  env_actions : Z
}.

(** [self.callback] is one of the closures built by [run]; user functions
    are named by a number. *)
Inductive Callback : Type :=
| DefaultCallback                         (* lambda r, p: True *)
| SequentialCallback (fns : list nat)
| BooleanCallback (fn : nat)
| TqdmCallback (inner : Callback).

(** [self.evaluation_callback] *)
Inductive EvaluationCallback : Type :=
| DefaultEvaluationCallback               (* lambda r: None *)
| UserEvaluationCallback
| MeanRewardCallback (inner : EvaluationCallback).

(** [episode_agent_second] and [episode_start] are lists with one entry
    per environment, or a single float when agent calls are joined. *)
Inductive Seconds : Type :=
| PerEnvironment (l : list float)
| Joint (f : float).

(** ** The runner object *)

Record Runner : Type := mkRunner {
  environments : list Environment;
  is_environment_external : bool;
  evaluation_environment : option Environment;
  is_eval_environment_external : bool;
  is_agent_external : bool;
  save_best_agent : option string;
  episode_rewards : list float;
  episode_timesteps : list Z;
  episode_seconds : list float;
  episode_agent_seconds : list float;
  evaluation_rewards : list float;
  evaluation_timesteps : list Z;
  evaluation_seconds : list float;
  evaluation_agent_seconds : list float;
  tqdm : bool;
  num_episodes : option Z;
  num_timesteps : option Z;
  num_updates : option Z;
  join_agent_calls : bool;
  sync_timesteps : bool;
  sync_episodes : bool;
  num_sleep_secs : float;
  callback_episode_frequency : option Z;
  callback_timestep_frequency : option Z;
  callback : Callback;
  timesteps : Z;
  episodes : Z;
  updates : Z;
  evaluation_callback : option EvaluationCallback;
  best_evaluation_score : option float;
  episode_reward : list float;
  episode_timestep : list Z;
  episode_agent_second : Seconds;
  episode_start : Seconds;
  evaluation_reward : float;
  evaluation_timestep : Z;
  evaluation_agent_second : float;
  finished : bool;
  prev_terminals : list (option Z);
  states : list (option StateVal);
  terminals : list (option Z);
  rewards : list (option float);
  actions : option (list ActionVal)
}.

Definition set_environments (v : list Environment) (r : Runner) : Runner :=
  mkRunner v (is_environment_external r) (evaluation_environment r)
    (is_eval_environment_external r) (is_agent_external r) (save_best_agent r)
    (episode_rewards r) (episode_timesteps r) (episode_seconds r) (episode_agent_seconds r)
    (evaluation_rewards r) (evaluation_timesteps r) (evaluation_seconds r)
    (evaluation_agent_seconds r) (tqdm r) (num_episodes r) (num_timesteps r) (num_updates r)
    (join_agent_calls r) (sync_timesteps r) (sync_episodes r) (num_sleep_secs r)
    (callback_episode_frequency r) (callback_timestep_frequency r) (callback r)
    (timesteps r) (episodes r) (updates r) (evaluation_callback r) (best_evaluation_score r)
    (episode_reward r) (episode_timestep r) (episode_agent_second r) (episode_start r)
    (evaluation_reward r) (evaluation_timestep r) (evaluation_agent_second r) (finished r)
    (prev_terminals r) (states r) (terminals r) (rewards r) (actions r).

Definition set_is_environment_external (v : bool) (r : Runner) : Runner :=
  mkRunner (environments r) v (evaluation_environment r) (is_eval_environment_external r)
    (is_agent_external r) (save_best_agent r) (episode_rewards r) (episode_timesteps r)
    (episode_seconds r) (episode_agent_seconds r) (evaluation_rewards r)
    (evaluation_timesteps r) (evaluation_seconds r) (evaluation_agent_seconds r) (tqdm r)
    (num_episodes r) (num_timesteps r) (num_updates r) (join_agent_calls r)
    (sync_timesteps r) (sync_episodes r) (num_sleep_secs r) (callback_episode_frequency r)
    (callback_timestep_frequency r) (callback r) (timesteps r) (episodes r) (updates r)
    (evaluation_callback r) (best_evaluation_score r) (episode_reward r)
    (episode_timestep r) (episode_agent_second r) (episode_start r) (evaluation_reward r)
    (evaluation_timestep r) (evaluation_agent_second r) (finished r) (prev_terminals r)
    (states r) (terminals r) (rewards r) (actions r).

Definition set_evaluation_environment (v : option Environment) (r : Runner) : Runner :=
  mkRunner (environments r) (is_environment_external r) v (is_eval_environment_external r)
    (is_agent_external r) (save_best_agent r) (episode_rewards r) (episode_timesteps r)
    (episode_seconds r) (episode_agent_seconds r) (evaluation_rewards r)
    (evaluation_timesteps r) (evaluation_seconds r) (evaluation_agent_seconds r) (tqdm r)
    (num_episodes r) (num_timesteps r) (num_updates r) (join_agent_calls r)
    (sync_timesteps r) (sync_episodes r) (num_sleep_secs r) (callback_episode_frequency r)
    (callback_timestep_frequency r) (callback r) (timesteps r) (episodes r) (updates r)
    (evaluation_callback r) (best_evaluation_score r) (episode_reward r)
    (episode_timestep r) (episode_agent_second r) (episode_start r) (evaluation_reward r)
    (evaluation_timestep r) (evaluation_agent_second r) (finished r) (prev_terminals r)
    (states r) (terminals r) (rewards r) (actions r).

Definition set_is_eval_environment_external (v : bool) (r : Runner) : Runner :=
  mkRunner (environments r) (is_environment_external r) (evaluation_environment r) v
    (is_agent_external r) (save_best_agent r) (episode_rewards r) (episode_timesteps r)
    (episode_seconds r) (episode_agent_seconds r) (evaluation_rewards r)
    (evaluation_timesteps r) (evaluation_seconds r) (evaluation_agent_seconds r) (tqdm r)
    (num_episodes r) (num_timesteps r) (num_updates r) (join_agent_calls r)
    (sync_timesteps r) (sync_episodes r) (num_sleep_secs r) (callback_episode_frequency r)
    (callback_timestep_frequency r) (callback r) (timesteps r) (episodes r) (updates r)
    (evaluation_callback r) (best_evaluation_score r) (episode_reward r)
    (episode_timestep r) (episode_agent_second r) (episode_start r) (evaluation_reward r)
    (evaluation_timestep r) (evaluation_agent_second r) (finished r) (prev_terminals r)
    (states r) (terminals r) (rewards r) (actions r).

Definition set_is_agent_external (v : bool) (r : Runner) : Runner :=
  mkRunner (environments r) (is_environment_external r) (evaluation_environment r)
    (is_eval_environment_external r) v (save_best_agent r) (episode_rewards r)
    (episode_timesteps r) (episode_seconds r) (episode_agent_seconds r)
    (evaluation_rewards r) (evaluation_timesteps r) (evaluation_seconds r)
    (evaluation_agent_seconds r) (tqdm r) (num_episodes r) (num_timesteps r) (num_updates r)
    (join_agent_calls r) (sync_timesteps r) (sync_episodes r) (num_sleep_secs r)
    (callback_episode_frequency r) (callback_timestep_frequency r) (callback r)
    (timesteps r) (episodes r) (updates r) (evaluation_callback r) (best_evaluation_score r)
    (episode_reward r) (episode_timestep r) (episode_agent_second r) (episode_start r)
    (evaluation_reward r) (evaluation_timestep r) (evaluation_agent_second r) (finished r)
    (prev_terminals r) (states r) (terminals r) (rewards r) (actions r).

Definition set_save_best_agent (v : option string) (r : Runner) : Runner :=
  mkRunner (environments r) (is_environment_external r) (evaluation_environment r)
    (is_eval_environment_external r) (is_agent_external r) v (episode_rewards r)
    (episode_timesteps r) (episode_seconds r) (episode_agent_seconds r)
    (evaluation_rewards r) (evaluation_timesteps r) (evaluation_seconds r)
    (evaluation_agent_seconds r) (tqdm r) (num_episodes r) (num_timesteps r) (num_updates r)
    (join_agent_calls r) (sync_timesteps r) (sync_episodes r) (num_sleep_secs r)
    (callback_episode_frequency r) (callback_timestep_frequency r) (callback r)
    (timesteps r) (episodes r) (updates r) (evaluation_callback r) (best_evaluation_score r)
    (episode_reward r) (episode_timestep r) (episode_agent_second r) (episode_start r)
    (evaluation_reward r) (evaluation_timestep r) (evaluation_agent_second r) (finished r)
    (prev_terminals r) (states r) (terminals r) (rewards r) (actions r).

Definition set_episode_rewards (v : list float) (r : Runner) : Runner :=
  mkRunner (environments r) (is_environment_external r) (evaluation_environment r)
    (is_eval_environment_external r) (is_agent_external r) (save_best_agent r) v
    (episode_timesteps r) (episode_seconds r) (episode_agent_seconds r)
    (evaluation_rewards r) (evaluation_timesteps r) (evaluation_seconds r)
    (evaluation_agent_seconds r) (tqdm r) (num_episodes r) (num_timesteps r) (num_updates r)
    (join_agent_calls r) (sync_timesteps r) (sync_episodes r) (num_sleep_secs r)
    (callback_episode_frequency r) (callback_timestep_frequency r) (callback r)
    (timesteps r) (episodes r) (updates r) (evaluation_callback r) (best_evaluation_score r)
    (episode_reward r) (episode_timestep r) (episode_agent_second r) (episode_start r)
    (evaluation_reward r) (evaluation_timestep r) (evaluation_agent_second r) (finished r)
    (prev_terminals r) (states r) (terminals r) (rewards r) (actions r).

Definition set_episode_timesteps (v : list Z) (r : Runner) : Runner :=
  mkRunner (environments r) (is_environment_external r) (evaluation_environment r)
    (is_eval_environment_external r) (is_agent_external r) (save_best_agent r)
    (episode_rewards r) v (episode_seconds r) (episode_agent_seconds r)
    (evaluation_rewards r) (evaluation_timesteps r) (evaluation_seconds r)
    (evaluation_agent_seconds r) (tqdm r) (num_episodes r) (num_timesteps r) (num_updates r)
    (join_agent_calls r) (sync_timesteps r) (sync_episodes r) (num_sleep_secs r)
    (callback_episode_frequency r) (callback_timestep_frequency r) (callback r)
    (timesteps r) (episodes r) (updates r) (evaluation_callback r) (best_evaluation_score r)
    (episode_reward r) (episode_timestep r) (episode_agent_second r) (episode_start r)
    (evaluation_reward r) (evaluation_timestep r) (evaluation_agent_second r) (finished r)
    (prev_terminals r) (states r) (terminals r) (rewards r) (actions r).

Definition set_episode_seconds (v : list float) (r : Runner) : Runner :=
  mkRunner (environments r) (is_environment_external r) (evaluation_environment r)
    (is_eval_environment_external r) (is_agent_external r) (save_best_agent r)
    (episode_rewards r) (episode_timesteps r) v (episode_agent_seconds r)
    (evaluation_rewards r) (evaluation_timesteps r) (evaluation_seconds r)
    (evaluation_agent_seconds r) (tqdm r) (num_episodes r) (num_timesteps r) (num_updates r)
    (join_agent_calls r) (sync_timesteps r) (sync_episodes r) (num_sleep_secs r)
    (callback_episode_frequency r) (callback_timestep_frequency r) (callback r)
    (timesteps r) (episodes r) (updates r) (evaluation_callback r) (best_evaluation_score r)
    (episode_reward r) (episode_timestep r) (episode_agent_second r) (episode_start r)
    (evaluation_reward r) (evaluation_timestep r) (evaluation_agent_second r) (finished r)
    (prev_terminals r) (states r) (terminals r) (rewards r) (actions r).

Definition set_episode_agent_seconds (v : list float) (r : Runner) : Runner :=
  mkRunner (environments r) (is_environment_external r) (evaluation_environment r)
    (is_eval_environment_external r) (is_agent_external r) (save_best_agent r)
    (episode_rewards r) (episode_timesteps r) (episode_seconds r) v (evaluation_rewards r)
    (evaluation_timesteps r) (evaluation_seconds r) (evaluation_agent_seconds r) (tqdm r)
    (num_episodes r) (num_timesteps r) (num_updates r) (join_agent_calls r)
    (sync_timesteps r) (sync_episodes r) (num_sleep_secs r) (callback_episode_frequency r)
    (callback_timestep_frequency r) (callback r) (timesteps r) (episodes r) (updates r)
    (evaluation_callback r) (best_evaluation_score r) (episode_reward r)
    (episode_timestep r) (episode_agent_second r) (episode_start r) (evaluation_reward r)
    (evaluation_timestep r) (evaluation_agent_second r) (finished r) (prev_terminals r)
    (states r) (terminals r) (rewards r) (actions r).

Definition set_evaluation_rewards (v : list float) (r : Runner) : Runner :=
  mkRunner (environments r) (is_environment_external r) (evaluation_environment r)
    (is_eval_environment_external r) (is_agent_external r) (save_best_agent r)
    (episode_rewards r) (episode_timesteps r) (episode_seconds r) (episode_agent_seconds r)
    v (evaluation_timesteps r) (evaluation_seconds r) (evaluation_agent_seconds r) (tqdm r)
    (num_episodes r) (num_timesteps r) (num_updates r) (join_agent_calls r)
    (sync_timesteps r) (sync_episodes r) (num_sleep_secs r) (callback_episode_frequency r)
    (callback_timestep_frequency r) (callback r) (timesteps r) (episodes r) (updates r)
    (evaluation_callback r) (best_evaluation_score r) (episode_reward r)
    (episode_timestep r) (episode_agent_second r) (episode_start r) (evaluation_reward r)
    (evaluation_timestep r) (evaluation_agent_second r) (finished r) (prev_terminals r)
    (states r) (terminals r) (rewards r) (actions r).

Definition set_evaluation_timesteps (v : list Z) (r : Runner) : Runner :=
  mkRunner (environments r) (is_environment_external r) (evaluation_environment r)
    (is_eval_environment_external r) (is_agent_external r) (save_best_agent r)
    (episode_rewards r) (episode_timesteps r) (episode_seconds r) (episode_agent_seconds r)
    (evaluation_rewards r) v (evaluation_seconds r) (evaluation_agent_seconds r) (tqdm r)
    (num_episodes r) (num_timesteps r) (num_updates r) (join_agent_calls r)
    (sync_timesteps r) (sync_episodes r) (num_sleep_secs r) (callback_episode_frequency r)
    (callback_timestep_frequency r) (callback r) (timesteps r) (episodes r) (updates r)
    (evaluation_callback r) (best_evaluation_score r) (episode_reward r)
    (episode_timestep r) (episode_agent_second r) (episode_start r) (evaluation_reward r)
    (evaluation_timestep r) (evaluation_agent_second r) (finished r) (prev_terminals r)
    (states r) (terminals r) (rewards r) (actions r).

Definition set_evaluation_seconds (v : list float) (r : Runner) : Runner :=
  mkRunner (environments r) (is_environment_external r) (evaluation_environment r)
    (is_eval_environment_external r) (is_agent_external r) (save_best_agent r)
    (episode_rewards r) (episode_timesteps r) (episode_seconds r) (episode_agent_seconds r)
    (evaluation_rewards r) (evaluation_timesteps r) v (evaluation_agent_seconds r) (tqdm r)
    (num_episodes r) (num_timesteps r) (num_updates r) (join_agent_calls r)
    (sync_timesteps r) (sync_episodes r) (num_sleep_secs r) (callback_episode_frequency r)
    (callback_timestep_frequency r) (callback r) (timesteps r) (episodes r) (updates r)
    (evaluation_callback r) (best_evaluation_score r) (episode_reward r)
    (episode_timestep r) (episode_agent_second r) (episode_start r) (evaluation_reward r)
    (evaluation_timestep r) (evaluation_agent_second r) (finished r) (prev_terminals r)
    (states r) (terminals r) (rewards r) (actions r).

Definition set_evaluation_agent_seconds (v : list float) (r : Runner) : Runner :=
  mkRunner (environments r) (is_environment_external r) (evaluation_environment r)
    (is_eval_environment_external r) (is_agent_external r) (save_best_agent r)
    (episode_rewards r) (episode_timesteps r) (episode_seconds r) (episode_agent_seconds r)
    (evaluation_rewards r) (evaluation_timesteps r) (evaluation_seconds r) v (tqdm r)
    (num_episodes r) (num_timesteps r) (num_updates r) (join_agent_calls r)
    (sync_timesteps r) (sync_episodes r) (num_sleep_secs r) (callback_episode_frequency r)
    (callback_timestep_frequency r) (callback r) (timesteps r) (episodes r) (updates r)
    (evaluation_callback r) (best_evaluation_score r) (episode_reward r)
    (episode_timestep r) (episode_agent_second r) (episode_start r) (evaluation_reward r)
    (evaluation_timestep r) (evaluation_agent_second r) (finished r) (prev_terminals r)
    (states r) (terminals r) (rewards r) (actions r).

Definition set_tqdm (v : bool) (r : Runner) : Runner :=
  mkRunner (environments r) (is_environment_external r) (evaluation_environment r)
    (is_eval_environment_external r) (is_agent_external r) (save_best_agent r)
    (episode_rewards r) (episode_timesteps r) (episode_seconds r) (episode_agent_seconds r)
    (evaluation_rewards r) (evaluation_timesteps r) (evaluation_seconds r)
    (evaluation_agent_seconds r) v (num_episodes r) (num_timesteps r) (num_updates r)
    (join_agent_calls r) (sync_timesteps r) (sync_episodes r) (num_sleep_secs r)
    (callback_episode_frequency r) (callback_timestep_frequency r) (callback r)
    (timesteps r) (episodes r) (updates r) (evaluation_callback r) (best_evaluation_score r)
    (episode_reward r) (episode_timestep r) (episode_agent_second r) (episode_start r)
    (evaluation_reward r) (evaluation_timestep r) (evaluation_agent_second r) (finished r)
    (prev_terminals r) (states r) (terminals r) (rewards r) (actions r).

Definition set_num_episodes (v : option Z) (r : Runner) : Runner :=
  mkRunner (environments r) (is_environment_external r) (evaluation_environment r)
    (is_eval_environment_external r) (is_agent_external r) (save_best_agent r)
    (episode_rewards r) (episode_timesteps r) (episode_seconds r) (episode_agent_seconds r)
    (evaluation_rewards r) (evaluation_timesteps r) (evaluation_seconds r)
    (evaluation_agent_seconds r) (tqdm r) v (num_timesteps r) (num_updates r)
    (join_agent_calls r) (sync_timesteps r) (sync_episodes r) (num_sleep_secs r)
    (callback_episode_frequency r) (callback_timestep_frequency r) (callback r)
    (timesteps r) (episodes r) (updates r) (evaluation_callback r) (best_evaluation_score r)
    (episode_reward r) (episode_timestep r) (episode_agent_second r) (episode_start r)
    (evaluation_reward r) (evaluation_timestep r) (evaluation_agent_second r) (finished r)
    (prev_terminals r) (states r) (terminals r) (rewards r) (actions r).

Definition set_num_timesteps (v : option Z) (r : Runner) : Runner :=
  mkRunner (environments r) (is_environment_external r) (evaluation_environment r)
    (is_eval_environment_external r) (is_agent_external r) (save_best_agent r)
    (episode_rewards r) (episode_timesteps r) (episode_seconds r) (episode_agent_seconds r)
    (evaluation_rewards r) (evaluation_timesteps r) (evaluation_seconds r)
    (evaluation_agent_seconds r) (tqdm r) (num_episodes r) v (num_updates r)
    (join_agent_calls r) (sync_timesteps r) (sync_episodes r) (num_sleep_secs r)
    (callback_episode_frequency r) (callback_timestep_frequency r) (callback r)
    (timesteps r) (episodes r) (updates r) (evaluation_callback r) (best_evaluation_score r)
    (episode_reward r) (episode_timestep r) (episode_agent_second r) (episode_start r)
    (evaluation_reward r) (evaluation_timestep r) (evaluation_agent_second r) (finished r)
    (prev_terminals r) (states r) (terminals r) (rewards r) (actions r).

Definition set_num_updates (v : option Z) (r : Runner) : Runner :=
  mkRunner (environments r) (is_environment_external r) (evaluation_environment r)
    (is_eval_environment_external r) (is_agent_external r) (save_best_agent r)
    (episode_rewards r) (episode_timesteps r) (episode_seconds r) (episode_agent_seconds r)
    (evaluation_rewards r) (evaluation_timesteps r) (evaluation_seconds r)
    (evaluation_agent_seconds r) (tqdm r) (num_episodes r) (num_timesteps r) v
    (join_agent_calls r) (sync_timesteps r) (sync_episodes r) (num_sleep_secs r)
    (callback_episode_frequency r) (callback_timestep_frequency r) (callback r)
    (timesteps r) (episodes r) (updates r) (evaluation_callback r) (best_evaluation_score r)
    (episode_reward r) (episode_timestep r) (episode_agent_second r) (episode_start r)
    (evaluation_reward r) (evaluation_timestep r) (evaluation_agent_second r) (finished r)
    (prev_terminals r) (states r) (terminals r) (rewards r) (actions r).

Definition set_join_agent_calls (v : bool) (r : Runner) : Runner :=
  mkRunner (environments r) (is_environment_external r) (evaluation_environment r)
    (is_eval_environment_external r) (is_agent_external r) (save_best_agent r)
    (episode_rewards r) (episode_timesteps r) (episode_seconds r) (episode_agent_seconds r)
    (evaluation_rewards r) (evaluation_timesteps r) (evaluation_seconds r)
    (evaluation_agent_seconds r) (tqdm r) (num_episodes r) (num_timesteps r) (num_updates r)
    v (sync_timesteps r) (sync_episodes r) (num_sleep_secs r) (callback_episode_frequency r)
    (callback_timestep_frequency r) (callback r) (timesteps r) (episodes r) (updates r)
    (evaluation_callback r) (best_evaluation_score r) (episode_reward r)
    (episode_timestep r) (episode_agent_second r) (episode_start r) (evaluation_reward r)
    (evaluation_timestep r) (evaluation_agent_second r) (finished r) (prev_terminals r)
    (states r) (terminals r) (rewards r) (actions r).

Definition set_sync_timesteps (v : bool) (r : Runner) : Runner :=
  mkRunner (environments r) (is_environment_external r) (evaluation_environment r)
    (is_eval_environment_external r) (is_agent_external r) (save_best_agent r)
    (episode_rewards r) (episode_timesteps r) (episode_seconds r) (episode_agent_seconds r)
    (evaluation_rewards r) (evaluation_timesteps r) (evaluation_seconds r)
    (evaluation_agent_seconds r) (tqdm r) (num_episodes r) (num_timesteps r) (num_updates r)
    (join_agent_calls r) v (sync_episodes r) (num_sleep_secs r)
    (callback_episode_frequency r) (callback_timestep_frequency r) (callback r)
    (timesteps r) (episodes r) (updates r) (evaluation_callback r) (best_evaluation_score r)
    (episode_reward r) (episode_timestep r) (episode_agent_second r) (episode_start r)
    (evaluation_reward r) (evaluation_timestep r) (evaluation_agent_second r) (finished r)
    (prev_terminals r) (states r) (terminals r) (rewards r) (actions r).

Definition set_sync_episodes (v : bool) (r : Runner) : Runner :=
  mkRunner (environments r) (is_environment_external r) (evaluation_environment r)
    (is_eval_environment_external r) (is_agent_external r) (save_best_agent r)
    (episode_rewards r) (episode_timesteps r) (episode_seconds r) (episode_agent_seconds r)
    (evaluation_rewards r) (evaluation_timesteps r) (evaluation_seconds r)
    (evaluation_agent_seconds r) (tqdm r) (num_episodes r) (num_timesteps r) (num_updates r)
    (join_agent_calls r) (sync_timesteps r) v (num_sleep_secs r)
    (callback_episode_frequency r) (callback_timestep_frequency r) (callback r)
    (timesteps r) (episodes r) (updates r) (evaluation_callback r) (best_evaluation_score r)
    (episode_reward r) (episode_timestep r) (episode_agent_second r) (episode_start r)
    (evaluation_reward r) (evaluation_timestep r) (evaluation_agent_second r) (finished r)
    (prev_terminals r) (states r) (terminals r) (rewards r) (actions r).

Definition set_num_sleep_secs (v : float) (r : Runner) : Runner :=
  mkRunner (environments r) (is_environment_external r) (evaluation_environment r)
    (is_eval_environment_external r) (is_agent_external r) (save_best_agent r)
    (episode_rewards r) (episode_timesteps r) (episode_seconds r) (episode_agent_seconds r)
    (evaluation_rewards r) (evaluation_timesteps r) (evaluation_seconds r)
    (evaluation_agent_seconds r) (tqdm r) (num_episodes r) (num_timesteps r) (num_updates r)
    (join_agent_calls r) (sync_timesteps r) (sync_episodes r) v
    (callback_episode_frequency r) (callback_timestep_frequency r) (callback r)
    (timesteps r) (episodes r) (updates r) (evaluation_callback r) (best_evaluation_score r)
    (episode_reward r) (episode_timestep r) (episode_agent_second r) (episode_start r)
    (evaluation_reward r) (evaluation_timestep r) (evaluation_agent_second r) (finished r)
    (prev_terminals r) (states r) (terminals r) (rewards r) (actions r).

Definition set_callback_episode_frequency (v : option Z) (r : Runner) : Runner :=
  mkRunner (environments r) (is_environment_external r) (evaluation_environment r)
    (is_eval_environment_external r) (is_agent_external r) (save_best_agent r)
    (episode_rewards r) (episode_timesteps r) (episode_seconds r) (episode_agent_seconds r)
    (evaluation_rewards r) (evaluation_timesteps r) (evaluation_seconds r)
    (evaluation_agent_seconds r) (tqdm r) (num_episodes r) (num_timesteps r) (num_updates r)
    (join_agent_calls r) (sync_timesteps r) (sync_episodes r) (num_sleep_secs r) v
    (callback_timestep_frequency r) (callback r) (timesteps r) (episodes r) (updates r)
    (evaluation_callback r) (best_evaluation_score r) (episode_reward r)
    (episode_timestep r) (episode_agent_second r) (episode_start r) (evaluation_reward r)
    (evaluation_timestep r) (evaluation_agent_second r) (finished r) (prev_terminals r)
    (states r) (terminals r) (rewards r) (actions r).

Definition set_callback_timestep_frequency (v : option Z) (r : Runner) : Runner :=
  mkRunner (environments r) (is_environment_external r) (evaluation_environment r)
    (is_eval_environment_external r) (is_agent_external r) (save_best_agent r)
    (episode_rewards r) (episode_timesteps r) (episode_seconds r) (episode_agent_seconds r)
    (evaluation_rewards r) (evaluation_timesteps r) (evaluation_seconds r)
    (evaluation_agent_seconds r) (tqdm r) (num_episodes r) (num_timesteps r) (num_updates r)
    (join_agent_calls r) (sync_timesteps r) (sync_episodes r) (num_sleep_secs r)
    (callback_episode_frequency r) v (callback r) (timesteps r) (episodes r) (updates r)
    (evaluation_callback r) (best_evaluation_score r) (episode_reward r)
    (episode_timestep r) (episode_agent_second r) (episode_start r) (evaluation_reward r)
    (evaluation_timestep r) (evaluation_agent_second r) (finished r) (prev_terminals r)
    (states r) (terminals r) (rewards r) (actions r).

Definition set_callback (v : Callback) (r : Runner) : Runner :=
  mkRunner (environments r) (is_environment_external r) (evaluation_environment r)
    (is_eval_environment_external r) (is_agent_external r) (save_best_agent r)
    (episode_rewards r) (episode_timesteps r) (episode_seconds r) (episode_agent_seconds r)
    (evaluation_rewards r) (evaluation_timesteps r) (evaluation_seconds r)
    (evaluation_agent_seconds r) (tqdm r) (num_episodes r) (num_timesteps r) (num_updates r)
    (join_agent_calls r) (sync_timesteps r) (sync_episodes r) (num_sleep_secs r)
    (callback_episode_frequency r) (callback_timestep_frequency r) v (timesteps r)
    (episodes r) (updates r) (evaluation_callback r) (best_evaluation_score r)
    (episode_reward r) (episode_timestep r) (episode_agent_second r) (episode_start r)
    (evaluation_reward r) (evaluation_timestep r) (evaluation_agent_second r) (finished r)
    (prev_terminals r) (states r) (terminals r) (rewards r) (actions r).

Definition set_timesteps (v : Z) (r : Runner) : Runner :=
  mkRunner (environments r) (is_environment_external r) (evaluation_environment r)
    (is_eval_environment_external r) (is_agent_external r) (save_best_agent r)
    (episode_rewards r) (episode_timesteps r) (episode_seconds r) (episode_agent_seconds r)
    (evaluation_rewards r) (evaluation_timesteps r) (evaluation_seconds r)
    (evaluation_agent_seconds r) (tqdm r) (num_episodes r) (num_timesteps r) (num_updates r)
    (join_agent_calls r) (sync_timesteps r) (sync_episodes r) (num_sleep_secs r)
    (callback_episode_frequency r) (callback_timestep_frequency r) (callback r) v
    (episodes r) (updates r) (evaluation_callback r) (best_evaluation_score r)
    (episode_reward r) (episode_timestep r) (episode_agent_second r) (episode_start r)
    (evaluation_reward r) (evaluation_timestep r) (evaluation_agent_second r) (finished r)
    (prev_terminals r) (states r) (terminals r) (rewards r) (actions r).

Definition set_episodes (v : Z) (r : Runner) : Runner :=
  mkRunner (environments r) (is_environment_external r) (evaluation_environment r)
    (is_eval_environment_external r) (is_agent_external r) (save_best_agent r)
    (episode_rewards r) (episode_timesteps r) (episode_seconds r) (episode_agent_seconds r)
    (evaluation_rewards r) (evaluation_timesteps r) (evaluation_seconds r)
    (evaluation_agent_seconds r) (tqdm r) (num_episodes r) (num_timesteps r) (num_updates r)
    (join_agent_calls r) (sync_timesteps r) (sync_episodes r) (num_sleep_secs r)
    (callback_episode_frequency r) (callback_timestep_frequency r) (callback r)
    (timesteps r) v (updates r) (evaluation_callback r) (best_evaluation_score r)
    (episode_reward r) (episode_timestep r) (episode_agent_second r) (episode_start r)
    (evaluation_reward r) (evaluation_timestep r) (evaluation_agent_second r) (finished r)
    (prev_terminals r) (states r) (terminals r) (rewards r) (actions r).

Definition set_updates (v : Z) (r : Runner) : Runner :=
  mkRunner (environments r) (is_environment_external r) (evaluation_environment r)
    (is_eval_environment_external r) (is_agent_external r) (save_best_agent r)
    (episode_rewards r) (episode_timesteps r) (episode_seconds r) (episode_agent_seconds r)
    (evaluation_rewards r) (evaluation_timesteps r) (evaluation_seconds r)
    (evaluation_agent_seconds r) (tqdm r) (num_episodes r) (num_timesteps r) (num_updates r)
    (join_agent_calls r) (sync_timesteps r) (sync_episodes r) (num_sleep_secs r)
    (callback_episode_frequency r) (callback_timestep_frequency r) (callback r)
    (timesteps r) (episodes r) v (evaluation_callback r) (best_evaluation_score r)
    (episode_reward r) (episode_timestep r) (episode_agent_second r) (episode_start r)
    (evaluation_reward r) (evaluation_timestep r) (evaluation_agent_second r) (finished r)
    (prev_terminals r) (states r) (terminals r) (rewards r) (actions r).

Definition set_evaluation_callback (v : option EvaluationCallback) (r : Runner) : Runner :=
  mkRunner (environments r) (is_environment_external r) (evaluation_environment r)
    (is_eval_environment_external r) (is_agent_external r) (save_best_agent r)
    (episode_rewards r) (episode_timesteps r) (episode_seconds r) (episode_agent_seconds r)
    (evaluation_rewards r) (evaluation_timesteps r) (evaluation_seconds r)
    (evaluation_agent_seconds r) (tqdm r) (num_episodes r) (num_timesteps r) (num_updates r)
    (join_agent_calls r) (sync_timesteps r) (sync_episodes r) (num_sleep_secs r)
    (callback_episode_frequency r) (callback_timestep_frequency r) (callback r)
    (timesteps r) (episodes r) (updates r) v (best_evaluation_score r) (episode_reward r)
    (episode_timestep r) (episode_agent_second r) (episode_start r) (evaluation_reward r)
    (evaluation_timestep r) (evaluation_agent_second r) (finished r) (prev_terminals r)
    (states r) (terminals r) (rewards r) (actions r).

Definition set_best_evaluation_score (v : option float) (r : Runner) : Runner :=
  mkRunner (environments r) (is_environment_external r) (evaluation_environment r)
    (is_eval_environment_external r) (is_agent_external r) (save_best_agent r)
    (episode_rewards r) (episode_timesteps r) (episode_seconds r) (episode_agent_seconds r)
    (evaluation_rewards r) (evaluation_timesteps r) (evaluation_seconds r)
    (evaluation_agent_seconds r) (tqdm r) (num_episodes r) (num_timesteps r) (num_updates r)
    (join_agent_calls r) (sync_timesteps r) (sync_episodes r) (num_sleep_secs r)
    (callback_episode_frequency r) (callback_timestep_frequency r) (callback r)
    (timesteps r) (episodes r) (updates r) (evaluation_callback r) v (episode_reward r)
    (episode_timestep r) (episode_agent_second r) (episode_start r) (evaluation_reward r)
    (evaluation_timestep r) (evaluation_agent_second r) (finished r) (prev_terminals r)
    (states r) (terminals r) (rewards r) (actions r).

Definition set_episode_reward (v : list float) (r : Runner) : Runner :=
  mkRunner (environments r) (is_environment_external r) (evaluation_environment r)
    (is_eval_environment_external r) (is_agent_external r) (save_best_agent r)
    (episode_rewards r) (episode_timesteps r) (episode_seconds r) (episode_agent_seconds r)
    (evaluation_rewards r) (evaluation_timesteps r) (evaluation_seconds r)
    (evaluation_agent_seconds r) (tqdm r) (num_episodes r) (num_timesteps r) (num_updates r)
    (join_agent_calls r) (sync_timesteps r) (sync_episodes r) (num_sleep_secs r)
    (callback_episode_frequency r) (callback_timestep_frequency r) (callback r)
    (timesteps r) (episodes r) (updates r) (evaluation_callback r) (best_evaluation_score r)
    v (episode_timestep r) (episode_agent_second r) (episode_start r) (evaluation_reward r)
    (evaluation_timestep r) (evaluation_agent_second r) (finished r) (prev_terminals r)
    (states r) (terminals r) (rewards r) (actions r).

Definition set_episode_timestep (v : list Z) (r : Runner) : Runner :=
  mkRunner (environments r) (is_environment_external r) (evaluation_environment r)
    (is_eval_environment_external r) (is_agent_external r) (save_best_agent r)
    (episode_rewards r) (episode_timesteps r) (episode_seconds r) (episode_agent_seconds r)
    (evaluation_rewards r) (evaluation_timesteps r) (evaluation_seconds r)
    (evaluation_agent_seconds r) (tqdm r) (num_episodes r) (num_timesteps r) (num_updates r)
    (join_agent_calls r) (sync_timesteps r) (sync_episodes r) (num_sleep_secs r)
    (callback_episode_frequency r) (callback_timestep_frequency r) (callback r)
    (timesteps r) (episodes r) (updates r) (evaluation_callback r) (best_evaluation_score r)
    (episode_reward r) v (episode_agent_second r) (episode_start r) (evaluation_reward r)
    (evaluation_timestep r) (evaluation_agent_second r) (finished r) (prev_terminals r)
    (states r) (terminals r) (rewards r) (actions r).

Definition set_episode_agent_second (v : Seconds) (r : Runner) : Runner :=
  mkRunner (environments r) (is_environment_external r) (evaluation_environment r)
    (is_eval_environment_external r) (is_agent_external r) (save_best_agent r)
    (episode_rewards r) (episode_timesteps r) (episode_seconds r) (episode_agent_seconds r)
    (evaluation_rewards r) (evaluation_timesteps r) (evaluation_seconds r)
    (evaluation_agent_seconds r) (tqdm r) (num_episodes r) (num_timesteps r) (num_updates r)
    (join_agent_calls r) (sync_timesteps r) (sync_episodes r) (num_sleep_secs r)
    (callback_episode_frequency r) (callback_timestep_frequency r) (callback r)
    (timesteps r) (episodes r) (updates r) (evaluation_callback r) (best_evaluation_score r)
    (episode_reward r) (episode_timestep r) v (episode_start r) (evaluation_reward r)
    (evaluation_timestep r) (evaluation_agent_second r) (finished r) (prev_terminals r)
    (states r) (terminals r) (rewards r) (actions r).

Definition set_episode_start (v : Seconds) (r : Runner) : Runner :=
  mkRunner (environments r) (is_environment_external r) (evaluation_environment r)
    (is_eval_environment_external r) (is_agent_external r) (save_best_agent r)
    (episode_rewards r) (episode_timesteps r) (episode_seconds r) (episode_agent_seconds r)
    (evaluation_rewards r) (evaluation_timesteps r) (evaluation_seconds r)
    (evaluation_agent_seconds r) (tqdm r) (num_episodes r) (num_timesteps r) (num_updates r)
    (join_agent_calls r) (sync_timesteps r) (sync_episodes r) (num_sleep_secs r)
    (callback_episode_frequency r) (callback_timestep_frequency r) (callback r)
    (timesteps r) (episodes r) (updates r) (evaluation_callback r) (best_evaluation_score r)
    (episode_reward r) (episode_timestep r) (episode_agent_second r) v (evaluation_reward r)
    (evaluation_timestep r) (evaluation_agent_second r) (finished r) (prev_terminals r)
    (states r) (terminals r) (rewards r) (actions r).

Definition set_evaluation_reward (v : float) (r : Runner) : Runner :=
  mkRunner (environments r) (is_environment_external r) (evaluation_environment r)
    (is_eval_environment_external r) (is_agent_external r) (save_best_agent r)
    (episode_rewards r) (episode_timesteps r) (episode_seconds r) (episode_agent_seconds r)
    (evaluation_rewards r) (evaluation_timesteps r) (evaluation_seconds r)
    (evaluation_agent_seconds r) (tqdm r) (num_episodes r) (num_timesteps r) (num_updates r)
    (join_agent_calls r) (sync_timesteps r) (sync_episodes r) (num_sleep_secs r)
    (callback_episode_frequency r) (callback_timestep_frequency r) (callback r)
    (timesteps r) (episodes r) (updates r) (evaluation_callback r) (best_evaluation_score r)
    (episode_reward r) (episode_timestep r) (episode_agent_second r) (episode_start r) v
    (evaluation_timestep r) (evaluation_agent_second r) (finished r) (prev_terminals r)
    (states r) (terminals r) (rewards r) (actions r).

Definition set_evaluation_timestep (v : Z) (r : Runner) : Runner :=
  mkRunner (environments r) (is_environment_external r) (evaluation_environment r)
    (is_eval_environment_external r) (is_agent_external r) (save_best_agent r)
    (episode_rewards r) (episode_timesteps r) (episode_seconds r) (episode_agent_seconds r)
    (evaluation_rewards r) (evaluation_timesteps r) (evaluation_seconds r)
    (evaluation_agent_seconds r) (tqdm r) (num_episodes r) (num_timesteps r) (num_updates r)
    (join_agent_calls r) (sync_timesteps r) (sync_episodes r) (num_sleep_secs r)
    (callback_episode_frequency r) (callback_timestep_frequency r) (callback r)
    (timesteps r) (episodes r) (updates r) (evaluation_callback r) (best_evaluation_score r)
    (episode_reward r) (episode_timestep r) (episode_agent_second r) (episode_start r)
    (evaluation_reward r) v (evaluation_agent_second r) (finished r) (prev_terminals r)
    (states r) (terminals r) (rewards r) (actions r).

Definition set_evaluation_agent_second (v : float) (r : Runner) : Runner :=
  mkRunner (environments r) (is_environment_external r) (evaluation_environment r)
    (is_eval_environment_external r) (is_agent_external r) (save_best_agent r)
    (episode_rewards r) (episode_timesteps r) (episode_seconds r) (episode_agent_seconds r)
    (evaluation_rewards r) (evaluation_timesteps r) (evaluation_seconds r)
    (evaluation_agent_seconds r) (tqdm r) (num_episodes r) (num_timesteps r) (num_updates r)
    (join_agent_calls r) (sync_timesteps r) (sync_episodes r) (num_sleep_secs r)
    (callback_episode_frequency r) (callback_timestep_frequency r) (callback r)
    (timesteps r) (episodes r) (updates r) (evaluation_callback r) (best_evaluation_score r)
    (episode_reward r) (episode_timestep r) (episode_agent_second r) (episode_start r)
    (evaluation_reward r) (evaluation_timestep r) v (finished r) (prev_terminals r)
    (states r) (terminals r) (rewards r) (actions r).

Definition set_finished (v : bool) (r : Runner) : Runner :=
  mkRunner (environments r) (is_environment_external r) (evaluation_environment r)
    (is_eval_environment_external r) (is_agent_external r) (save_best_agent r)
    (episode_rewards r) (episode_timesteps r) (episode_seconds r) (episode_agent_seconds r)
    (evaluation_rewards r) (evaluation_timesteps r) (evaluation_seconds r)
    (evaluation_agent_seconds r) (tqdm r) (num_episodes r) (num_timesteps r) (num_updates r)
    (join_agent_calls r) (sync_timesteps r) (sync_episodes r) (num_sleep_secs r)
    (callback_episode_frequency r) (callback_timestep_frequency r) (callback r)
    (timesteps r) (episodes r) (updates r) (evaluation_callback r) (best_evaluation_score r)
    (episode_reward r) (episode_timestep r) (episode_agent_second r) (episode_start r)
    (evaluation_reward r) (evaluation_timestep r) (evaluation_agent_second r) v
    (prev_terminals r) (states r) (terminals r) (rewards r) (actions r).

Definition set_prev_terminals (v : list (option Z)) (r : Runner) : Runner :=
  mkRunner (environments r) (is_environment_external r) (evaluation_environment r)
    (is_eval_environment_external r) (is_agent_external r) (save_best_agent r)
    (episode_rewards r) (episode_timesteps r) (episode_seconds r) (episode_agent_seconds r)
    (evaluation_rewards r) (evaluation_timesteps r) (evaluation_seconds r)
    (evaluation_agent_seconds r) (tqdm r) (num_episodes r) (num_timesteps r) (num_updates r)
    (join_agent_calls r) (sync_timesteps r) (sync_episodes r) (num_sleep_secs r)
    (callback_episode_frequency r) (callback_timestep_frequency r) (callback r)
    (timesteps r) (episodes r) (updates r) (evaluation_callback r) (best_evaluation_score r)
    (episode_reward r) (episode_timestep r) (episode_agent_second r) (episode_start r)
    (evaluation_reward r) (evaluation_timestep r) (evaluation_agent_second r) (finished r) v
    (states r) (terminals r) (rewards r) (actions r).

Definition set_states (v : list (option StateVal)) (r : Runner) : Runner :=
  mkRunner (environments r) (is_environment_external r) (evaluation_environment r)
    (is_eval_environment_external r) (is_agent_external r) (save_best_agent r)
    (episode_rewards r) (episode_timesteps r) (episode_seconds r) (episode_agent_seconds r)
    (evaluation_rewards r) (evaluation_timesteps r) (evaluation_seconds r)
    (evaluation_agent_seconds r) (tqdm r) (num_episodes r) (num_timesteps r) (num_updates r)
    (join_agent_calls r) (sync_timesteps r) (sync_episodes r) (num_sleep_secs r)
    (callback_episode_frequency r) (callback_timestep_frequency r) (callback r)
    (timesteps r) (episodes r) (updates r) (evaluation_callback r) (best_evaluation_score r)
    (episode_reward r) (episode_timestep r) (episode_agent_second r) (episode_start r)
    (evaluation_reward r) (evaluation_timestep r) (evaluation_agent_second r) (finished r)
    (prev_terminals r) v (terminals r) (rewards r) (actions r).

Definition set_terminals (v : list (option Z)) (r : Runner) : Runner :=
  mkRunner (environments r) (is_environment_external r) (evaluation_environment r)
    (is_eval_environment_external r) (is_agent_external r) (save_best_agent r)
    (episode_rewards r) (episode_timesteps r) (episode_seconds r) (episode_agent_seconds r)
    (evaluation_rewards r) (evaluation_timesteps r) (evaluation_seconds r)
    (evaluation_agent_seconds r) (tqdm r) (num_episodes r) (num_timesteps r) (num_updates r)
    (join_agent_calls r) (sync_timesteps r) (sync_episodes r) (num_sleep_secs r)
    (callback_episode_frequency r) (callback_timestep_frequency r) (callback r)
    (timesteps r) (episodes r) (updates r) (evaluation_callback r) (best_evaluation_score r)
    (episode_reward r) (episode_timestep r) (episode_agent_second r) (episode_start r)
    (evaluation_reward r) (evaluation_timestep r) (evaluation_agent_second r) (finished r)
    (prev_terminals r) (states r) v (rewards r) (actions r).

Definition set_rewards (v : list (option float)) (r : Runner) : Runner :=
  mkRunner (environments r) (is_environment_external r) (evaluation_environment r)
    (is_eval_environment_external r) (is_agent_external r) (save_best_agent r)
    (episode_rewards r) (episode_timesteps r) (episode_seconds r) (episode_agent_seconds r)
    (evaluation_rewards r) (evaluation_timesteps r) (evaluation_seconds r)
    (evaluation_agent_seconds r) (tqdm r) (num_episodes r) (num_timesteps r) (num_updates r)
    (join_agent_calls r) (sync_timesteps r) (sync_episodes r) (num_sleep_secs r)
    (callback_episode_frequency r) (callback_timestep_frequency r) (callback r)
    (timesteps r) (episodes r) (updates r) (evaluation_callback r) (best_evaluation_score r)
    (episode_reward r) (episode_timestep r) (episode_agent_second r) (episode_start r)
    (evaluation_reward r) (evaluation_timestep r) (evaluation_agent_second r) (finished r)
    (prev_terminals r) (states r) (terminals r) v (actions r).

Definition set_actions (v : option (list ActionVal)) (r : Runner) : Runner :=
  mkRunner (environments r) (is_environment_external r) (evaluation_environment r)
    (is_eval_environment_external r) (is_agent_external r) (save_best_agent r)
    (episode_rewards r) (episode_timesteps r) (episode_seconds r) (episode_agent_seconds r)
    (evaluation_rewards r) (evaluation_timesteps r) (evaluation_seconds r)
    (evaluation_agent_seconds r) (tqdm r) (num_episodes r) (num_timesteps r) (num_updates r)
    (join_agent_calls r) (sync_timesteps r) (sync_episodes r) (num_sleep_secs r)
    (callback_episode_frequency r) (callback_timestep_frequency r) (callback r)
    (timesteps r) (episodes r) (updates r) (evaluation_callback r) (best_evaluation_score r)
    (episode_reward r) (episode_timestep r) (episode_agent_second r) (episode_start r)
    (evaluation_reward r) (evaluation_timestep r) (evaluation_agent_second r) (finished r)
    (prev_terminals r) (states r) (terminals r) (rewards r) v.

(** ** The collaborators' answers

    Each oracle sees the trace of all calls made so far, so an environment
    may answer "not ready" to one poll and deliver on the next, and a
    callback may answer differently on its second invocation. *)

Record World : Type := mkWorld {
  clock : Trace -> float;                                 (* time.time() *)
  act_result : Trace -> ActionVal;                        (* agent.act(...) *)
  observe_result : Trace -> bool;                         (* agent.observe(...) *)
  poll_result : nat -> Trace -> option Observation;       (* receive_execute() *)
  callback_result : nat -> Trace -> Runner -> nat -> PyVal;
  evaluation_callback_result : Trace -> Runner -> PyVal
}.

(** ** The monad of runner methods *)

Abbreviation St := (Runner * list Event)%type.

Inductive Outcome (A : Type) : Type :=
| Returned (a : A) (s : St)
| Raised (e : Exn) (s : St)
| Unfinished (s : St).          (* a loop was cut off by its bound *)

Arguments Returned {A} a s.
Arguments Raised {A} e s.
Arguments Unfinished {A} s.

Definition final {A} (o : Outcome A) : St :=
  match o with
  | Returned _ s => s
  | Raised _ s => s
  | Unfinished s => s
  end.

Definition M (A : Type) : Type := St -> Outcome A.

Definition ret {A} (a : A) : M A := fun s => Returned a s.

Definition bind {A B} (m : M A) (k : A -> M B) : M B :=
  fun s =>
    match m s with
    | Returned a s' => k a s'
    | Raised e s' => Raised e s'
    | Unfinished s' => Unfinished s'
    end.

Declare Scope runner_scope.
Delimit Scope runner_scope with runner.
Bind Scope runner_scope with M.

Notation "x <- m ;; k" := (bind m (fun x => k))
  (at level 100, m at level 99, k at level 200, right associativity) : runner_scope.
Notation "m ;; k" := (bind m (fun _ => k))
  (at level 100, k at level 200, right associativity) : runner_scope.

Local Open Scope runner_scope.

Definition raise {A} (e : Exn) : M A := fun s => Raised e s.

Definition unfinished {A} : M A := fun s => Unfinished s.

(** [self.f] *)
Definition attr {A} (f : Runner -> A) : M A := fun s => Returned (f s.1) s.

(** [self.f = v], with [upd] one of the setters above. *)
Definition assign (upd : Runner -> Runner) : M unit :=
  fun s => Returned tt (upd s.1, s.2).

Definition emit (e : Event) : M unit :=
  fun s => Returned tt (s.1, s.2 ++ [e]).

(** [self.finished = True] *)
Definition finish : M unit :=
  fun s => Returned tt (set_finished true s.1, s.2 ++ [FinishedSet]).

Definition py_assert (b : bool) : M unit :=
  if b then ret tt else raise AssertionError.

(** [x is not None] *)
Definition is_set {A} (x : option A) : bool :=
  match x with
  | Some _ => true
  | None => false
  end.

Definition lift {A} (x : Exn + A) : M A :=
  match x with
  | inl e => raise e
  | inr a => ret a
  end.

Definition when (b : bool) (m : M unit) : M unit :=
  if b then m else ret tt.

(** [l[i]] *)
Definition getitem {A} (l : list A) (i : nat) : M A :=
  match l !! i with
  | Some x => ret x
  | None => raise IndexError
  end.

(** [l[i] = v] yields the updated list. *)
Definition setitem {A} (l : list A) (i : nat) (v : A) : M (list A) :=
  if bool_decide (i < length l)%nat then ret (<[i:=v]> l) else raise IndexError.

(** Subscripting [episode_agent_second] and [episode_start]: a float is
    not subscriptable. *)
Definition seconds_getitem (x : Seconds) (i : nat) : M float :=
  match x with
  | PerEnvironment l => getitem l i
  | Joint _ => raise TypeError
  end.

Definition seconds_setitem (x : Seconds) (i : nat) (v : float) : M Seconds :=
  match x with
  | PerEnvironment l => l' <- setitem l i v ;; ret (PerEnvironment l')
  | Joint _ => raise TypeError
  end.

(** [x > 0] for an entry of [terminals]: [None > 0] is a [TypeError]. *)
Definition gt0 (x : option Z) : M bool :=
  match x with
  | Some t => ret (0 <? t)
  | None => raise TypeError
  end.

(** [all(terminal > 0 for terminal in l)]: stops at the first entry that
    is not positive. *)
Fixpoint all_gt0 (l : list (option Z)) : M bool :=
  match l with
  | [] => ret true
  | x :: l' => b <- gt0 x ;; if b then all_gt0 l' else ret false
  end.

(** [for x in xs: body(x)] *)
Fixpoint for_each {A} (xs : list A) (body : A -> M unit) : M unit :=
  match xs with
  | [] => ret tt
  | x :: xs' => body x ;; for_each xs' body
  end.

(** A [for] loop that updates one local variable. *)
Fixpoint for_each_with {A B} (xs : list A) (local : B) (body : A -> B -> M B) : M B :=
  match xs with
  | [] => ret local
  | x :: xs' => local' <- body x local ;; for_each_with xs' local' body
  end.

(** A name that is not bound where the code reads it. *)
Definition undefined_name {A} : M A := raise NameError.
Definition unbound_local {A} : M A := raise UnboundLocalError.

Section Collaborators.

Variable w : World.

Definition time_time : M float :=
  fun s => Returned (clock w s.2) (s.1, s.2 ++ [TimeTime]).

Definition time_sleep : M unit := emit TimeSleep.

Definition agent_act (st : option StateVal) (parallel : option nat) (evaluation : bool)
  : M ActionVal :=
  fun s => Returned (act_result w s.2)
                    (s.1, s.2 ++ [AgentAct st parallel evaluation]).

Definition agent_observe (terminal : option Z) (reward : option float) (parallel : nat)
  : M bool :=
  fun s => Returned (observe_result w s.2)
                    (s.1, s.2 ++ [AgentObserve terminal reward parallel]).

Definition agent_reset (evaluation : bool) : M unit := emit (AgentReset evaluation).
Definition agent_save (directory : string) : M unit := emit (AgentSave directory).
Definition agent_close : M unit := emit AgentClose.

Definition start_reset (n : nat) : M unit := emit (EnvStartReset n).
Definition start_execute (n : nat) (a : ActionVal) : M unit := emit (EnvStartExecute n a).
Definition environment_close (n : nat) : M unit := emit (EnvClose n).

Definition receive_execute (n : nat) : M (option Observation) :=
  fun s => Returned (poll_result w n s.2) (s.1, s.2 ++ [EnvReceiveExecute n]).

(** [fn(runner, parallel)] for a user callback *)
Definition call_fn (fn parallel : nat) : M PyVal :=
  fun s => Returned (callback_result w fn s.2 s.1 parallel)
                    (s.1, s.2 ++ [CallbackCall fn parallel]).

(** the user's [evaluation_callback(runner)] *)
Definition call_evaluation_fn : M PyVal :=
  fun s => Returned (evaluation_callback_result w s.2 s.1)
                    (s.1, s.2 ++ [EvaluationCallbackCall]).

End Collaborators.

Local Open Scope runner_scope.

(** ** Construction: [ParallelRunner.__init__] *)

(** An [environment] or [agent] argument is a specification or an object;
    [isinstance(arg, Environment)] tells which.  [Environment.create]
    returns the object itself, or builds one from the specification. *)
Record EnvironmentArg : Type := mkEnvironmentArg {
  arg_is_object : bool;
  arg_states : Z;
  arg_actions : Z
}.

Record AgentArg : Type := mkAgentArg {
  agent_is_object : bool
}.

(** The [environments] argument; [util.is_iterable] tells the two apart. *)
Inductive EnvironmentsArg : Type :=
| NotIterable
| Iterable (l : list EnvironmentArg).

Definition Environment_create (e : EnvironmentArg) : Environment :=
  mkEnvironment (arg_states e) (arg_actions e).

(** The object before [__init__] has assigned anything.  [run] and
    [close] read no attribute before [__init__] or [run] has assigned it,
    but for [tqdm], which [hasattr] tests. *)
Definition blank : Runner :=
  mkRunner [] false None false false None [] [] [] [] [] [] [] [] false
           None None None false false false 0%float None None DefaultCallback
           0 0 0 None None [] [] (PerEnvironment []) (PerEnvironment [])
           0%float 0 0%float false [] [] [] [] None.

(** [self.environments.append(environment)] *)
Definition append_environment (e : Environment) : M unit :=
  envs <- attr environments ;; assign (set_environments (envs ++ [e])).

Definition init (agent : AgentArg) (environment : option EnvironmentArg)
    (num_parallel : option Z) (environments_arg : option EnvironmentsArg)
    (evaluation_environment_arg : option EnvironmentArg)
    (save_best_agent_arg : option string) : M unit :=
  assign (set_environments []) ;;
  (* the local [environment] after the branch: still the specification
     when the second branch creates nothing *)
  environment <-
    match environment with
    | None =>
        py_assert (negb (is_set num_parallel) && is_set environments_arg) ;;
        match environments_arg with
        | None => raise AssertionError          (* excluded by the assertion *)
        | Some NotIterable => raise TensorforceError_type
        | Some (Iterable []) => raise TensorforceError_value
        | Some (Iterable (first :: rest)) =>
            assign (set_is_environment_external (arg_is_object first)) ;;
            let environment := Environment_create first in
            let states := env_states environment in
            let actions := env_actions environment in
            append_environment environment ;;
            for_each_with rest environment (fun e _ =>
              external <- attr is_environment_external ;;
              py_assert (Bool.eqb (arg_is_object e) external) ;;
              let environment := Environment_create e in
              py_assert (env_states environment =? states) ;;
              py_assert (env_actions environment =? actions) ;;
              append_environment environment ;;
              ret environment) ;;
            ret (inr environment)
        end
    | Some environment =>
        py_assert (is_set num_parallel && negb (is_set environments_arg)) ;;
        py_assert (negb (arg_is_object environment)) ;;
        assign (set_is_environment_external false) ;;
        for_each_with (seq 0 (Z.to_nat (default 0 num_parallel))) (inl environment)
          (fun _ environment =>
             let environment :=
               match environment with
               | inl spec => Environment_create spec
               | inr e => e
               end in
             (* [self.environments(environment)]: a list is not callable *)
             _ <- raise (A := unit) TypeError ;;
             ret (inr environment))
    end ;;
  match evaluation_environment_arg with
  | None => assign (set_evaluation_environment None)
  | Some e =>
      assign (set_is_eval_environment_external (arg_is_object e)) ;;
      let evaluation := Environment_create e in
      assign (set_evaluation_environment (Some evaluation)) ;;
      match environment with
      | inl _ => raise AttributeError           (* a specification has no [states()] *)
      | inr environment =>
          py_assert (env_states evaluation =? env_states environment) ;;
          py_assert (env_actions evaluation =? env_actions environment)
      end
  end ;;
  assign (set_is_agent_external (agent_is_object agent)) ;;
  (* [self.agent = Agent.create(...)] returns the object, or builds one *)
  assign (set_save_best_agent save_best_agent_arg) ;;
  assign (set_episode_rewards []) ;;
  assign (set_episode_timesteps []) ;;
  assign (set_episode_seconds []) ;;
  assign (set_episode_agent_seconds []) ;;
  assign (set_evaluation_rewards []) ;;
  assign (set_evaluation_timesteps []) ;;
  assign (set_evaluation_seconds []) ;;
  assign (set_evaluation_agent_seconds []).

(** The expression [ParallelRunner(...)], evaluated with trace [tr]. *)
Definition ParallelRunner (agent : AgentArg) (environment : option EnvironmentArg)
    (num_parallel : option Z) (environments_arg : option EnvironmentsArg)
    (evaluation_environment_arg : option EnvironmentArg)
    (save_best_agent_arg : option string) (tr : Trace) : Outcome unit :=
  init agent environment num_parallel environments_arg evaluation_environment_arg
       save_best_agent_arg (blank, tr).

(** ** [ParallelRunner.close] *)

Definition close : M unit :=
  has_tqdm <- attr tqdm ;;
  when has_tqdm (emit TqdmClose) ;;
  agent_external <- attr is_agent_external ;;
  when (negb agent_external) agent_close ;;
  environment_external <- attr is_environment_external ;;
  envs <- attr environments ;;
  when (negb environment_external)
       (for_each (seq 0 (length envs)) environment_close) ;;
  evaluation <- attr evaluation_environment ;;
  match evaluation with
  | None => ret tt
  | Some _ =>
      evaluation_external <- attr is_eval_environment_external ;;
      when (negb evaluation_external) (environment_close (length envs))
  end ;;
  agent_close.

(** ** The callbacks installed by [run] and the handlers of the loop *)

Section Methods.

Variable w : World.

(** [sequential_callback]: the loop over the registered functions,
    with the local [result]. *)
Fixpoint sequential_callback_loop (fns : list nat) (parallel : nat) (result : PyVal)
  : M PyVal :=
  match fns with
  | [] => ret result
  | fn :: fns' =>
      x <- call_fn w fn parallel ;;
      let result := if isinstance_bool result then py_and result x else result in
      sequential_callback_loop fns' parallel result
  end.

Definition sequential_callback (fns : list nat) (parallel : nat) : M PyVal :=
  sequential_callback_loop fns parallel (VBool true).

Definition boolean_callback (fn parallel : nat) : M PyVal :=
  result <- call_fn w fn parallel ;;
  if isinstance_bool result then ret result else ret (VBool true).

(** [self.callback(self, parallel)] *)
Fixpoint call_callback (cb : Callback) (parallel : nat) : M PyVal :=
  match cb with
  | DefaultCallback => ret (VBool true)
  | SequentialCallback fns => sequential_callback fns parallel
  | BooleanCallback fn => boolean_callback fn parallel
  | TqdmCallback inner => emit TqdmUpdate ;; call_callback inner parallel
  end.

(** [self.evaluation_callback(self)]; [mean_reward_callback] replaces a
    [None] score by the episode's reward. *)
Fixpoint call_evaluation_callback (cb : EvaluationCallback) : M PyVal :=
  match cb with
  | DefaultEvaluationCallback => ret VNone
  | UserEvaluationCallback => call_evaluation_fn w
  | MeanRewardCallback inner =>
      result <- call_evaluation_callback inner ;;
      match result with
      | VNone => reward <- attr evaluation_reward ;; ret (VFloat reward)
      | _ => ret result
      end
  end.

(** [counter >= ceiling or (gated % frequency == 0 and not
    self.callback(self, parallel))], evaluated left to right: the
    callback is not called once the ceiling is reached. *)
Definition ceiling_or_callback (counter : Z) (ceiling : option Z) (gated : M Z)
    (frequency : option Z) (parallel : nat) : M bool :=
  if reached counter ceiling then ret true
  else
    g <- gated ;;
    due <- lift (divides g frequency) ;;
    if due then
      cb <- attr callback ;;
      result <- call_callback cb parallel ;;
      ret (py_not result)
    else ret false.

Definition handle_act (parallel : nat) : M unit :=
  join <- attr join_agent_calls ;;
  (if join then
     envs <- attr environments ;;
     _ <- getitem envs parallel ;;
     joint_actions <- attr actions ;;
     joint_actions <- (match joint_actions with
                       | Some l => ret l
                       | None => raise AttributeError
                       end) ;;
     a <- getitem joint_actions parallel ;;
     start_execute parallel a
   else
     agent_start <- time_time w ;;
     sts <- attr states ;;
     st <- getitem sts parallel ;;
     a <- agent_act w st (Some parallel) false ;;
     agent_second <- attr episode_agent_second ;;
     old <- seconds_getitem agent_second parallel ;;
     now <- time_time w ;;
     agent_second <- seconds_setitem agent_second parallel (old + (now - agent_start))%float ;;
     assign (set_episode_agent_second agent_second) ;;
     envs <- attr environments ;;
     _ <- getitem envs parallel ;;
     start_execute parallel a) ;;
  (* Increment timestep counter *)
  t <- attr timesteps ;;
  assign (set_timesteps (t + 1)) ;;
  ets <- attr episode_timestep ;;
  et <- getitem ets parallel ;;
  ets <- setitem ets parallel (et + 1) ;;
  assign (set_episode_timestep ets) ;;
  (* Maximum number of timesteps or timestep callback *)
  t <- attr timesteps ;;
  ceiling <- attr num_timesteps ;;
  frequency <- attr callback_timestep_frequency ;;
  stop <- ceiling_or_callback t ceiling
            (ets <- attr episode_timestep ;; getitem ets parallel)
            frequency parallel ;;
  when stop finish.

Definition handle_act_evaluation : M unit :=
  join <- attr join_agent_calls ;;
  (if join then
     envs <- attr environments ;;
     parallel <- undefined_name (A := nat) ;;
     _ <- getitem envs parallel ;;
     joint_actions <- unbound_local (A := list ActionVal) ;;
     a <- getitem joint_actions parallel ;;
     start_execute parallel a
   else
     agent_start <- time_time w ;;
     sts <- undefined_name (A := option StateVal) ;;
     a <- agent_act w sts None true ;;
     old <- attr evaluation_agent_second ;;
     now <- time_time w ;;
     assign (set_evaluation_agent_second (old + (now - agent_start))%float) ;;
     envs <- attr environments ;;
     parallel <- undefined_name (A := nat) ;;
     _ <- getitem envs parallel ;;
     start_execute parallel a) ;;
  (* Update evaluation statistics *)
  et <- attr evaluation_timestep ;;
  assign (set_evaluation_timestep (et + 1)).

Definition handle_observe (parallel : nat) : M unit :=
  (* Update episode statistics *)
  ers <- attr episode_reward ;;
  old <- getitem ers parallel ;;
  rws <- attr rewards ;;
  reward <- getitem rws parallel ;;
  sum <- (match reward with
          | Some x => ret (old + x)%float
          | None => raise TypeError
          end) ;;
  ers <- setitem ers parallel sum ;;
  assign (set_episode_reward ers) ;;
  (* Not terminal but finished *)
  ts <- attr terminals ;;
  terminal <- getitem ts parallel ;;
  fin <- attr finished ;;
  (if bool_decide (terminal = Some 0) && fin then
     ts <- setitem ts parallel (Some 2) ;;
     assign (set_terminals ts)
   else ret tt) ;;
  (* Observe unless join_agent_calls *)
  join <- attr join_agent_calls ;;
  when (negb join)
    (agent_start <- time_time w ;;
     ts <- attr terminals ;;
     terminal <- getitem ts parallel ;;
     rws <- attr rewards ;;
     reward <- getitem rws parallel ;;
     updated <- agent_observe w terminal reward parallel ;;
     agent_second <- attr episode_agent_second ;;
     old <- seconds_getitem agent_second parallel ;;
     now <- time_time w ;;
     agent_second <- seconds_setitem agent_second parallel (old + (now - agent_start))%float ;;
     assign (set_episode_agent_second agent_second) ;;
     u <- attr updates ;;
     assign (set_updates (u + Z.b2z updated))) ;;
  (* Maximum number of updates *)
  u <- attr updates ;;
  ceiling <- attr num_updates ;;
  when (reached u ceiling) finish.

Definition handle_observe_evaluation : M unit :=
  (* Update evaluation statistics *)
  old <- attr evaluation_reward ;;
  reward <- undefined_name (A := float) ;;
  assign (set_evaluation_reward (old + reward)%float) ;;
  (* Reset agent if terminal *)
  terminal <- undefined_name (A := Z) ;;
  when (0 <? terminal)
    (agent_start <- time_time w ;;
     agent_reset true ;;
     old <- attr evaluation_agent_second ;;
     now <- time_time w ;;
     assign (set_evaluation_agent_second (old + (now - agent_start))%float)).

Definition handle_terminal (parallel : nat) : M unit :=
  (* Increment episode counter *)
  e <- attr episodes ;;
  assign (set_episodes (e + 1)) ;;
  (* Update experiment statistics *)
  ledger <- attr episode_rewards ;;
  ers <- attr episode_reward ;;
  x <- getitem ers parallel ;;
  assign (set_episode_rewards (ledger ++ [x])) ;;
  ledger <- attr episode_timesteps ;;
  ets <- attr episode_timestep ;;
  x <- getitem ets parallel ;;
  assign (set_episode_timesteps (ledger ++ [x])) ;;
  join <- attr join_agent_calls ;;
  when (negb join)
    (ledger <- attr episode_seconds ;;
     now <- time_time w ;;
     starts <- attr episode_start ;;
     start <- seconds_getitem starts parallel ;;
     assign (set_episode_seconds (ledger ++ [(now - start)%float])) ;;
     ledger <- attr episode_agent_seconds ;;
     agent_second <- attr episode_agent_second ;;
     x <- seconds_getitem agent_second parallel ;;
     assign (set_episode_agent_seconds (ledger ++ [x]))) ;;
  (* Maximum number of episodes or episode callback *)
  e <- attr episodes ;;
  ceiling <- attr num_episodes ;;
  frequency <- attr callback_episode_frequency ;;
  stop <- ceiling_or_callback e ceiling (attr episodes) frequency parallel ;;
  when stop finish ;;
  (* Reset episode statistics *)
  ers <- attr episode_reward ;;
  ers <- setitem ers parallel 0%float ;;
  assign (set_episode_reward ers) ;;
  ets <- attr episode_timestep ;;
  ets <- setitem ets parallel 0 ;;
  assign (set_episode_timestep ets) ;;
  join <- attr join_agent_calls ;;
  when (negb join)
    (agent_second <- attr episode_agent_second ;;
     agent_second <- seconds_setitem agent_second parallel 0%float ;;
     assign (set_episode_agent_second agent_second) ;;
     now <- time_time w ;;
     starts <- attr episode_start ;;
     starts <- seconds_setitem starts parallel now ;;
     assign (set_episode_start starts)) ;;
  (* Reset environment *)
  fin <- attr finished ;;
  sync <- attr sync_episodes ;;
  when (negb fin && negb sync)
    (envs <- attr environments ;;
     _ <- getitem envs parallel ;;
     start_reset parallel).

(** The block under [# Evaluation callback] of
    [handle_terminal_evaluation]: the score of the episode and the
    snapshot of the best agent. *)
Definition evaluate_score : M unit :=
  directory <- attr save_best_agent ;;
  cb <- attr evaluation_callback ;;
  cb <- (match cb with
         | Some cb => ret cb
         | None => raise AttributeError
         end) ;;
  match directory with
  | Some directory =>
      evaluation_score <- call_evaluation_callback cb ;;
      py_assert (isinstance_float evaluation_score) ;;
      match evaluation_score with
      | VFloat score =>
          best <- attr best_evaluation_score ;;
          match best with
          | None => assign (set_best_evaluation_score (Some score))
          | Some b =>
              if PrimFloat.ltb b score then
                assign (set_best_evaluation_score (Some score)) ;;
                agent_save directory
              else ret tt
          end
      | _ => raise AssertionError             (* excluded by the assertion *)
      end
  | None =>
      _ <- call_evaluation_callback cb ;;
      ret tt
  end.

Definition handle_terminal_evaluation : M unit :=
  (* Update experiment statistics *)
  ledger <- attr evaluation_rewards ;;
  x <- attr evaluation_reward ;;
  assign (set_evaluation_rewards (ledger ++ [x])) ;;
  ledger <- attr evaluation_timesteps ;;
  x <- attr evaluation_timestep ;;
  assign (set_evaluation_timesteps (ledger ++ [x])) ;;
  ledger <- attr evaluation_seconds ;;
  now <- time_time w ;;
  (* [evaluation_start] is assigned further down, so it is a local
     variable of the method, not yet bound here *)
  evaluation_start <- unbound_local (A := float) ;;
  assign (set_evaluation_seconds (ledger ++ [(now - evaluation_start)%float])) ;;
  ledger <- attr evaluation_agent_seconds ;;
  x <- attr evaluation_agent_second ;;
  assign (set_evaluation_agent_seconds (ledger ++ [x])) ;;
  (* Evaluation callback *)
  evaluate_score ;;
  (* Reset episode statistics *)
  assign (set_evaluation_reward 0%float) ;;
  assign (set_evaluation_timestep 0) ;;
  assign (set_evaluation_agent_second 0%float) ;;
  evaluation_start <- time_time w ;;
  (* Reset environment *)
  fin <- attr finished ;;
  sync <- attr sync_episodes ;;
  when (negb fin && negb sync)
    (envs <- attr environments ;;
     parallel <- undefined_name (A := nat) ;;
     _ <- getitem envs parallel ;;
     start_reset parallel).

End Methods.

(** ** [ParallelRunner.run] *)

(** The [callback] argument: absent, an iterable of functions, or one
    function. *)
Inductive CallbackArg : Type :=
| NoCallback
| CallbackList (fns : list nat)
| CallbackFunction (fn : nat).

Record RunArgs : Type := mkRunArgs {
  run_num_episodes : option Z;
  run_num_timesteps : option Z;
  run_num_updates : option Z;
  run_join_agent_calls : bool;
  run_sync_timesteps : bool;
  run_sync_episodes : bool;
  run_num_sleep_secs : float;
  run_callback : CallbackArg;
  run_callback_episode_frequency : option Z;
  run_callback_timestep_frequency : option Z;
  run_use_tqdm : bool;
  run_evaluation_callback : bool          (* is an evaluation_callback given? *)
}.

(** What the polling of one environment leads to in an iteration of the
    environments loop: [continue], or going on with the local
    [observation], which stays unassigned when agent calls are joined. *)
Inductive Polled : Type :=
| Continue
| Ready (observation : option Observation) (no_environment_ready : bool).

Section Run.

Variable w : World.

(** The part of [run] before the runner loop.  It returns the length of
    the local list [environments]. *)
Definition run_setup (a : RunArgs) : M nat :=
  (* General *)
  assign (set_num_episodes (run_num_episodes a)) ;;
  assign (set_num_timesteps (run_num_timesteps a)) ;;
  assign (set_num_updates (run_num_updates a)) ;;
  assign (set_join_agent_calls (run_join_agent_calls a)) ;;
  join <- attr join_agent_calls ;;
  let sync_timesteps_arg := if join then true else run_sync_timesteps a in
  assign (set_sync_timesteps sync_timesteps_arg) ;;
  assign (set_sync_episodes (run_sync_episodes a)) ;;
  assign (set_num_sleep_secs (run_num_sleep_secs a)) ;;
  (* Callback *)
  py_assert (negb (is_set (run_callback_episode_frequency a))
             || negb (is_set (run_callback_timestep_frequency a))) ;;
  let episode_frequency :=
    match run_callback_episode_frequency a, run_callback_timestep_frequency a with
    | None, None => Some 1
    | f, _ => f
    end in
  assign (set_callback_episode_frequency episode_frequency) ;;
  assign (set_callback_timestep_frequency (run_callback_timestep_frequency a)) ;;
  assign (set_callback
            match run_callback a with
            | NoCallback => DefaultCallback
            | CallbackList fns => SequentialCallback fns
            | CallbackFunction fn => BooleanCallback fn
            end) ;;
  (* Timestep/episode/update counter *)
  assign (set_timesteps 0) ;;
  assign (set_episodes 0) ;;
  assign (set_updates 0) ;;
  (* Tqdm *)
  when (run_use_tqdm a)
    (has_tqdm <- attr tqdm ;;
     when has_tqdm (emit TqdmClose) ;;
     ne <- attr num_episodes ;;
     nt <- attr num_timesteps ;;
     py_assert (is_set ne || is_set nt) ;;
     inner_callback <- attr callback ;;
     emit TqdmCreate ;;
     assign (set_tqdm true) ;;
     assign (set_callback (TqdmCallback inner_callback))) ;;
  (* Evaluation *)
  evaluation <- attr evaluation_environment ;;
  match evaluation with
  | None =>
      py_assert (negb (run_evaluation_callback a)) ;;
      directory <- attr save_best_agent ;;
      py_assert (negb (is_set directory))
  | Some _ =>
      assign (set_evaluation_callback
                (Some (if run_evaluation_callback a
                       then UserEvaluationCallback
                       else DefaultEvaluationCallback))) ;;
      directory <- attr save_best_agent ;;
      when (is_set directory)
        (inner <- attr evaluation_callback ;;
         assign (set_evaluation_callback (MeanRewardCallback <$> inner)) ;;
         assign (set_best_evaluation_score None))
  end ;;
  (* Required if agent was previously stopped mid-episode *)
  agent_reset false ;;
  (* Reset environments and episode statistics *)
  envs <- attr environments ;;
  let n := length envs in
  for_each (seq 0 n) start_reset ;;
  assign (set_episode_reward (replicate n 0%float)) ;;
  assign (set_episode_timestep (replicate n 0)) ;;
  join <- attr join_agent_calls ;;
  (if join then
     assign (set_episode_agent_second (Joint 0%float)) ;;
     now <- time_time w ;;
     assign (set_episode_start (Joint now))
   else
     assign (set_episode_agent_second (PerEnvironment (replicate n 0%float))) ;;
     starts <- for_each_with (seq 0 n) []
                 (fun _ acc => now <- time_time w ;; ret (acc ++ [now])) ;;
     assign (set_episode_start (PerEnvironment starts))) ;;
  evaluation <- attr evaluation_environment ;;
  count <- match evaluation with
           | None => ret n
           | Some _ =>
               start_reset n ;;
               assign (set_evaluation_reward 0%float) ;;
               assign (set_evaluation_timestep 0) ;;
               join <- attr join_agent_calls ;;
               when (negb join) (assign (set_evaluation_agent_second 0%float)) ;;
               ret (S n)
           end ;;
  assign (set_finished false) ;;
  assign (set_prev_terminals (replicate count (Some 0))) ;;
  assign (set_states (replicate count None)) ;;
  assign (set_terminals (replicate count None)) ;;
  assign (set_rewards (replicate count None)) ;;
  join <- attr join_agent_calls ;;
  (* [self.joint]: an attribute that is never assigned *)
  when join (raise AttributeError) ;;
  ret count.

(** [while True: observation = environment.receive_execute() ...]: at
    most [patience] polls are modelled. *)
Fixpoint wait_execute (patience : nat) (n : nat) : M Observation :=
  match patience with
  | O => unfinished
  | S patience' =>
      observation <- receive_execute w n ;;
      match observation with
      | Some o => ret o
      | None => wait_execute patience' n
      end
  end.

(** One pass of the [for] loop inside [while any(observation is None
    ...)] of the joined branch; [observations] is [self.observations]. *)
Fixpoint joint_poll_pass (ns : list nat) (observations : list (option Observation))
  : M (list (option Observation)) :=
  match ns with
  | [] => ret observations
  | n :: ns' =>
      current <- getitem observations n ;;
      match current with
      | Some _ => joint_poll_pass ns' observations
      | None =>
          pts <- attr prev_terminals ;;
          terminal <- getitem pts n ;;
          polled <- (if bool_decide (terminal = Some 0) then receive_execute w n
                     else ret (Some (mkObservation 0 terminal None))) ;;
          observations <- setitem observations n polled ;;
          joint_poll_pass ns' observations
      end
  end.

Fixpoint joint_poll (patience : nat) (count : nat)
    (observations : list (option Observation)) : M (list (option Observation)) :=
  if forallb is_set observations then ret observations
  else
    match patience with
    | O => unfinished
    | S patience' =>
        observations <- joint_poll_pass (seq 0 count) observations ;;
        joint_poll patience' count observations
    end.

(** The joined branch at the head of the runner loop.  Unpacking
    [zip(self.observations)] into three targets is a [ValueError] unless
    there are three environments; the next statement reads the unbound
    name [terminals].  [handle_observe_joint] and [handle_act_joint]
    come after it and are never reached. *)
Definition joint_head (patience count : nat) : M unit :=
  _ <- joint_poll patience count (replicate count None) ;;
  when (negb (count =? 3)%nat) (raise ValueError) ;;
  undefined_name.

(** The head of the body of the environments loop: whether to skip the
    environment, wait for it, or poll it once. *)
Definition poll (patience : nat) (parallel : nat) (no_environment_ready : bool)
  : M Polled :=
  sync_ep <- attr sync_episodes ;;
  terminated <- (if sync_ep then
                   pts <- attr prev_terminals ;;
                   terminal <- getitem pts parallel ;;
                   gt0 terminal
                 else ret false) ;;
  if terminated then ret Continue          (* episode already terminated *)
  else
    join <- attr join_agent_calls ;;
    if join then ret (Ready None no_environment_ready)
    else
      sync_ts <- attr sync_timesteps ;;
      if sync_ts then
        observation <- wait_execute patience parallel ;;
        ret (Ready (Some observation) no_environment_ready)
      else
        observation <- receive_execute w parallel ;;
        match observation with
        | None => ret Continue
        | Some o => ret (Ready (Some o) false)
        end.

(** The rest of the body, once the environment is ready: store the
    observation and call the handlers. *)
Definition step (parallel : nat) (observation : option Observation) : M unit :=
  envs <- attr environments ;;
  let evaluation := bool_decide (parallel = length envs) in
  join <- attr join_agent_calls ;;
  when (negb join)
    (o <- (match observation with
           | Some o => ret o
           | None => unbound_local
           end) ;;
     sts <- attr states ;;
     sts <- setitem sts parallel (Some (obs_states o)) ;;
     assign (set_states sts) ;;
     ts <- attr terminals ;;
     ts <- setitem ts parallel (obs_terminal o) ;;
     assign (set_terminals ts) ;;
     rws <- attr rewards ;;
     rws <- setitem rws parallel (obs_reward o) ;;
     assign (set_rewards rws)) ;;
  ts <- attr terminals ;;
  terminal <- getitem ts parallel ;;
  match terminal with
  | None =>
      (* Initial act *)
      if evaluation then handle_act_evaluation w else handle_act w parallel
  | Some _ =>
      (* Observe *)
      (if evaluation then handle_observe_evaluation w else handle_observe w parallel) ;;
      ts <- attr terminals ;;
      terminal <- getitem ts parallel ;;
      if bool_decide (terminal = Some 0) then
        (* Act *)
        if evaluation then handle_act_evaluation w else handle_act w parallel
      else
        (* Terminal *)
        if evaluation then handle_terminal_evaluation w else handle_terminal w parallel
  end.

(** The body of [for parallel, environment in enumerate(environments)];
    the local [no_environment_ready] is threaded through. *)
Definition environment_body (patience : nat) (parallel : nat)
    (no_environment_ready : bool) : M bool :=
  polled <- poll patience parallel no_environment_ready ;;
  match polled with
  | Continue => ret no_environment_ready
  | Ready observation no_environment_ready =>
      step parallel observation ;;
      ret no_environment_ready
  end.

(** The statements after the environments loop. *)
Definition iteration_end (count : nat) (no_environment_ready : bool) : M unit :=
  sync_ep <- attr sync_episodes ;;
  all_terminated <- (if sync_ep then ts <- attr terminals ;; all_gt0 ts
                     else ret false) ;;
  (if all_terminated then
     (* Reset if all episodes terminated *)
     assign (set_prev_terminals (replicate count (Some 0))) ;;
     for_each (seq 0 count) start_reset
   else
     ts <- attr terminals ;;
     assign (set_prev_terminals ts)) ;;
  sync_ts <- attr sync_timesteps ;;
  (* Sleep if no environment was ready *)
  when (negb sync_ts && no_environment_ready) time_sleep.

(** One iteration of the runner loop. *)
Definition iteration (patience count : nat) : M unit :=
  join <- attr join_agent_calls ;;
  (if join then joint_head patience count
   else
     pts <- attr prev_terminals ;;
     assign (set_terminals pts)) ;;
  no_environment_ready <-
    for_each_with (seq 0 count) true (environment_body patience) ;;
  iteration_end count no_environment_ready.

(** [while not self.finished], cut off after [fuel] iterations. *)
Fixpoint runner_loop (fuel patience count : nat) : M unit :=
  fin <- attr finished ;;
  if fin then ret tt
  else
    match fuel with
    | O => unfinished
    | S fuel' =>
        iteration patience count ;;
        runner_loop fuel' patience count
    end.

Definition run (fuel patience : nat) (a : RunArgs) : M unit :=
  count <- run_setup a ;;
  runner_loop fuel patience count.

End Run.

(** * Specifications *)

(** ** Weakest preconditions

    [wp m Q E s]: running [m] from [s] either returns a value and a state
    that satisfy [Q], or stops, by an exception or cut off by the bound
    of a loop, in a state that satisfies [E]. *)

Inductive Stop : Type :=
| Exception (e : Exn)
| CutOff.

Definition wp {A} (m : M A) (Q : A -> St -> Prop) (E : Stop -> St -> Prop) (s : St)
  : Prop :=
  match m s with
  | Returned a s' => Q a s'
  | Raised e s' => E (Exception e) s'
  | Unfinished s' => E CutOff s'
  end.

(** ** The environment protocol *)

(** Whether the last request made to environment [n] is a reset. *)
Definition request_step (n : nat) (pending : bool) (e : Event) : bool :=
  match e with
  | EnvStartReset m => if (m =? n)%nat then true else pending
  | EnvStartExecute m _ => if (m =? n)%nat then false else pending
  | _ => pending
  end.

Definition awaiting_reset (n : nat) (tr : Trace) : bool :=
  fold_left (request_step n) tr false.

(** Number of actions submitted to environment [n] since its last reset. *)
Definition execute_step (n : nat) (c : nat) (e : Event) : nat :=
  match e with
  | EnvStartReset m => if (m =? n)%nat then O else c
  | EnvStartExecute m _ => if (m =? n)%nat then S c else c
  | _ => c
  end.

Definition executes_since_reset (n : nat) (tr : Trace) : nat :=
  fold_left (execute_step n) tr O.

(** After [start_reset], the observation that environment [n] delivers
    carries no terminal code. *)
Definition reset_contract (w : World) (n : nat) : Prop :=
  forall tr o,
    awaiting_reset n tr = true -> poll_result w n tr = Some o -> obs_terminal o = None.

(** ** Resets and the finished flag, read off a trace *)

Inductive Phase : Type := Running | Stopping | Violated.

(** [Stopping] once [self.finished = True] has been executed, [Violated]
    once an environment is reset after that. *)
Definition phase_step (ph : Phase) (e : Event) : Phase :=
  match e, ph with
  | FinishedSet, Running => Stopping
  | EnvStartReset _, Stopping => Violated
  | _, _ => ph
  end.

Definition phase (d : Trace) : Phase := fold_left phase_step d Running.


(** The events since [tr0] contain no reset after an assignment of
    [finished], and no such assignment at all while [fin] is false. *)
Definition trace_ok (tr0 : Trace) (fin : bool) (tr : Trace) : Prop :=
  exists d, tr = tr0 ++ d /\ phase d <> Violated /\ (fin = false -> phase d = Running).

Definition benign (e : Event) : bool :=
  match e with
  | FinishedSet | EnvStartReset _ => false
  | _ => true
  end.

Definition is_agent_call (e : Event) : bool :=
  match e with
  | AgentAct _ _ _ | AgentObserve _ _ _ => true
  | _ => false
  end.

Definition is_callback_event (e : Event) : bool :=
  match e with
  | CallbackCall _ _ | TqdmUpdate => true
  | _ => false
  end.

(** ** Ledgers and counters *)

(** The four training ledgers have length [n]. *)
Definition training_ledgers (r : Runner) (n : Z) : Prop :=
  Z.of_nat (length (episode_rewards r)) = n /\
  Z.of_nat (length (episode_timesteps r)) = n /\
  Z.of_nat (length (episode_seconds r)) = n /\
  Z.of_nat (length (episode_agent_seconds r)) = n.

(** The four evaluation ledgers have length [n]. *)
Definition evaluation_ledgers (r : Runner) (n : Z) : Prop :=
  Z.of_nat (length (evaluation_rewards r)) = n /\
  Z.of_nat (length (evaluation_timesteps r)) = n /\
  Z.of_nat (length (evaluation_seconds r)) = n /\
  Z.of_nat (length (evaluation_agent_seconds r)) = n.

Definition same_evaluation_ledgers (r r' : Runner) : Prop :=
  evaluation_rewards r' = evaluation_rewards r /\
  evaluation_timesteps r' = evaluation_timesteps r /\
  evaluation_seconds r' = evaluation_seconds r /\
  evaluation_agent_seconds r' = evaluation_agent_seconds r.

Definition counters_le (r r' : Runner) : Prop :=
  timesteps r <= timesteps r' /\ episodes r <= episodes r' /\ updates r <= updates r'.

(** Each counter grows by at most [k]. *)
Definition counters_within (k : Z) (r r' : Runner) : Prop :=
  timesteps r <= timesteps r' <= timesteps r + k /\
  episodes r <= episodes r' <= episodes r + k /\
  updates r <= updates r' <= updates r + k.

(** ** The assertions of [run] *)

(** What [run] asserts about its arguments and the runner before it
    resets the agent and the environments. *)
Definition run_assertions (a : RunArgs) (r : Runner) : bool :=
  (negb (is_set (run_callback_episode_frequency a))
   || negb (is_set (run_callback_timestep_frequency a)))
  && (negb (run_use_tqdm a) || is_set (run_num_episodes a) || is_set (run_num_timesteps a))
  && (is_set (evaluation_environment r)
      || (negb (run_evaluation_callback a) && negb (is_set (save_best_agent r)))).

(** The number of sessions [run] drives: the training environments and
    the evaluation environment, when there is one. *)
Definition sessions (r : Runner) : nat :=
  length (environments r) + (if is_set (evaluation_environment r) then 1 else 0).

Definition is_reset (e : Event) : bool :=
  match e with
  | EnvStartReset _ => true
  | _ => false
  end.

(** ** Callbacks *)

(** The values the registered functions return when they are called one
    after the other, starting with trace [tr]. *)
Fixpoint callback_values (w : World) (fns : list nat) (parallel : nat) (r : Runner)
    (tr : Trace) : list PyVal :=
  match fns with
  | [] => []
  | fn :: fns' =>
      callback_result w fn tr r parallel
      :: callback_values w fns' parallel r (tr ++ [CallbackCall fn parallel])
  end.

(** The first value that is not [True], and [True] if there is none. *)
Fixpoint first_not_true (xs : list PyVal) : PyVal :=
  match xs with
  | [] => VBool true
  | VBool true :: xs' => first_not_true xs'
  | x :: _ => x
  end.

(** "Invoke all, AND the boolean results, a non-boolean counts as true":
    false exactly when some function returned the boolean [False]. *)
Definition all_and (xs : list PyVal) : bool :=
  forallb (fun x => match x with VBool false => false | _ => true end) xs.

(** ** What the handlers of the loop leave alone *)

(** The attributes that are fixed once the loop has started. *)
Definition settings (r : Runner) :=
  (environments r, evaluation_environment r, save_best_agent r, join_agent_calls r,
   sync_timesteps r, sync_episodes r, num_episodes r, num_timesteps r, num_updates r,
   callback_episode_frequency r, callback_timestep_frequency r, callback r,
   evaluation_rewards r, evaluation_timesteps r, evaluation_seconds r,
   evaluation_agent_seconds r).

(** The episode counter and the training ledgers. *)
Definition ledgers (r : Runner) :=
  (episodes r, episode_rewards r, episode_timesteps r, episode_seconds r,
   episode_agent_seconds r).

(** The counters grow, by at most [dt], [de] and [du]. *)
Definition counters_moved (dt de du : Z) (r r' : Runner) : Prop :=
  timesteps r <= timesteps r' <= timesteps r + dt /\
  episodes r <= episodes r' <= episodes r + de /\
  updates r <= updates r' <= updates r + du.

(** A counter that has not reached its ceiling, or has not moved from 0. *)
Definition under (counter : Z) (ceiling : option Z) : Prop :=
  match ceiling with
  | None => True
  | Some m => counter <= Z.max 0 (m - 1)
  end.

Definition all_under (r : Runner) : Prop :=
  under (timesteps r) (num_timesteps r) /\
  under (episodes r) (num_episodes r) /\
  under (updates r) (num_updates r).

(** The phase reached from [ph] by the events [d]. *)
Definition phase_from (ph : Phase) (d : Trace) : Phase := fold_left phase_step d ph.

(** The order in which phases can follow each other. *)
Definition phase_le (a b : Phase) : Prop :=
  match a, b with
  | Running, _ => True
  | Stopping, Running => False
  | Stopping, _ => True
  | Violated, Violated => True
  | Violated, _ => False
  end.

(** Whether events [d], coming after events that left the flag
    [finished] at [fin], keep resets before the assignments of the flag,
    and allow the flag to be [fin'] afterwards. *)
Definition extends (fin : bool) (d : Trace) (fin' : bool) : bool :=
  match phase_from (if fin then Stopping else Running) d with
  | Running => true
  | Stopping => fin'
  | Violated => false
  end.

(** Events among which none is a request to environment [n]. *)
Definition silent_for (n : nat) (d : Trace) : Prop :=
  forall pending, fold_left (request_step n) d pending = pending.

(** What handling session [p] may do, whatever the outcome: from state
    [s] to state [s'], with the counters moved by at most [dt], [de],
    [du]. *)
Definition handled (p : nat) (dt de du : Z) (s s' : St) : Prop :=
  settings s'.1 = settings s.1 /\
  prev_terminals s'.1 = prev_terminals s.1 /\
  counters_moved dt de du s.1 s'.1 /\
  (finished s.1 = true -> finished s'.1 = true) /\
  (exists d, s'.2 = s.2 ++ d /\
             extends (finished s.1) d (finished s'.1) = true /\
             forall n, n <> p -> silent_for n d) /\
  (forall n, n <> p -> terminals s'.1 !! n = terminals s.1 !! n).

(** When a handler returns with [finished] unset, a counter it has
    incremented is still under its ceiling. *)
Definition ceilings_checked (r r' : Runner) : Prop :=
  finished r' = false ->
  (timesteps r' = timesteps r \/ reached (timesteps r') (num_timesteps r') = false) /\
  (episodes r' = episodes r \/ reached (episodes r') (num_episodes r') = false) /\
  (updates r' = updates r \/ reached (updates r') (num_updates r') = false).

(** One entry was appended to each training ledger. *)
Definition ledgers_grown (r r' : Runner) : Prop :=
  episodes r' = episodes r + 1 /\
  length (episode_rewards r') = S (length (episode_rewards r)) /\
  length (episode_timesteps r') = S (length (episode_timesteps r)) /\
  length (episode_seconds r') = S (length (episode_seconds r)) /\
  length (episode_agent_seconds r') = S (length (episode_agent_seconds r)).

(** Polling: the runner is as it was, and the events are polls. *)
Definition is_poll (e : Event) : bool :=
  match e with
  | EnvReceiveExecute _ => true
  | _ => false
  end.

Definition polled (s s' : St) : Prop :=
  s'.1 = s.1 /\ exists d, s'.2 = s.2 ++ d /\ forallb is_poll d = true.

(** When a handler returns, the training ledgers are as they were, or
    have grown by one entry each. *)
Definition ledgers_step (r r' : Runner) : Prop :=
  join_agent_calls r = false -> ledgers r' = ledgers r \/ ledgers_grown r r'.

(** The invariant of the training ledgers, their length being [L] more
    than the episode counter, is kept. *)
Definition ledgers_kept (r r' : Runner) : Prop :=
  forall L, training_ledgers r (L + episodes r) -> training_ledgers r' (L + episodes r').

(** What a part of the loop does when it returns. *)
Definition progress (p : nat) (dt de du : Z) (s s' : St) : Prop :=
  handled p dt de du s s' /\
  ceilings_checked s.1 s'.1 /\
  (join_agent_calls s.1 = false -> ledgers_kept s.1 s'.1).

(** What a part of the loop does when it stops with an exception or is
    cut off. *)
Definition advanced (dt de du : Z) (s s' : St) : Prop :=
  counters_moved dt de du s.1 s'.1 /\
  exists d, s'.2 = s.2 ++ d /\ extends (finished s.1) d (finished s'.1) = true.

(** The events [d] appended from [s] to [s'] keep resets before the
    assignments of [finished]. *)
Definition traced (s s' : St) : Prop :=
  exists d, s'.2 = s.2 ++ d /\ extends (finished s.1) d (finished s'.1) = true.

(** What stays as it is from one iteration of the loop to the next. *)
Definition steady (r r' : Runner) : Prop :=
  settings r' = settings r /\ (join_agent_calls r = false -> ledgers_kept r r').

(** What [k] sessions handled one after the other do to the runner. *)
Definition iterated (k : Z) (r r' : Runner) : Prop :=
  steady r r' /\
  counters_moved k k k r r' /\
  (finished r = true -> finished r' = true) /\
  ceilings_checked r r'.

(** With [sync_episodes], at the head of the loop: the first session has
    been reset and its last terminal code is 0. *)
Definition barrier_ready (count : nat) (s : St) : Prop :=
  sync_episodes s.1 = true -> count <> 0%nat ->
  prev_terminals s.1 !! 0%nat = Some (Some 0) /\ awaiting_reset 0 s.2 = true.

(** With [sync_episodes], in the loop over the sessions: the first
    session is still to deliver its first observation, or has delivered
    it. *)
Definition barrier_mid (count : nat) (s : St) : Prop :=
  sync_episodes s.1 = true -> count <> 0%nat ->
  terminals s.1 !! 0%nat = Some (Some 0) /\ awaiting_reset 0 s.2 = true
  \/ terminals s.1 !! 0%nat = Some None.

(** A counter that is at most [k] above the last value under its
    ceiling. *)
Definition within (k : Z) (counter : Z) (ceiling : option Z) : Prop :=
  match ceiling with
  | None => True
  | Some m => counter <= Z.max 0 (m - 1) + k
  end.

Definition all_within (k : Z) (r : Runner) : Prop :=
  within k (timesteps r) (num_timesteps r) /\
  within k (episodes r) (num_episodes r) /\
  within k (updates r) (num_updates r).

(** At the head of the loop over [count] sessions: every counter is
    under its ceiling, or [finished] is set and the counter is less than
    [count] above. *)
Definition ceilings_respected (count : nat) (r : Runner) : Prop :=
  if finished r then all_within (Z.of_nat count) r else all_under r.

(** The events of the part of [run] before the loop: no action is
    submitted and [finished] is not set. *)
Definition preparatory (e : Event) : bool :=
  match e with
  | FinishedSet | EnvStartExecute _ _ => false
  | _ => true
  end.

(** * Scenarios *)

(** ** Collaborators used in the examples *)

Definition initial_observation : Observation := mkObservation 0 None None.

Definition observation (terminal : Z) (reward : float) : Observation :=
  mkObservation 0 (Some terminal) (Some reward).

(** An environment that is always ready: it answers a reset by the
    initial observation, and the k-th action since the reset by the k-th
    entry of its script. *)
Definition scripted (scripts : list (list Observation)) (n : nat) (tr : Trace)
  : option Observation :=
  if awaiting_reset n tr then Some initial_observation
  else
    match scripts !! n with
    | Some script => script !! (executes_since_reset n tr - 1)%nat
    | None => None
    end.

Definition count_evaluation_calls (tr : Trace) : nat :=
  fold_left (fun c e => match e with EvaluationCallbackCall => S c | _ => c end) tr O.

(** A world of scripted environments; callback [fn] always returns
    [answers !! fn], the evaluation callback returns [scores] in order. *)
Definition scripted_world (scripts : list (list Observation)) (answers : list PyVal)
    (scores : list PyVal) : World :=
  mkWorld (fun _ => 0%float) (fun _ => 0) (fun _ => false) (scripted scripts)
          (fun fn _ _ _ => default (VBool true) (answers !! fn))
          (fun tr _ => default VNone (scores !! count_evaluation_calls tr)).

Definition external_agent : AgentArg := mkAgentArg true.
Definition environment_object : EnvironmentArg := mkEnvironmentArg true 4 2.
Definition environment_specification : EnvironmentArg := mkEnvironmentArg false 4 2.

(** [ParallelRunner(agent, environments=[env] * n)] for objects. *)
Definition runner_of (n : nat) : Runner :=
  (final (ParallelRunner external_agent None None
            (Some (Iterable (replicate n environment_object))) None None [])).1.

(** [run(...)] with every argument at its default but [use_tqdm]. *)
Definition default_args : RunArgs :=
  mkRunArgs None None None false false false 0.5%float NoCallback None None false false.

(** ** A callback that returns [None] *)

(** Scenario A of the specification: one environment whose episode gives
    reward 1 three times and ends at the third step. *)
Definition three_steps : list Observation :=
  [observation 0 1; observation 0 1; observation 1 1].

(** One environment as in scenario A; function 0 returns [None],
    function 1 returns [5], function 2 returns [False]. *)
Definition none_world : World :=
  scripted_world [three_steps] [VNone; VInt 5; VBool false] [].

(** [run(num_episodes=5, callback=[f0], use_tqdm=False)] *)
Definition none_args : RunArgs :=
  mkRunArgs (Some 5) None None false false false 0.5%float (CallbackList [0%nat])
            None None false false.

(** ** Evaluation scores 5.0, 3.0, 8.0 *)

Definition scores_world : World :=
  scripted_world [three_steps] [] [VFloat 5; VFloat 3; VFloat 8].

(** [ParallelRunner(agent, environments=[env], evaluation_environment=env,
    save_best_agent='best')] *)
Definition scores_runner : Runner :=
  (final (ParallelRunner external_agent None None
            (Some (Iterable [environment_object])) (Some environment_object)
            (Some "best"%string) [])).1.

(** [run(num_episodes=1, evaluation_callback=score, use_tqdm=False)] *)
Definition scores_args : RunArgs :=
  mkRunArgs (Some 1) None None false false false 0.5%float NoCallback None None false true.

(** The state in which the runner loop starts. *)
Definition scores_start : St := final (run_setup scores_world scores_args (scores_runner, [])).

(** ** The timestep gate *)




(** ** Ledgers and ceilings *)

(** One environment as in scenario A, no callback. *)
Definition episode_world : World := scripted_world [three_steps] [] [].

(** [run(num_episodes=1, use_tqdm=False)] *)
Definition one_episode_args : RunArgs :=
  mkRunArgs (Some 1) None None false false false 0.5%float NoCallback None None false false.

(** Two environments as in scenario A. *)
Definition pair_world : World := scripted_world [three_steps; three_steps] [] [].

(** [run(num_timesteps=1, use_tqdm=False)] *)
Definition one_timestep_args : RunArgs :=
  mkRunArgs None (Some 1) None false false false 0.5%float NoCallback None None false false.

(** ** Synchronized episodes *)

(** [run(num_episodes=1, sync_episodes=True, use_tqdm=False)] *)
Definition sync_episodes_args : RunArgs :=
  mkRunArgs (Some 1) None None false false true 0.5%float NoCallback None None false false.

(** An environment that does not follow the protocol: every observation
    it delivers, also the first after a reset, carries terminal code 1. *)
Definition unruly_world : World :=
  mkWorld (fun _ => 0%float) (fun _ => 0) (fun _ => false)
          (fun _ _ => Some (observation 1 1))
          (fun _ _ _ _ => VBool true) (fun _ _ => VNone).

(** * Further specifications *)

(** ** Construction *)

(** What [__init__] asserts of the environments after the first: the same
    kind of argument (object or specification), the same states and the
    same actions. *)
Definition uniform (first : EnvironmentArg) (rest : list EnvironmentArg) : bool :=
  forallb (fun e => Bool.eqb (arg_is_object e) (arg_is_object first)
                    && (arg_states e =? arg_states first)
                    && (arg_actions e =? arg_actions first)) rest.

(** What [__init__] asserts of the evaluation environment. *)
Definition matching (first : EnvironmentArg) (evaluation : option EnvironmentArg) : bool :=
  match evaluation with
  | None => true
  | Some e => (arg_states e =? arg_states first) && (arg_actions e =? arg_actions first)
  end.

(** ** Counting calls *)

Definition count_events (f : Event -> bool) (d : Trace) : nat :=
  length (List.filter f d).

Definition is_agent_close (e : Event) : bool :=
  match e with
  | AgentClose => true
  | _ => false
  end.

Definition is_env_close (n : nat) (e : Event) : bool :=
  match e with
  | EnvClose m => (m =? n)%nat
  | _ => false
  end.

Definition is_execute (e : Event) : bool :=
  match e with
  | EnvStartExecute _ _ => true
  | _ => false
  end.

(** ** A runner at the head of its first iteration *)

(** The state in which the loop of [run(num_episodes=1, use_tqdm=False)]
    starts, for one environment. *)
Definition episode_start_state : St :=
  final (run_setup episode_world one_episode_args (runner_of 1, [])).

(** * Proofs *)

(** Projections of updated runners. *)
Ltac runner_simpl :=
  cbn [fst snd obs_states obs_terminal obs_reward negb andb orb is_set divides lift
    environments is_environment_external evaluation_environment is_eval_environment_external
    is_agent_external save_best_agent episode_rewards episode_timesteps episode_seconds
    episode_agent_seconds evaluation_rewards evaluation_timesteps evaluation_seconds
    evaluation_agent_seconds tqdm num_episodes num_timesteps num_updates join_agent_calls
    sync_timesteps sync_episodes num_sleep_secs callback_episode_frequency
    callback_timestep_frequency callback timesteps episodes updates evaluation_callback
    best_evaluation_score episode_reward episode_timestep episode_agent_second episode_start
    evaluation_reward evaluation_timestep evaluation_agent_second finished prev_terminals
    states terminals rewards actions set_environments set_is_environment_external
    set_evaluation_environment set_is_eval_environment_external set_is_agent_external
    set_save_best_agent set_episode_rewards set_episode_timesteps set_episode_seconds
    set_episode_agent_seconds set_evaluation_rewards set_evaluation_timesteps
    set_evaluation_seconds set_evaluation_agent_seconds set_tqdm set_num_episodes
    set_num_timesteps set_num_updates set_join_agent_calls set_sync_timesteps
    set_sync_episodes set_num_sleep_secs set_callback_episode_frequency
    set_callback_timestep_frequency set_callback set_timesteps set_episodes set_updates
    set_evaluation_callback set_best_evaluation_score set_episode_reward
    set_episode_timestep set_episode_agent_second set_episode_start set_evaluation_reward
    set_evaluation_timestep set_evaluation_agent_second set_finished set_prev_terminals
    set_states set_terminals set_rewards set_actions].

(** Naming the fields of a runner. *)
Ltac destruct_runner r :=
  let x0 := fresh "the_environments" in
  let x1 := fresh "the_is_environment_external" in
  let x2 := fresh "the_evaluation_environment" in
  let x3 := fresh "the_is_eval_environment_external" in
  let x4 := fresh "the_is_agent_external" in
  let x5 := fresh "the_save_best_agent" in
  let x6 := fresh "the_episode_rewards" in
  let x7 := fresh "the_episode_timesteps" in
  let x8 := fresh "the_episode_seconds" in
  let x9 := fresh "the_episode_agent_seconds" in
  let x10 := fresh "the_evaluation_rewards" in
  let x11 := fresh "the_evaluation_timesteps" in
  let x12 := fresh "the_evaluation_seconds" in
  let x13 := fresh "the_evaluation_agent_seconds" in
  let x14 := fresh "the_tqdm" in
  let x15 := fresh "the_num_episodes" in
  let x16 := fresh "the_num_timesteps" in
  let x17 := fresh "the_num_updates" in
  let x18 := fresh "the_join_agent_calls" in
  let x19 := fresh "the_sync_timesteps" in
  let x20 := fresh "the_sync_episodes" in
  let x21 := fresh "the_num_sleep_secs" in
  let x22 := fresh "the_callback_episode_frequency" in
  let x23 := fresh "the_callback_timestep_frequency" in
  let x24 := fresh "the_callback" in
  let x25 := fresh "the_timesteps" in
  let x26 := fresh "the_episodes" in
  let x27 := fresh "the_updates" in
  let x28 := fresh "the_evaluation_callback" in
  let x29 := fresh "the_best_evaluation_score" in
  let x30 := fresh "the_episode_reward" in
  let x31 := fresh "the_episode_timestep" in
  let x32 := fresh "the_episode_agent_second" in
  let x33 := fresh "the_episode_start" in
  let x34 := fresh "the_evaluation_reward" in
  let x35 := fresh "the_evaluation_timestep" in
  let x36 := fresh "the_evaluation_agent_second" in
  let x37 := fresh "the_finished" in
  let x38 := fresh "the_prev_terminals" in
  let x39 := fresh "the_states" in
  let x40 := fresh "the_terminals" in
  let x41 := fresh "the_rewards" in
  let x42 := fresh "the_actions" in
  destruct r as [x0 x1 x2 x3 x4 x5 x6 x7 x8 x9 x10 x11 x12 x13 x14 x15 x16 x17 x18 x19 x20
    x21 x22 x23 x24 x25 x26 x27 x28 x29 x30 x31 x32 x33 x34 x35 x36 x37 x38 x39 x40 x41
    x42];
  cbn [environments is_environment_external evaluation_environment is_eval_environment_external is_agent_external save_best_agent episode_rewards episode_timesteps episode_seconds episode_agent_seconds evaluation_rewards evaluation_timesteps evaluation_seconds evaluation_agent_seconds tqdm num_episodes num_timesteps num_updates join_agent_calls sync_timesteps sync_episodes num_sleep_secs callback_episode_frequency callback_timestep_frequency callback timesteps episodes updates evaluation_callback best_evaluation_score episode_reward episode_timestep episode_agent_second episode_start evaluation_reward evaluation_timestep evaluation_agent_second finished prev_terminals states terminals rewards actions] in *.

(** ** Reasoning rules *)

Section Rules.

Context {A : Type} (Q : A -> St -> Prop) (E : Stop -> St -> Prop) (s : St).

Lemma wp_ret (a : A) : Q a s -> wp (ret a) Q E s.
Proof. exact id. Qed.

Lemma wp_raise (e : Exn) : E (Exception e) s -> wp (raise e) Q E s.
Proof. exact id. Qed.

Lemma wp_unfinished : E CutOff s -> wp unfinished Q E s.
Proof. exact id. Qed.

Lemma wp_attr (f : Runner -> A) : Q (f s.1) s -> wp (attr f) Q E s.
Proof. exact id. Qed.

Lemma wp_lift (x : Exn + A) :
  (forall a, x = inr a -> Q a s) ->
  (forall e, x = inl e -> E (Exception e) s) ->
  wp (lift x) Q E s.
Proof. destruct x; cbn; auto. Qed.

Lemma wp_getitem (l : list A) (i : nat) :
  (forall x, l !! i = Some x -> Q x s) ->
  (l !! i = None -> E (Exception IndexError) s) ->
  wp (getitem l i) Q E s.
Proof. unfold getitem. destruct (l !! i); cbn; auto. Qed.

Lemma wp_final (m : M A) (P : St -> Prop) :
  wp m (fun _ => P) (fun _ => P) s <-> P (final (m s)).
Proof. unfold wp. destruct (m s); reflexivity. Qed.

Lemma wp_mono (m : M A) (Q' : A -> St -> Prop) (E' : Stop -> St -> Prop) :
  wp m Q' E' s ->
  (forall a s', Q' a s' -> Q a s') ->
  (forall stop s', E' stop s' -> E stop s') ->
  wp m Q E s.
Proof. unfold wp. destruct (m s); auto. Qed.

End Rules.

Section UnitRules.

Context (Q : unit -> St -> Prop) (E : Stop -> St -> Prop) (s : St).

Lemma wp_assign (upd : Runner -> Runner) : Q tt (upd s.1, s.2) -> wp (assign upd) Q E s.
Proof. exact id. Qed.

Lemma wp_emit (e : Event) : Q tt (s.1, s.2 ++ [e]) -> wp (emit e) Q E s.
Proof. exact id. Qed.

Lemma wp_finish :
  Q tt (set_finished true s.1, s.2 ++ [FinishedSet]) -> wp finish Q E s.
Proof. exact id. Qed.

Lemma wp_assert (b : bool) :
  (b = true -> Q tt s) ->
  (b = false -> E (Exception AssertionError) s) ->
  wp (py_assert b) Q E s.
Proof. destruct b; cbn; auto. Qed.

End UnitRules.

Lemma wp_bind {A B} (m : M A) (k : A -> M B) Q E s :
  wp m (fun a s' => wp (k a) Q E s') E s -> wp (bind m k) Q E s.
Proof. unfold wp, bind. destruct (m s); auto. Qed.

Lemma wp_setitem {A} (l : list A) (i : nat) (v : A) (Q : list A -> St -> Prop) E s :
  ((i < length l)%nat -> Q (<[i:=v]> l) s) ->
  ((length l <= i)%nat -> E (Exception IndexError) s) ->
  wp (setitem l i v) Q E s.
Proof.
  unfold setitem. intros HQ HE. case_bool_decide; cbn; [auto|]. apply HE. lia.
Qed.

Lemma wp_seconds_getitem (x : Seconds) (i : nat) (Q : float -> St -> Prop) E s :
  (forall l v, x = PerEnvironment l -> l !! i = Some v -> Q v s) ->
  (forall l, x = PerEnvironment l -> l !! i = None -> E (Exception IndexError) s) ->
  (forall f, x = Joint f -> E (Exception TypeError) s) ->
  wp (seconds_getitem x i) Q E s.
Proof.
  intros HQ HI HT. destruct x as [l|f]; cbn; [|by eapply HT].
  apply wp_getitem; eauto.
Qed.

Lemma wp_seconds_setitem (x : Seconds) (i : nat) (v : float) (Q : Seconds -> St -> Prop) E s :
  (forall l, x = PerEnvironment l -> (i < length l)%nat -> Q (PerEnvironment (<[i:=v]> l)) s) ->
  (forall l, x = PerEnvironment l -> (length l <= i)%nat -> E (Exception IndexError) s) ->
  (forall f, x = Joint f -> E (Exception TypeError) s) ->
  wp (seconds_setitem x i v) Q E s.
Proof.
  intros HQ HI HT. destruct x as [l|f]; cbn; [|by eapply HT].
  apply wp_bind, wp_setitem; [|by eauto]. intros Hi. apply wp_ret. eauto.
Qed.

Lemma wp_gt0 (x : option Z) (Q : bool -> St -> Prop) E s :
  (forall t, x = Some t -> Q (0 <? t) s) ->
  (x = None -> E (Exception TypeError) s) ->
  wp (gt0 x) Q E s.
Proof. destruct x; cbn; auto. Qed.

(** Calls to collaborators *)

Section CallRules.

Context (w : World) (E : Stop -> St -> Prop) (s : St).

Lemma wp_time_time (Q : float -> St -> Prop) :
  Q (clock w s.2) (s.1, s.2 ++ [TimeTime]) -> wp (time_time w) Q E s.
Proof. exact id. Qed.

Lemma wp_agent_act st parallel evaluation (Q : ActionVal -> St -> Prop) :
  Q (act_result w s.2) (s.1, s.2 ++ [AgentAct st parallel evaluation]) ->
  wp (agent_act w st parallel evaluation) Q E s.
Proof. exact id. Qed.

Lemma wp_agent_observe terminal reward parallel (Q : bool -> St -> Prop) :
  Q (observe_result w s.2) (s.1, s.2 ++ [AgentObserve terminal reward parallel]) ->
  wp (agent_observe w terminal reward parallel) Q E s.
Proof. exact id. Qed.

Lemma wp_receive_execute n (Q : option Observation -> St -> Prop) :
  Q (poll_result w n s.2) (s.1, s.2 ++ [EnvReceiveExecute n]) ->
  wp (receive_execute w n) Q E s.
Proof. exact id. Qed.

Lemma wp_call_fn fn parallel (Q : PyVal -> St -> Prop) :
  Q (callback_result w fn s.2 s.1 parallel) (s.1, s.2 ++ [CallbackCall fn parallel]) ->
  wp (call_fn w fn parallel) Q E s.
Proof. exact id. Qed.

Lemma wp_call_evaluation_fn (Q : PyVal -> St -> Prop) :
  Q (evaluation_callback_result w s.2 s.1) (s.1, s.2 ++ [EvaluationCallbackCall]) ->
  wp (call_evaluation_fn w) Q E s.
Proof. exact id. Qed.

End CallRules.

Lemma wp_returns {A} (m : M A) (s : St) (a : A) (s' : St) :
  wp m (fun a0 s0 => a0 = a /\ s0 = s') (fun _ _ => False) s -> m s = Returned a s'.
Proof. unfold wp. destruct (m s); [|done..]. by intros [-> ->]. Qed.

Lemma wp_returned {A} (m : M A) (Q : A -> St -> Prop) (s : St) :
  wp m Q (fun _ _ => False) s -> exists a s', m s = Returned a s' /\ Q a s'.
Proof. unfold wp. destruct (m s); [eauto|done..]. Qed.

Lemma wp_raises {A} (m : M A) (s : St) (e : Exn) (s' : St) :
  wp m (fun _ _ => False) (fun stop s0 => stop = Exception e /\ s0 = s') s ->
  m s = Raised e s'.
Proof. unfold wp. destruct (m s); try done; intros [? ->]; congruence. Qed.

(** Loops *)

Lemma wp_for_each_with {A B} (xs : list A) (body : A -> B -> M B)
    (I : B -> St -> Prop) (E : Stop -> St -> Prop) :
  (forall x b s, x ∈ xs -> I b s -> wp (body x b) I E s) ->
  forall b s, I b s -> wp (for_each_with xs b body) I E s.
Proof.
  induction xs as [|x xs IH]; intros Hbody b s HI; cbn; [exact HI|].
  apply wp_bind. eapply wp_mono; [apply Hbody; [left|exact HI]| |auto].
  intros b1 s1 HI1. apply IH; [|exact HI1].
  intros y b0 s0 Hy. apply Hbody. by right.
Qed.

Lemma wp_for_each {A} (xs : list A) (body : A -> M unit) (I : St -> Prop)
    (E : Stop -> St -> Prop) :
  (forall x s, x ∈ xs -> I s -> wp (body x) (fun _ => I) E s) ->
  forall s, I s -> wp (for_each xs body) (fun _ => I) E s.
Proof.
  induction xs as [|x xs IH]; intros Hbody s HI; cbn; [exact HI|].
  apply wp_bind. eapply wp_mono; [apply Hbody; [left|exact HI]| |auto].
  intros [] s1 HI1. apply IH; [|exact HI1].
  intros y s0 Hy. apply Hbody. by right.
Qed.

Lemma for_each_emit (f : nat -> Event) (ns : list nat) r tr :
  for_each ns (fun n => emit (f n)) (r, tr) = Returned tt (r, tr ++ (f <$> ns)).
Proof.
  revert tr. induction ns as [|n ns IH]; intros tr; cbn.
  - by rewrite app_nil_r.
  - unfold bind, emit. cbn. fold (emit (f n)). rewrite IH. by rewrite <- app_assoc.
Qed.

Lemma wp_for_each_emit (f : nat -> Event) (ns : list nat) (Q : unit -> St -> Prop) E s :
  Q tt (s.1, s.2 ++ (f <$> ns)) -> wp (for_each ns (fun n => emit (f n))) Q E s.
Proof. destruct s as [r tr]. unfold wp. by rewrite for_each_emit. Qed.

(** The callbacks return, leave the runner as it is, and call nothing but
    user functions and the progress bar. *)
Lemma sequential_callback_loop_returns w fns p result r tr :
  exists v d,
    sequential_callback_loop w fns p result (r, tr) = Returned v (r, tr ++ d) /\
    forallb is_callback_event d = true.
Proof.
  revert result tr. induction fns as [|fn fns IH]; intros result tr.
  - exists result, []. cbn. by rewrite app_nil_r.
  - cbn. unfold bind, call_fn. cbn.
    edestruct IH as (v & d & -> & Hd).
    exists v, (CallbackCall fn p :: d). by rewrite <- app_assoc.
Qed.

Lemma call_callback_returns w cb p r tr :
  exists v d,
    call_callback w cb p (r, tr) = Returned v (r, tr ++ d) /\
    forallb is_callback_event d = true.
Proof.
  revert tr. induction cb as [|fns|fn|inner IH]; intros tr.
  - exists (VBool true), []. cbn. by rewrite app_nil_r.
  - apply sequential_callback_loop_returns.
  - cbn. unfold boolean_callback, bind, call_fn. cbn.
    destruct (isinstance_bool _); eexists _, [_]; split; reflexivity.
  - cbn. unfold bind, emit. cbn. destruct (IH (tr ++ [TqdmUpdate])) as (v & d & -> & Hd).
    exists v, (TqdmUpdate :: d). by rewrite <- app_assoc.
Qed.

Lemma callback_events_are_not_agent_calls (d : Trace) :
  forallb is_callback_event d = true ->
  forallb (fun e => negb (is_agent_call e)) d = true.
Proof.
  induction d as [|e d IH]; [done|]. cbn. intros [He Hd]%andb_true_iff.
  rewrite IH by done. by destruct e.
Qed.

Lemma callback_events_are_benign (d : Trace) :
  forallb is_callback_event d = true -> forallb benign d = true.
Proof.
  induction d as [|e d IH]; [done|]. cbn. intros [He Hd]%andb_true_iff.
  rewrite IH by done. by destruct e.
Qed.

Lemma wp_call_callback w cb p (Q : PyVal -> St -> Prop) E s :
  (forall v d, forallb is_callback_event d = true -> Q v (s.1, s.2 ++ d)) ->
  wp (call_callback w cb p) Q E s.
Proof.
  destruct s as [r tr]. intros HQ. unfold wp.
  destruct (call_callback_returns w cb p r tr) as (v & d & -> & Hd). by apply HQ.
Qed.

(** ** Stepping through a method *)

(** What to do with a goal [E stop s] met on the way; reset per proof. *)
Ltac wp_stop := idtac.

Ltac wp_simpl := runner_simpl.

(** Case analysis on a condition: on the variable it tests, if any. *)
Ltac destruct_cond b :=
  lazymatch b with
  | negb ?x => destruct_cond x
  | andb ?x _ => destruct_cond x
  | orb ?x _ => destruct_cond x
  | _ => first [ is_var b; destruct b | destruct b eqn:? ]
  end.

(** Calls of methods for which a lemma is at hand; set per proof. *)
Ltac wp_call := fail.

Ltac wp_rule :=
  lazymatch goal with
  | |- wp (bind _ _) _ _ _ => apply wp_bind
  | |- wp (ret _) _ _ _ => apply wp_ret
  | |- wp (raise _) _ _ _ => apply wp_raise
  | |- wp undefined_name _ _ _ => apply wp_raise
  | |- wp unbound_local _ _ _ => apply wp_raise
  | |- wp unfinished _ _ _ => apply wp_unfinished
  | |- wp (attr _) _ _ _ => apply wp_attr
  | |- wp (assign _) _ _ _ => apply wp_assign
  | |- wp (emit _) _ _ _ => apply wp_emit
  | |- wp (time_sleep) _ _ _ => apply wp_emit
  | |- wp (agent_reset _) _ _ _ => apply wp_emit
  | |- wp (agent_save _) _ _ _ => apply wp_emit
  | |- wp agent_close _ _ _ => apply wp_emit
  | |- wp (start_reset _) _ _ _ => apply wp_emit
  | |- wp (start_execute _ _) _ _ _ => apply wp_emit
  | |- wp (environment_close _) _ _ _ => apply wp_emit
  | |- wp finish _ _ _ => apply wp_finish
  | |- wp (time_time _) _ _ _ => apply wp_time_time
  | |- wp (agent_act _ _ _ _) _ _ _ => apply wp_agent_act
  | |- wp (agent_observe _ _ _ _) _ _ _ => apply wp_agent_observe
  | |- wp (receive_execute _ _) _ _ _ => apply wp_receive_execute
  | |- wp (call_fn _ _ _) _ _ _ => apply wp_call_fn
  | |- wp (call_evaluation_fn _) _ _ _ => apply wp_call_evaluation_fn
  | |- wp (ceiling_or_callback _ _ _ _ _ _) _ _ _ => unfold ceiling_or_callback at 1
  | |- wp (boolean_callback _ _ _) _ _ _ => unfold boolean_callback at 1
  | |- wp (call_callback _ DefaultCallback _) _ _ _ => cbn [call_callback]
  | |- wp (call_callback _ (BooleanCallback _) _) _ _ _ =>
      cbn [call_callback]; unfold boolean_callback at 1
  | |- wp (call_callback _ (TqdmCallback _) _) _ _ _ => cbn [call_callback]
  | |- wp (call_callback _ _ _) _ _ _ =>
      apply wp_call_callback; intros ? ? ?
  | |- wp (for_each _ start_reset) _ _ _ => apply wp_for_each_emit
  | |- wp (for_each _ environment_close) _ _ _ => apply wp_for_each_emit
  | |- wp (py_assert _) _ _ _ => apply wp_assert; intros ?
  | |- wp (lift _) _ _ _ => apply wp_lift; intros ? ?
  | |- wp (getitem _ _) _ _ _ => apply wp_getitem; [intros ? ?|intros ?]
  | |- wp (setitem _ _ _) _ _ _ => apply wp_setitem; intros ?
  | |- wp (seconds_getitem _ _) _ _ _ =>
      apply wp_seconds_getitem; [intros ? ? ? ?|intros ? ? ?|intros ? ?]
  | |- wp (seconds_setitem _ _ _) _ _ _ =>
      apply wp_seconds_setitem; [intros ? ? ?|intros ? ? ?|intros ? ?]
  | |- wp (gt0 _) _ _ _ => apply wp_gt0; [intros ? ?|intros ?]
  | |- wp (when _ _) _ _ _ => unfold when at 1
  | |- wp (if ?b then _ else _) _ _ _ =>
      lazymatch b with
      | true => idtac
      | false => idtac
      | _ => destruct_cond b
      end
  | |- wp (match ?x with _ => _ end) _ _ _ =>
      first [ is_var x; destruct x | destruct x eqn:? ]
  | |- wp _ _ _ _ => wp_call
  end.

(** Closing the branches that contradict what is known. *)
Ltac wp_absurd :=
  try solve
    [ exfalso;
      match goal with
      | H : ?x <> ?x |- _ => exact (H eq_refl)
      | H : _ = _ |- _ => discriminate H
      | H1 : ?a = Some _, H2 : ?a = None |- _ => rewrite H1 in H2; discriminate H2
      | H1 : ?a = PerEnvironment _, H2 : ?a = Joint _ |- _ =>
          rewrite H1 in H2; discriminate H2
      end
    | exfalso;
      match goal with
      | H : (length _ <= _)%nat |- _ => rewrite ?length_insert in H
      | H : _ !! _ = None |- _ => apply lookup_ge_None in H; rewrite ?length_insert in H
      | H : @eq nat _ _ |- _ => idtac
      end;
      repeat match goal with
        | H : _ !! _ = Some _ |- _ => apply lookup_lt_Some in H
        end;
      lia ].

(** Two lookups at the same place give the same value. *)
Ltac use_equation H :=
  lazymatch type of H with
  | ?a = ?b => first [ is_var b; subst b | is_var a; subst a | idtac ]
  end.

Ltac wp_merge_step :=
  match goal with
  | H1 : ?l !! ?i = Some ?a, H2 : ?l !! ?i = Some ?b |- _ =>
      rewrite H1 in H2; injection H2 as H2; use_equation H2
  | H1 : ?x = PerEnvironment ?a, H2 : ?x = PerEnvironment ?b |- _ =>
      rewrite H1 in H2; injection H2 as H2; use_equation H2
  | H : PerEnvironment ?a = PerEnvironment ?b |- _ => injection H as H; use_equation H
  | H : Some ?a = Some ?b |- _ => injection H as H; use_equation H
  | H : <[?i:=?v]> ?l !! ?i = Some ?x |- _ =>
      rewrite list_lookup_insert_eq in H by (rewrite ?length_insert; assumption);
      injection H as H; use_equation H
  | H : bool_decide _ = true |- _ => apply bool_decide_eq_true in H
  | H : bool_decide _ = false |- _ => apply bool_decide_eq_false in H
  | H : context [length (<[_:=_]> _)] |- _ => rewrite length_insert in H
  end.

Ltac wp_merge := repeat wp_merge_step.

Ltac wp_step := wp_rule; wp_simpl; wp_merge; wp_absurd; try (progress wp_stop).

Ltac wp_steps := repeat wp_step.

(** Rewriting with the conditions met on the way. *)
Ltac use_conditions :=
  repeat match goal with
    | H : _ = true |- _ => rewrite H
    | H : _ = false |- _ => rewrite H
    end;
  cbn [negb andb orb].

(** ** Construction and shutdown *)

Lemma not_in_env_closes (e : Event) (ns : list nat) :
  (forall n, e <> EnvClose n) -> e ∉ EnvClose <$> ns.
Proof.
  intros He Hin. apply list_elem_of_fmap in Hin as (n & -> & _). by eapply He.
Qed.

(** C8.  The docstring of the class promises that an agent object
    supplied by the caller is not closed by [runner.close()].  The last
    statement of [close] closes the agent whatever [is_agent_external]
    says: an external agent is closed once (an agent the runner created is
    closed twice).  External environments are indeed left open. *)
Theorem close_closes_external_agent (r : Runner) (tr : Trace) :
  is_agent_external r = true ->
  exists d,
    close (r, tr) = Returned tt (r, tr ++ d ++ [AgentClose]) /\
    (AgentClose ∉ d) /\
    (is_environment_external r = true ->
     forall n, (n < length (environments r))%nat -> EnvClose n ∉ d) /\
    (is_eval_environment_external r = true -> EnvClose (length (environments r)) ∉ d).
Proof.
  intros Hagent.
  exists ((if tqdm r then [TqdmClose] else [])
          ++ (if is_environment_external r then []
              else EnvClose <$> seq 0 (length (environments r)))
          ++ match evaluation_environment r with
             | Some _ => if is_eval_environment_external r then []
                         else [EnvClose (length (environments r))]
             | None => []
             end).
  split; [|split; [|split]].
  - apply wp_returns. unfold close. destruct_runner r. subst.
    wp_steps; (split; [reflexivity|]); cbn [app]; rewrite <- ?app_assoc, ?app_nil_r;
      reflexivity.
  - pose proof (not_in_env_closes AgentClose (seq 0 (length (environments r)))
                  ltac:(discriminate)).
    rewrite !elem_of_app.
    destruct (tqdm r), (is_environment_external r), (evaluation_environment r);
      try destruct (is_eval_environment_external r);
      rewrite ?elem_of_cons, ?elem_of_nil; intuition discriminate.
  - intros -> n Hn. rewrite !elem_of_app.
    destruct (tqdm r), (evaluation_environment r);
      try destruct (is_eval_environment_external r);
      rewrite ?elem_of_cons, ?elem_of_nil; intuition (try discriminate); simplify_eq; lia.
  - intros ->.
    destruct (tqdm r), (is_environment_external r), (evaluation_environment r);
      rewrite !elem_of_app, ?list_elem_of_fmap, ?elem_of_cons, ?elem_of_nil;
      try setoid_rewrite elem_of_seq;
      intuition (try discriminate);
      match goal with H : exists _, _ |- _ => destruct H as (m & ? & ?) end;
      simplify_eq; lia.
Qed.

Lemma close_closes_external_agent_witness :
  is_agent_external (runner_of 1) = true /\
  exists d,
    close (runner_of 1, []) = Returned tt (runner_of 1, [] ++ d ++ [AgentClose]) /\
    (AgentClose ∉ d) /\
    (is_environment_external (runner_of 1) = true ->
     forall n, (n < length (environments (runner_of 1)))%nat -> EnvClose n ∉ d) /\
    (is_eval_environment_external (runner_of 1) = true ->
     EnvClose (length (environments (runner_of 1))) ∉ d).
Proof.
  split; [reflexivity|].
  apply (close_closes_external_agent (runner_of 1) []). reflexivity.
Defined.

(** C10, as the code has it.  Through [environment] and [num_parallel >=
    1] no runner is ever constructed: an [Environment] object fails the
    assertion that guards this branch, and a specification reaches the
    call of the list [self.environments], a [TypeError]. *)
Theorem init_environment_num_parallel (agent : AgentArg) (environment : EnvironmentArg)
    (n : Z) (evaluation : option EnvironmentArg) (directory : option string) (tr : Trace) :
  1 <= n ->
  exists s,
    ParallelRunner agent (Some environment) (Some n) None evaluation directory tr
    = Raised (if arg_is_object environment then AssertionError else TypeError) s.
Proof.
  intros Hn. unfold ParallelRunner, init, blank.
  destruct environment as [object st ac]. cbn [arg_is_object default from_option id].
  destruct (Z.to_nat n) as [|k] eqn:Hk; [lia|]. cbn [seq for_each_with].
  destruct object; eexists; apply wp_raises; wp_steps; split; reflexivity.
Qed.

Lemma init_environment_num_parallel_witness :
  1 <= 2 /\
  exists s,
    ParallelRunner external_agent (Some environment_specification) (Some 2) None None None []
    = Raised (if arg_is_object environment_specification
              then AssertionError else TypeError) s.
Proof.
  split; [lia|].
  apply (init_environment_num_parallel external_agent environment_specification 2
           None None []). lia.
Defined.

(** C10 as stated fails for an [Environment] object: the exception is an
    [AssertionError], not a [TypeError]. *)
Lemma init_environment_object_counterexample :
  (exists s, ParallelRunner external_agent (Some environment_object) (Some 1)
                            None None None [] = Raised AssertionError s) /\
  (forall s, ParallelRunner external_agent (Some environment_object) (Some 1)
                            None None None [] <> Raised TypeError s).
Proof. split; [eexists; reflexivity|]. intros s. vm_compute. discriminate. Qed.

(** ** The part of [run] before the loop *)

Lemma resets_are_not_agent_calls (ns : list nat) :
  forallb (fun ev => negb (is_agent_call ev)) (EnvStartReset <$> ns) = true.
Proof. induction ns; [reflexivity|]. cbn. assumption. Qed.

Lemma reset_among_resets (n k : nat) :
  (n < k)%nat -> EnvStartReset n ∈ EnvStartReset <$> seq 0 k.
Proof. intros Hn. apply list_elem_of_fmap. exists n. split; [reflexivity|]. apply elem_of_seq. lia. Qed.

(** C9, as the code has it.  A run with [join_agent_calls=True] never
    reaches the runner loop.  When the assertions of [run] hold it raises
    [AttributeError] (the expression [self.joint]) after the agent and
    every session have been reset; otherwise it raises [AssertionError]
    before any session is reset.  Either way the agent is never asked to
    act or to observe. *)
Theorem run_joined_never_loops (w : World) (fuel patience : nat) (a : RunArgs)
    (r : Runner) (tr : Trace) :
  run_join_agent_calls a = true ->
  exists e s d,
    run w fuel patience a (r, tr) = Raised e s /\
    s.2 = tr ++ d /\
    forallb (fun ev => negb (is_agent_call ev)) d = true /\
    if run_assertions a r
    then e = AttributeError /\ forall n, (n < sessions r)%nat -> EnvStartReset n ∈ d
    else e = AssertionError /\ forallb (fun ev => negb (is_reset ev)) d = true.
Proof.
  intros Hjoin.
  cut (wp (run w fuel patience a) (fun _ _ => False)
          (fun stop s => exists d,
             s.2 = tr ++ d /\
             forallb (fun ev => negb (is_agent_call ev)) d = true /\
             if run_assertions a r
             then stop = Exception AttributeError /\
                  forall n, (n < sessions r)%nat -> EnvStartReset n ∈ d
             else stop = Exception AssertionError /\
                  forallb (fun ev => negb (is_reset ev)) d = true)
          (r, tr)).
  { unfold wp. destruct (run w fuel patience a (r, tr)) as [? ?|e s|s]; [done| |].
    - intros (d & ? & ? & H). exists e, s, d. repeat (split; [done|]).
      destruct (run_assertions a r); destruct H as [[= ->] ?]; done.
    - intros (d & ? & ? & H). destruct (run_assertions a r); by destruct H. }
  destruct a as [ne nt nu join sts sep secs cb cef ctf use ecb].
  cbn in Hjoin. subst join. unfold run, run_setup, run_assertions, sessions.
  destruct_runner r. cbn [run_num_episodes run_num_timesteps run_num_updates
    run_join_agent_calls run_sync_timesteps run_sync_episodes run_num_sleep_secs
    run_callback run_callback_episode_frequency run_callback_timestep_frequency
    run_use_tqdm run_evaluation_callback].
  wp_steps.
  all: repeat match goal with
         | H : _ = true |- _ => rewrite H
         | H : _ = false |- _ => rewrite H
         end; cbn [negb andb orb is_set].
  all: eexists;
    (split; [first [symmetry; apply app_nil_r | rewrite <- ?app_assoc; reflexivity]|]).
  all: cbn [app forallb is_agent_call is_reset negb andb];
    rewrite ?forallb_app, ?resets_are_not_agent_calls;
    cbn [app forallb is_agent_call is_reset negb andb];
    (split; [reflexivity|]); (split; [reflexivity|]); try reflexivity.
  all: intros n Hn; rewrite ?elem_of_cons, ?elem_of_app, ?elem_of_cons.
  all: destruct (decide (n < length the_environments)%nat) as [Hlt|Hge];
    [auto 10 using reset_among_resets|].
  all: try lia.
  all: replace n with (length the_environments) by lia; auto 10.
Qed.

Lemma run_joined_never_loops_witness :
  run_join_agent_calls (mkRunArgs (Some 1) None None true false false 0.5%float
                                  NoCallback None None true false) = true /\
  exists e s d,
    run (scripted_world [] [] []) 1 1
        (mkRunArgs (Some 1) None None true false false 0.5%float
                   NoCallback None None true false) (runner_of 2, []) = Raised e s /\
    s.2 = [] ++ d /\
    forallb (fun ev => negb (is_agent_call ev)) d = true /\
    if run_assertions (mkRunArgs (Some 1) None None true false false 0.5%float
                                 NoCallback None None true false) (runner_of 2)
    then e = AttributeError /\ forall n, (n < sessions (runner_of 2))%nat -> EnvStartReset n ∈ d
    else e = AssertionError /\ forallb (fun ev => negb (is_reset ev)) d = true.
Proof.
  split; [reflexivity|].
  apply (run_joined_never_loops (scripted_world [] [] []) 1 1
           (mkRunArgs (Some 1) None None true false false 0.5%float
                      NoCallback None None true false) (runner_of 2) []).
  reflexivity.
Defined.

(** C9 as stated fails for [run(join_agent_calls=True)] with every other
    argument at its default: the progress bar is on and neither
    [num_episodes] nor [num_timesteps] is given, so the assertion of line
    206 fails, before any session is reset. *)
Lemma run_joined_defaults_counterexample :
  exists s,
    run (scripted_world [] [] []) 1 1
        (mkRunArgs None None None true false false 0.5%float NoCallback None None true false)
        (runner_of 2, [])
    = Raised AssertionError s /\ s.2 = [].
Proof. vm_compute. eexists. split; reflexivity. Qed.


(** ** Callbacks *)

Lemma sequential_callback_loop_result w fns p result r tr :
  sequential_callback_loop w fns p result (r, tr)
  = Returned (match result with
              | VBool true => first_not_true (callback_values w fns p r tr)
              | _ => result
              end)
             (r, tr ++ ((fun fn => CallbackCall fn p) <$> fns)).
Proof.
  revert result tr. induction fns as [|fn fns IH]; intros result tr.
  - cbn. rewrite app_nil_r. by destruct result as [|[]| | |].
  - cbn. unfold bind, call_fn. cbn. rewrite IH, <- app_assoc. cbn. f_equal.
    destruct result as [|[]| | |]; reflexivity.
Qed.

(** C4.  [sequential_callback] does call every registered function, in
    order and whatever the earlier ones returned.  But its test
    [isinstance(result, bool)] looks at the accumulated result, not at the
    value just returned: the combined result is the first value that is
    not [True].  So a function returning [None] makes the combined result
    [None], which [not] takes for false, and the run stops (first
    example: it stops after 1 of 5 episodes); and a non-boolean value
    hides a later [False] (second example).  The sibling
    [boolean_callback] does replace a non-boolean value by [True]. *)
Theorem sequential_callback_first_not_true :
  (forall w fns p r tr,
     sequential_callback w fns p (r, tr)
     = Returned (first_not_true (callback_values w fns p r tr))
                (r, tr ++ ((fun fn => CallbackCall fn p) <$> fns))) /\
  (exists r tr,
     run none_world 10 1 none_args (runner_of 1, []) = Returned tt (r, tr) /\
     episodes r = 1 /\ num_episodes r = Some 5 /\
     CallbackCall 0 0 ∈ tr /\
     all_and (callback_values none_world [0%nat] 0 r []) = true) /\
  (exists tr,
     sequential_callback none_world [1%nat; 2%nat] 0 (runner_of 1, [])
     = Returned (VInt 5) (runner_of 1, tr) /\
     py_not (VInt 5) = false /\
     all_and (callback_values none_world [1%nat; 2%nat] 0 (runner_of 1) []) = false) /\
  (forall w fn p r tr,
     isinstance_bool (callback_result w fn tr r p) = false ->
     boolean_callback w fn p (r, tr) = Returned (VBool true) (r, tr ++ [CallbackCall fn p])).
Proof.
  split; [|split; [|split]].
  - intros. unfold sequential_callback. by rewrite sequential_callback_loop_result.
  - eexists _, _. split; [vm_compute; reflexivity|].
    do 2 (split; [reflexivity|]). split; [|reflexivity].
    apply list_elem_of_In. cbn. repeat first [left; reflexivity | right].
  - eexists. split; [vm_compute; reflexivity|]. split; reflexivity.
  - intros w fn p r tr Hv. unfold boolean_callback, bind, call_fn. cbn. by rewrite Hv.
Qed.

(** ** The evaluation score and the snapshot of the best agent *)





(** The method around that block stops before it reaches the block:
    [evaluation_start] is read before it is assigned. *)
Lemma handle_terminal_evaluation_raises w r tr :
  exists s', handle_terminal_evaluation w (r, tr) = Raised UnboundLocalError s'.
Proof. eexists. reflexivity. Qed.

(** ** The timestep gate of [handle_act] *)





(** ** An observation that arrives after the run has finished *)

(** C7.  A training session delivers an observation with terminal code 0
    and a reward while [finished] is already set.  The code is upgraded to
    2 before [agent.observe] is called (the call carries 2), the reward is
    added to the session's episode reward, the agent is not asked to act
    again, and the episode is completed: the sum is appended to
    [episode_rewards]. *)
Theorem forced_end_is_ledgered (w : World) (r : Runner) (tr : Trace) (p : nat)
    (st : StateVal) (reward acc : float) (k : Z) (seconds starts : list float) :
  (p < length (environments r))%nat ->
  join_agent_calls r = false ->
  finished r = true ->
  (p < length (states r))%nat ->
  (p < length (terminals r))%nat ->
  (p < length (rewards r))%nat ->
  episode_reward r !! p = Some acc ->
  episode_timestep r !! p = Some k ->
  episode_agent_second r = PerEnvironment seconds ->
  (p < length seconds)%nat ->
  episode_start r = PerEnvironment starts ->
  (p < length starts)%nat ->
  callback_episode_frequency r <> Some 0 ->
  exists r' d,
    step w p (Some (mkObservation st (Some 0) (Some reward))) (r, tr)
    = Returned tt (r', tr ++ [TimeTime; AgentObserve (Some 2) (Some reward) p] ++ d) /\
    forallb (fun e => negb (is_agent_call e)) d = true /\
    terminals r' !! p = Some (Some 2) /\
    episode_rewards r' = episode_rewards r ++ [(acc + reward)%float] /\
    episodes r' = episodes r + 1.
Proof.
  intros Hp Hjoin Hfin Hst Hts Hrw Hacc Hk Hsec Hpsec Hstart Hpstart Hfreq.
  cut (wp (step w p (Some (mkObservation st (Some 0) (Some reward))))
          (fun _ s' =>
             (exists d,
                s'.2 = tr ++ [TimeTime; AgentObserve (Some 2) (Some reward) p] ++ d /\
                forallb (fun e => negb (is_agent_call e)) d = true) /\
             terminals s'.1 !! p = Some (Some 2) /\
             episode_rewards s'.1 = episode_rewards r ++ [(acc + reward)%float] /\
             episodes s'.1 = episodes r + 1)
          (fun _ _ => False) (r, tr)).
  { intros ([] & [r' tr'] & Hrun & (d & Htr & Hd) & H)%wp_returned.
    exists r', d. cbn in Htr. subst tr'. done. }
  unfold step, handle_observe, handle_terminal.
  destruct_runner r. subst.
  destruct the_callback_episode_frequency as [[|f|f]|]; [done|..].
  all: wp_steps.
  all: repeat (split; [|try reflexivity]).
  all: try (rewrite list_lookup_insert_eq by (rewrite ?length_insert; assumption);
            reflexivity).
  all: eexists; (split; [rewrite <- ?app_assoc; cbn [app]; reflexivity|]).
  all: cbn [forallb is_agent_call negb andb];
    rewrite ?forallb_app, ?callback_events_are_not_agent_calls by assumption;
    reflexivity.
Qed.

Lemma forced_end_is_ledgered_witness :
  exists r' d,
    step none_world 0 (Some (mkObservation 0 (Some 0) (Some 1%float)))
         (set_finished true scores_start.1, [])
    = Returned tt (r', [] ++ [TimeTime; AgentObserve (Some 2) (Some 1%float) 0] ++ d) /\
    forallb (fun e => negb (is_agent_call e)) d = true /\
    terminals r' !! 0%nat = Some (Some 2) /\
    episode_rewards r' = episode_rewards (set_finished true scores_start.1)
                         ++ [(0 + 1)%float] /\
    episodes r' = episodes (set_finished true scores_start.1) + 1.
Proof.
  apply (forced_end_is_ledgered none_world (set_finished true scores_start.1) [] 0 0
           1%float 0%float 0 [0%float] [0%float]);
    try reflexivity; try (cbn; lia); discriminate.
Defined.


(** ** Traces *)

Lemma phase_from_app ph d1 d2 :
  phase_from ph (d1 ++ d2) = phase_from (phase_from ph d1) d2.
Proof. apply fold_left_app. Qed.

Lemma phase_from_benign ph d : forallb benign d = true -> phase_from ph d = ph.
Proof.
  revert ph. induction d as [|e d IH]; intros ph; [done|]. cbn.
  intros [He Hd]%andb_true_iff. unfold phase_from in *. rewrite IH by done.
  by destruct e, ph.
Qed.

Lemma phase_from_callbacks ph d : forallb is_callback_event d = true -> phase_from ph d = ph.
Proof. intros H. by apply phase_from_benign, callback_events_are_benign. Qed.

Lemma phase_from_mono d a b : phase_le a b -> phase_le (phase_from a d) (phase_from b d).
Proof.
  revert a b. induction d as [|e d IH]; intros a b Hab; [done|]. cbn. apply IH.
  by destruct e, a, b.
Qed.

Lemma trace_ok_extends tr0 fin tr d fin' :
  trace_ok tr0 fin tr -> extends fin d fin' = true -> trace_ok tr0 fin' (tr ++ d).
Proof.
  intros (d0 & -> & Hok & Hrun) Hext. exists (d0 ++ d). rewrite app_assoc.
  split; [done|].
  change (phase (d0 ++ d)) with (phase_from Running (d0 ++ d)).
  rewrite phase_from_app. change (phase_from Running d0) with (phase d0).
  unfold extends in Hext.
  assert (phase_le (phase d0) (if fin then Stopping else Running)) as Hle.
  { destruct fin; [by destruct (phase d0)|]. by rewrite Hrun. }
  apply (phase_from_mono d) in Hle.
  destruct (phase_from (if fin then Stopping else Running) d),
    (phase_from (phase d0) d); cbn in *; try done.
  all: split; [done|]; by intros ->.
Qed.

Lemma extends_nil fin : extends fin [] fin = true.
Proof. by destruct fin. Qed.

Lemma extends_app fin d1 fin1 d2 fin2 :
  extends fin d1 fin1 = true -> extends fin1 d2 fin2 = true ->
  extends fin (d1 ++ d2) fin2 = true.
Proof.
  unfold extends. rewrite phase_from_app.
  destruct (phase_from _ d1) eqn:H1; [| |done].
  - intros _. destruct fin1; [|done].
    pose proof (phase_from_mono d2 Running Stopping I) as Hle.
    destruct (phase_from Stopping d2), (phase_from Running d2); done.
  - intros ->. done.
Qed.

Lemma extends_weaken fin d fin' : extends fin d fin' = true -> extends fin d true = true.
Proof. unfold extends. by destruct (phase_from _ d). Qed.

Lemma extends_benign fin d : forallb benign d = true -> extends fin d fin = true.
Proof. intros H. unfold extends. rewrite phase_from_benign by done. by destruct fin. Qed.

Lemma trace_ok_refl tr : trace_ok tr false tr.
Proof. exists []. by rewrite app_nil_r. Qed.


Lemma silent_for_app n d1 d2 : silent_for n d1 -> silent_for n d2 -> silent_for n (d1 ++ d2).
Proof. intros H1 H2 b. by rewrite fold_left_app, H1, H2. Qed.

Lemma silent_for_nil n : silent_for n [].
Proof. done. Qed.

Lemma silent_for_callbacks n d : forallb is_callback_event d = true -> silent_for n d.
Proof.
  induction d as [|e d IH]; [done|]. cbn. intros [He Hd]%andb_true_iff b. cbn.
  rewrite <- (IH Hd b) at 2. by destruct e.
Qed.

Lemma silent_for_awaiting n tr d :
  silent_for n d -> awaiting_reset n (tr ++ d) = awaiting_reset n tr.
Proof. intros H. unfold awaiting_reset. by rewrite fold_left_app, H. Qed.

Lemma extends_cons_benign fin e d fin' :
  benign e = true -> extends fin d fin' = true -> extends fin (e :: d) fin' = true.
Proof.
  intros He. unfold extends. cbn.
  replace (phase_step (if fin then Stopping else Running) e)
    with (if fin then Stopping else Running); [done|].
  by destruct e, fin.
Qed.

Lemma extends_callbacks_app fin d1 d2 fin' :
  forallb is_callback_event d1 = true ->
  extends fin d2 fin' = true -> extends fin (d1 ++ d2) fin' = true.
Proof.
  intros H1 H2. eapply extends_app; [|exact H2].
  by apply extends_benign, callback_events_are_benign.
Qed.

Lemma silent_for_cons n e d :
  (forall pending, request_step n pending e = pending) ->
  silent_for n d -> silent_for n (e :: d).
Proof. intros He Hd b. cbn. by rewrite He, Hd. Qed.

(** ** What the handlers do *)

Ltac solve_extends :=
  repeat first
    [ apply extends_cons_benign; [reflexivity|]
    | apply extends_callbacks_app; [assumption|] ];
  first [ reflexivity
        | apply extends_benign, callback_events_are_benign; assumption
        | match goal with
          | |- extends ?fin _ _ = true => is_var fin; destruct fin; reflexivity
          end ].

Ltac solve_silent :=
  let n := fresh "n" in
  let Hn := fresh "Hn" in
  intros n Hn;
  repeat first
    [ apply silent_for_nil
    | apply silent_for_callbacks; assumption
    | apply silent_for_app; [apply silent_for_callbacks; assumption|]
    | apply silent_for_cons;
      [ intros ?; cbn [request_step];
        first [ reflexivity
              | rewrite (proj2 (Nat.eqb_neq _ _)) by congruence; reflexivity ] |] ].

Ltac trace_delta :=
  first [ symmetry; apply app_nil_r
        | rewrite <- ?app_assoc; cbn [app]; reflexivity ].

Ltac solve_handled :=
  split; [reflexivity|];
  split; [reflexivity|];
  split; [unfold counters_moved; cbn;
          repeat match goal with
            | |- context [Z.b2z ?b] => destruct b; cbn [Z.b2z]
            end;
          lia|];
  split; [cbn; first [exact id | intros _; reflexivity]|];
  split; [eexists; split; [trace_delta|split; [cbn; solve_extends|solve_silent]]|];
  cbn; intros; first [reflexivity | by rewrite list_lookup_insert_ne by congruence].

Ltac solve_checked :=
  unfold ceilings_checked; cbn; intros ?;
  repeat split; first [left; reflexivity | right; assumption | discriminate].

Ltac wp_stop ::= solve [solve_handled].

Lemma handle_act_effect (w : World) (p : nat) (s : St) :
  wp (handle_act w p)
     (fun _ s' =>
        handled p 1 0 0 s s' /\ ledgers s'.1 = ledgers s.1 /\
        ceilings_checked s.1 s'.1 /\ terminals s'.1 = terminals s.1)
     (fun _ s' => handled p 1 0 0 s s') s.
Proof.
  destruct s as [r tr]. unfold handle_act. destruct_runner r.
  wp_steps.
  all: split; [solve_handled|split; [reflexivity|split; [solve_checked|reflexivity]]].
Qed.

Lemma handle_observe_effect (w : World) (p : nat) (s : St) :
  wp (handle_observe w p)
     (fun _ s' =>
        handled p 0 0 1 s s' /\ ledgers s'.1 = ledgers s.1 /\
        ceilings_checked s.1 s'.1 /\
        (terminals s.1 !! p = Some None -> terminals s'.1 !! p = Some None))
     (fun _ s' => handled p 0 0 1 s s') s.
Proof.
  destruct s as [r tr]. unfold handle_observe. destruct_runner r.
  wp_steps.
  all: split; [solve_handled|split; [reflexivity|split; [solve_checked|]]].
  all: cbn; intros Hnone; first [exact Hnone | congruence].
Qed.

Lemma handle_terminal_effect (w : World) (p : nat) (s : St) :
  wp (handle_terminal w p)
     (fun _ s' =>
        handled p 0 1 0 s s' /\
        (join_agent_calls s.1 = false -> ledgers_grown s.1 s'.1) /\
        ceilings_checked s.1 s'.1 /\ terminals s'.1 = terminals s.1)
     (fun _ s' => handled p 0 1 0 s s') s.
Proof.
  destruct s as [r tr]. unfold handle_terminal. destruct_runner r.
  wp_steps.
  all: split; [solve_handled|split; [|split; [solve_checked|reflexivity]]].
  all: cbn; intros Hjoin; try discriminate Hjoin.
  all: unfold ledgers_grown; cbn; rewrite ?length_app; cbn; repeat split; lia.
Qed.

(** ** The body of the environments loop *)

Lemma polls_are_benign d : forallb is_poll d = true -> forallb benign d = true.
Proof.
  induction d as [|e d IH]; [done|]. cbn. intros [He Hd]%andb_true_iff.
  rewrite IH by done. by destruct e.
Qed.

Lemma polls_are_silent n d : forallb is_poll d = true -> silent_for n d.
Proof.
  induction d as [|e d IH]; [done|]. cbn. intros [He Hd]%andb_true_iff b. cbn.
  rewrite <- (IH Hd b) at 2. by destruct e.
Qed.

Lemma polled_refl s : polled s s.
Proof. split; [done|]. exists []. by rewrite app_nil_r. Qed.

Lemma polled_trans s1 s2 s3 : polled s1 s2 -> polled s2 s3 -> polled s1 s3.
Proof.
  intros [H1 (d1 & Hd1 & Hp1)] [H2 (d2 & Hd2 & Hp2)]. split; [congruence|].
  exists (d1 ++ d2). rewrite Hd2, Hd1, app_assoc. split; [done|].
  by rewrite forallb_app, Hp1, Hp2.
Qed.

Lemma polled_awaiting n s s' : polled s s' -> awaiting_reset n s'.2 = awaiting_reset n s.2.
Proof.
  intros [_ (d & -> & Hd)]. by apply silent_for_awaiting, polls_are_silent.
Qed.

Lemma polled_handled p s s' : polled s s' -> handled p 0 0 0 s s'.
Proof.
  destruct s as [r tr], s' as [r' tr']. intros [Hr (d & Hd & Hp)]. cbn in *. subst.
  split; [done|]. split; [done|]. split; [unfold counters_moved; cbn; lia|].
  split; [done|]. split; [|done].
  exists d. split; [done|]. split.
  - by apply extends_benign, polls_are_benign.
  - intros n _. by apply polls_are_silent.
Qed.

Lemma handled_weaken p dt de du dt' de' du' s s' :
  handled p dt de du s s' -> dt <= dt' -> de <= de' -> du <= du' ->
  handled p dt' de' du' s s'.
Proof.
  intros (? & ? & Hc & ?) ? ? ?. split; [done|]. split; [done|]. split; [|done].
  unfold counters_moved in *. lia.
Qed.

Lemma handled_trans p dt de du dt' de' du' s1 s2 s3 :
  handled p dt de du s1 s2 -> handled p dt' de' du' s2 s3 ->
  handled p (dt + dt') (de + de') (du + du') s1 s3.
Proof.
  intros (Hs1 & Hp1 & Hc1 & Hf1 & (d1 & Hd1 & He1 & Hq1) & Ht1)
         (Hs2 & Hp2 & Hc2 & Hf2 & (d2 & Hd2 & He2 & Hq2) & Ht2).
  split; [congruence|]. split; [congruence|].
  split; [unfold counters_moved in *; lia|].
  split; [auto|]. split.
  - exists (d1 ++ d2). rewrite Hd2, Hd1, app_assoc. split; [done|]. split.
    + by eapply extends_app.
    + intros n Hn. apply silent_for_app; auto.
  - intros n Hn. rewrite Ht2, Ht1 by done. done.
Qed.

(** [wait_execute] polls, and what it returns is what the environment
    answered to its last poll. *)
Lemma wait_execute_polls w patience n s :
  wp (wait_execute w patience n)
     (fun o s' => polled s s' /\
                  exists s1, polled s s1 /\ poll_result w n s1.2 = Some o)
     (fun _ s' => polled s s') s.
Proof.
  revert s. induction patience as [|patience IH]; intros s; cbn [wait_execute].
  - apply wp_unfinished. apply polled_refl.
  - apply wp_bind, wp_receive_execute. cbv beta.
    assert (polled s (s.1, s.2 ++ [EnvReceiveExecute n])) as Hp.
    { split; [done|]. by exists [EnvReceiveExecute n]. }
    destruct (poll_result w n s.2) as [o|] eqn:Ho.
    + apply wp_ret. split; [done|]. exists s. split; [apply polled_refl|done].
    + eapply wp_mono; [apply IH| |].
      * intros o s' [H1 (s1 & H2 & H3)]. split; [by eapply polled_trans|].
        exists s1. split; [by eapply polled_trans|done].
      * intros stop s' H1. by eapply polled_trans.
Qed.

Ltac solve_polled :=
  split; [reflexivity|];
  eexists; split; [trace_delta|];
  cbn [app forallb is_poll andb]; rewrite ?forallb_app;
  repeat match goal with H : forallb is_poll _ = true |- _ => rewrite H end;
  reflexivity.

Ltac wp_stop ::= solve [solve_polled].

Ltac wp_call ::=
  lazymatch goal with
  | |- wp (wait_execute _ _ _) _ _ (?r, ?tr) =>
      let o := fresh "o" in
      let r' := fresh "r" in
      let tr' := fresh "tr" in
      let d := fresh "d" in
      let Hd := fresh "Hd" in
      let Ho := fresh "Ho" in
      eapply wp_mono;
      [ apply wait_execute_polls
      | intros o [r' tr'] [[? (d & ? & Hd)] Ho]; cbn [fst snd] in *; subst r' tr'
      | intros ? [r' tr'] [? (d & ? & Hd)]; cbn [fst snd] in *; subst r' tr' ]
  end.

(** Polling leaves the runner as it is; an observation passed on is what
    the environment answered to a poll. *)
Lemma poll_effect w patience p ner s :
  wp (poll w patience p ner)
     (fun res s' =>
        polled s s' /\
        match res with
        | Continue => True
        | Ready None _ => join_agent_calls s.1 = true
        | Ready (Some o) _ =>
            join_agent_calls s.1 = false /\
            exists s1, polled s s1 /\ poll_result w p s1.2 = Some o
        end)
     (fun _ s' => polled s s') s.
Proof.
  destruct s as [r tr]. unfold poll. destruct_runner r.
  wp_steps;
    repeat match goal with
           | |- _ /\ _ => split
           | |- True => exact I
           | |- _ = _ => reflexivity
           | |- polled _ _ => first [apply polled_refl | solve_polled]
           | |- exists _, _ =>
               first [ assumption
                     | eexists; split; [apply polled_refl | cbn [snd]; eassumption] ]
           end.
Qed.

(** ** Composition of what the handlers do *)

Lemma handled_advanced p dt de du s s' : handled p dt de du s s' -> advanced dt de du s s'.
Proof. intros (_ & _ & Hc & _ & (d & Hd & He & _) & _). split; [done|]. by exists d. Qed.

Lemma advanced_trans dt de du dt' de' du' s1 s2 s3 :
  advanced dt de du s1 s2 -> advanced dt' de' du' s2 s3 ->
  advanced (dt + dt') (de + de') (du + du') s1 s3.
Proof.
  intros [Hc1 (d1 & Hd1 & He1)] [Hc2 (d2 & Hd2 & He2)].
  split; [unfold counters_moved in *; lia|].
  exists (d1 ++ d2). rewrite Hd2, Hd1, app_assoc. split; [done|]. by eapply extends_app.
Qed.

Lemma advanced_weaken dt de du dt' de' du' s s' :
  advanced dt de du s s' -> dt <= dt' -> de <= de' -> du <= du' ->
  advanced dt' de' du' s s'.
Proof. intros [Hc ?] ? ? ?. split; [|done]. unfold counters_moved in *. lia. Qed.

Lemma ledgers_kept_same r r' : ledgers r' = ledgers r -> ledgers_kept r r'.
Proof.
  unfold ledgers, ledgers_kept, training_ledgers. intros [= -> -> -> -> ->]. auto.
Qed.

Lemma ledgers_kept_grown r r' : ledgers_grown r r' -> ledgers_kept r r'.
Proof.
  unfold ledgers_grown, ledgers_kept, training_ledgers.
  intros (-> & -> & -> & -> & ->) L. lia.
Qed.

Lemma progress_trans p dt de du dt' de' du' s1 s2 s3 :
  progress p dt de du s1 s2 -> progress p dt' de' du' s2 s3 ->
  progress p (dt + dt') (de + de') (du + du') s1 s3.
Proof.
  intros (H1 & Hc1 & Hl1) (H2 & Hc2 & Hl2).
  split; [by eapply handled_trans|]. split.
  - destruct H1 as (Hs1 & _ & _ & Hf1 & _), H2 as (Hs2 & _ & _ & Hf2 & _).
    unfold settings in Hs1, Hs2. simplify_eq.
    unfold ceilings_checked in *. intros Hfin.
    assert (finished s2.1 = false) as Hfin2.
    { destruct (finished s2.1); [|done]. rewrite Hf2 in Hfin; done. }
    specialize (Hc1 Hfin2). specialize (Hc2 Hfin).
    destruct Hc1 as (A1 & B1 & C1), Hc2 as (A2 & B2 & C2).
    repeat split.
    + destruct A2 as [->|?]; [|by right]. destruct A1 as [->|?]; [by left|right]. congruence.
    + destruct B2 as [->|?]; [|by right]. destruct B1 as [->|?]; [by left|right]. congruence.
    + destruct C2 as [->|?]; [|by right]. destruct C1 as [->|?]; [by left|right]. congruence.
  - intros Hj L HL. apply Hl2, Hl1; try done.
    destruct H1 as (Hs1 & _). unfold settings in Hs1. simplify_eq. congruence.
Qed.

Lemma progress_weaken p dt de du dt' de' du' s s' :
  progress p dt de du s s' -> dt <= dt' -> de <= de' -> du <= du' ->
  progress p dt' de' du' s s'.
Proof. intros (H & ?) ? ? ?. split; [|done]. by eapply handled_weaken. Qed.

(** ** One session in one iteration *)

Ltac solve_advanced :=
  lazymatch goal with
  | |- advanced ?a ?b ?c _ _ => try (is_evar a; unify a 0; unify b 0; unify c 0)
  end;
  split;
  [ unfold counters_moved; cbn; lia
  | eexists; split; [trace_delta | cbn; solve_extends] ].

Ltac wp_stop ::= solve [solve_advanced].
Ltac wp_call ::= fail.

(** The handlers of the evaluation session stop at an unbound name. *)
Lemma handle_act_evaluation_stops w s :
  wp (handle_act_evaluation w) (fun _ _ => False) (fun _ s' => advanced 0 0 0 s s') s.
Proof.
  destruct s as [r tr]. unfold handle_act_evaluation. destruct_runner r. wp_steps.
Qed.

Lemma handle_observe_evaluation_stops w s :
  wp (handle_observe_evaluation w) (fun _ _ => False) (fun _ s' => advanced 0 0 0 s s') s.
Proof.
  destruct s as [r tr]. unfold handle_observe_evaluation. destruct_runner r. wp_steps.
Qed.

Lemma handle_terminal_evaluation_stops w s :
  wp (handle_terminal_evaluation w) (fun _ _ => False) (fun _ s' => advanced 0 0 0 s s') s.
Proof.
  destruct s as [r tr]. unfold handle_terminal_evaluation. destruct_runner r. wp_steps.
Qed.

Lemma handle_act_progress w p s :
  wp (handle_act w p)
     (fun _ s' => progress p 1 0 0 s s' /\ terminals s'.1 = terminals s.1)
     (fun _ s' => advanced 1 0 0 s s') s.
Proof.
  eapply wp_mono; [apply handle_act_effect| |].
  - intros [] s' (H & Hl & Hc & Ht). split; [|done].
    split; [done|]. split; [done|]. intros _. by apply ledgers_kept_same.
  - intros stop s' H. exact (handled_advanced _ _ _ _ _ _ H).
Qed.

Lemma handle_observe_progress w p s :
  wp (handle_observe w p)
     (fun _ s' => progress p 0 0 1 s s')
     (fun _ s' => advanced 0 0 1 s s') s.
Proof.
  eapply wp_mono; [apply handle_observe_effect| |].
  - intros [] s' (H & Hl & Hc & Ht).
    split; [done|]. split; [done|]. intros _. by apply ledgers_kept_same.
  - intros stop s' H. exact (handled_advanced _ _ _ _ _ _ H).
Qed.

Lemma handle_terminal_progress w p s :
  wp (handle_terminal w p)
     (fun _ s' => progress p 0 1 0 s s' /\ terminals s'.1 = terminals s.1)
     (fun _ s' => advanced 0 1 0 s s') s.
Proof.
  eapply wp_mono; [apply handle_terminal_effect| |].
  - intros [] s' (H & Hl & Hc & Ht). split; [|done].
    split; [done|]. split; [done|]. intros Hj. by apply ledgers_kept_grown, Hl.
  - intros stop s' H. exact (handled_advanced _ _ _ _ _ _ H).
Qed.

Ltac from_state s :=
  match goal with
  | H : progress _ _ _ _ s _ |- _ => constr:(H)
  | H : handled _ _ _ _ s _ |- _ => constr:(H)
  | H : advanced _ _ _ s _ |- _ => constr:(H)
  end.

(** Chains what is known about the states passed through. *)
Ltac chain_advanced :=
  lazymatch goal with
  | |- advanced _ _ _ ?s ?s' =>
      first
        [ match goal with
          | H : advanced _ _ _ s s' |- _ => exact H
          | H : handled _ _ _ _ s s' |- _ => exact (handled_advanced _ _ _ _ _ _ H)
          | H : progress _ _ _ _ s s' |- _ =>
              exact (handled_advanced _ _ _ _ _ _ (proj1 H))
          | H : handled _ _ _ _ s ?s1 |- _ =>
              eapply advanced_trans;
              [exact (handled_advanced _ _ _ _ _ _ H) | chain_advanced]
          | H : progress _ _ _ _ s ?s1 |- _ =>
              eapply advanced_trans;
              [exact (handled_advanced _ _ _ _ _ _ (proj1 H)) | chain_advanced]
          end
        | solve [solve_advanced]
        | match goal with
          | H : progress _ _ _ _ ?s1 _ |- _ =>
              eapply (advanced_trans _ _ _ _ _ _ _ s1);
              [solve [solve_advanced] | chain_advanced]
          | H : handled _ _ _ _ ?s1 _ |- _ =>
              eapply (advanced_trans _ _ _ _ _ _ _ s1);
              [solve [solve_advanced] | chain_advanced]
          | H : advanced _ _ _ ?s1 _ |- _ =>
              eapply (advanced_trans _ _ _ _ _ _ _ s1);
              [solve [solve_advanced] | chain_advanced]
          end ]
  end.

Ltac solve_stop := eapply advanced_weaken; [chain_advanced | lia | lia | lia].

Ltac solve_progress0 :=
  lazymatch goal with
  | |- progress _ ?a ?b ?c _ _ => try (is_evar a; unify a 0; unify b 0; unify c 0)
  end;
  split; [solve_handled|]; split; [solve_checked|];
  intros _; apply ledgers_kept_same; reflexivity.

Ltac chain_progress :=
  lazymatch goal with
  | |- progress _ _ _ _ ?s ?s' =>
      first
        [ match goal with
          | H : progress _ _ _ _ s s' |- _ => exact H
          | H : progress _ _ _ _ s ?s1 |- _ =>
              eapply progress_trans; [exact H | chain_progress]
          end
        | solve [solve_progress0]
        | match goal with
          | H : progress _ _ _ _ ?s1 _ |- _ =>
              eapply (progress_trans _ _ _ _ _ _ _ _ s1);
              [solve [solve_progress0] | chain_progress]
          end ]
  end.

Ltac solve_return := eapply progress_weaken; [chain_progress | lia | lia | lia].

Ltac wp_stop ::= solve [solve_stop].

Ltac wp_handler lemma :=
  let r' := fresh "r" in
  let tr' := fresh "tr" in
  eapply wp_mono;
  [ apply lemma | intros [] [r' tr'] ? | intros ? [r' tr'] ? ].

Ltac wp_handler_split lemma :=
  let r' := fresh "r" in
  let tr' := fresh "tr" in
  eapply wp_mono;
  [ apply lemma | intros [] [r' tr'] [? ?] | intros ? [r' tr'] ? ].

Ltac wp_handler_stops lemma :=
  let r' := fresh "r" in
  let tr' := fresh "tr" in
  eapply wp_mono;
  [ apply lemma | intros [] [r' tr'] [] | intros ? [r' tr'] ? ].

Ltac wp_call ::=
  lazymatch goal with
  | |- wp (handle_act _ _) _ _ _ => wp_handler_split handle_act_progress
  | |- wp (handle_observe _ _) _ _ _ => wp_handler handle_observe_progress
  | |- wp (handle_terminal _ _) _ _ _ => wp_handler_split handle_terminal_progress
  | |- wp (handle_act_evaluation _) _ _ _ =>
      wp_handler_stops handle_act_evaluation_stops
  | |- wp (handle_observe_evaluation _) _ _ _ =>
      wp_handler_stops handle_observe_evaluation_stops
  | |- wp (handle_terminal_evaluation _) _ _ _ =>
      wp_handler_stops handle_terminal_evaluation_stops
  end.

(** Storing the observation of session [p] and handling it. *)
Lemma step_effect w p (o : option Observation) s :
  wp (step w p o)
     (fun _ s' =>
        progress p 1 1 1 s s' /\
        forall ob, join_agent_calls s.1 = false -> o = Some ob ->
                   obs_terminal ob = None -> terminals s'.1 !! p = Some None)
     (fun _ s' => advanced 1 1 1 s s') s.
Proof.
  destruct s as [r tr]. unfold step. destruct_runner r.
  wp_steps.
  all: split; [solve_return|].
  all: cbn [fst snd] in *; runner_simpl; intros ob Hjoin Hob Hnone;
    try discriminate Hjoin.
  all: injection Hob as <-; try congruence.
  match goal with H : terminals _ = _ |- _ => rewrite H end.
  cbn. by apply list_lookup_insert_eq.
Qed.


Ltac wp_call ::=
  lazymatch goal with
  | |- wp (poll _ _ _ _) _ _ (?r, ?tr) =>
      let r' := fresh "r" in
      let tr' := fresh "tr" in
      let d := fresh "d" in
      let Hd := fresh "Hd" in
      let Ho := fresh "Ho" in
      eapply wp_mono;
      [ apply poll_effect
      | intros ? [r' tr'] [[? (d & ? & Hd)] Ho]; cbn [fst snd] in *; subst r' tr'
      | intros ? [r' tr'] [? (d & ? & Hd)]; cbn [fst snd] in *; subst r' tr' ]
  | |- wp (step _ _ _) _ _ _ => wp_handler_split step_effect
  end.

Lemma polled_progress p s s' : polled s s' -> progress p 0 0 0 s s'.
Proof.
  intros H. split; [by apply polled_handled|]. destruct H as [-> _].
  split; [by repeat split; left|]. intros _. by apply ledgers_kept_same.
Qed.

Lemma polls_polled r tr d : forallb is_poll d = true -> polled (r, tr) (r, tr ++ d).
Proof. intros H. split; [done|]. by exists d. Qed.

(** The body of the loop over the sessions, for session [p]. *)
Lemma environment_body_effect w patience p ner s :
  wp (environment_body w patience p ner)
     (fun _ s' =>
        progress p 1 1 1 s s' /\
        (join_agent_calls s.1 = false ->
         reset_contract w p -> awaiting_reset p s.2 = true ->
         terminals s'.1 !! p = terminals s.1 !! p /\ awaiting_reset p s'.2 = true
         \/ terminals s'.1 !! p = Some None))
     (fun _ s' => advanced 1 1 1 s s') s.
Proof.
  destruct s as [r tr]. unfold environment_body.
  wp_steps.
  all: match goal with
       | Hd : forallb is_poll ?d = true |- _ =>
           pose proof (polls_polled r tr d Hd) as Hpoll;
           pose proof (polled_progress p _ _ Hpoll) as Hprog
       end.
  - split; [by eapply progress_weaken|]. intros _ _ Haw. left. split; [done|].
    by rewrite <- Haw; apply (polled_awaiting p _ _ Hpoll).
  - split; [eapply progress_weaken; [eapply progress_trans; eassumption|lia..]|].
    cbn [fst snd] in *. intros Hj Hc Haw. right.
    match goal with
    | Ho : match ?x with Some _ => _ | None => _ end |- _ =>
        destruct x as [ob|]; [|congruence]; destruct Ho as (_ & s1 & Hs1 & Hob)
    end.
    match goal with
    | Hstep : forall ob, _ -> _ -> _ -> _ |- _ => eapply Hstep; [done..|]
    end.
    eapply Hc; [|exact Hob].
    by rewrite <- Haw; apply (polled_awaiting p _ _ Hs1).
  - eapply advanced_weaken;
      [eapply advanced_trans;
       [exact (handled_advanced _ _ _ _ _ _ (proj1 Hprog))|eassumption]
      |lia..].
  - eapply advanced_weaken;
      [exact (handled_advanced _ _ _ _ _ _ (proj1 Hprog))|lia..].
Qed.

(** ** The loop over the sessions *)

Lemma traced_refl s : traced s s.
Proof. exists []. split; [by rewrite app_nil_r|]. apply extends_nil. Qed.

Lemma traced_trans s1 s2 s3 : traced s1 s2 -> traced s2 s3 -> traced s1 s3.
Proof.
  intros (d1 & Hd1 & He1) (d2 & Hd2 & He2).
  exists (d1 ++ d2). rewrite Hd2, Hd1, app_assoc. split; [done|]. by eapply extends_app.
Qed.

Lemma ceilings_checked_trans r1 r2 r3 :
  settings r2 = settings r1 -> settings r3 = settings r2 ->
  (finished r2 = true -> finished r3 = true) ->
  ceilings_checked r1 r2 -> ceilings_checked r2 r3 -> ceilings_checked r1 r3.
Proof.
  unfold settings. intros Hs Hs' Hf Hc1 Hc2 Hfin. simplify_eq.
  assert (finished r2 = false) as Hfin2.
  { destruct (finished r2); [|done]. rewrite Hf in Hfin; done. }
  specialize (Hc1 Hfin2). specialize (Hc2 Hfin).
  destruct Hc1 as (A1 & B1 & C1), Hc2 as (A2 & B2 & C2).
  repeat split.
  - destruct A2 as [->|?]; [|by right]. destruct A1 as [->|?]; [by left|right]. congruence.
  - destruct B2 as [->|?]; [|by right]. destruct B1 as [->|?]; [by left|right]. congruence.
  - destruct C2 as [->|?]; [|by right]. destruct C1 as [->|?]; [by left|right]. congruence.
Qed.

Lemma steady_refl r : steady r r.
Proof. split; [done|]. intros _ L. done. Qed.

Lemma steady_trans r1 r2 r3 : steady r1 r2 -> steady r2 r3 -> steady r1 r3.
Proof.
  intros [Hs1 Hl1] [Hs2 Hl2]. split; [congruence|].
  intros Hj L HL. apply Hl2, Hl1; try done.
  unfold settings in Hs1. simplify_eq. congruence.
Qed.

Lemma iterated_refl r : iterated 0 r r.
Proof.
  split; [apply steady_refl|]. split; [unfold counters_moved; lia|].
  split; [done|]. by repeat split; left.
Qed.

Lemma iterated_trans k k' r1 r2 r3 :
  0 <= k -> 0 <= k' ->
  iterated k r1 r2 -> iterated k' r2 r3 -> iterated (k + k') r1 r3.
Proof.
  intros ? ? (Hs1 & Hc1 & Hf1 & Hk1) (Hs2 & Hc2 & Hf2 & Hk2).
  split; [by eapply steady_trans|].
  split; [unfold counters_moved in *; lia|].
  split; [auto|].
  exact (ceilings_checked_trans r1 r2 r3 (proj1 Hs1) (proj1 Hs2) Hf2 Hk1 Hk2).
Qed.

Lemma progress_iterated p s s' : progress p 1 1 1 s s' -> iterated 1 s.1 s'.1.
Proof.
  intros ((Hs & _ & Hc & Hf & _) & Hk & Hl). split; [by split|]. done.
Qed.

Lemma progress_traced p dt de du s s' : progress p dt de du s s' -> traced s s'.
Proof. intros ((_ & _ & _ & _ & (d & Hd & He & _) & _) & _). by exists d. Qed.

Lemma progress_others p dt de du s s' n :
  progress p dt de du s s' -> n <> p ->
  terminals s'.1 !! n = terminals s.1 !! n /\
  awaiting_reset n s'.2 = awaiting_reset n s.2.
Proof.
  intros ((_ & _ & _ & _ & (d & Hd & _ & Hq) & Ht) & _) Hn.
  split; [by apply Ht|]. rewrite Hd. by apply silent_for_awaiting, Hq.
Qed.

Lemma sessions_effect w patience ns : forall ner s,
  wp (for_each_with ns ner (environment_body w patience))
     (fun _ s' =>
        iterated (Z.of_nat (length ns)) s.1 s'.1 /\ traced s s' /\
        prev_terminals s'.1 = prev_terminals s.1 /\
        (forall n, n ∉ ns ->
                   terminals s'.1 !! n = terminals s.1 !! n /\
                   awaiting_reset n s'.2 = awaiting_reset n s.2) /\
        (forall p ns',
           ns = p :: ns' -> p ∉ ns' -> join_agent_calls s.1 = false ->
           reset_contract w p -> awaiting_reset p s.2 = true ->
           terminals s'.1 !! p = terminals s.1 !! p /\ awaiting_reset p s'.2 = true
           \/ terminals s'.1 !! p = Some None))
     (fun _ s' =>
        advanced (Z.of_nat (length ns)) (Z.of_nat (length ns)) (Z.of_nat (length ns)) s s')
     s.
Proof.
  induction ns as [|p ns IH]; intros ner s; cbn [for_each_with].
  { apply wp_ret. split; [apply iterated_refl|]. split; [apply traced_refl|]. done. }
  apply wp_bind. eapply wp_mono; [apply environment_body_effect| |].
  - intros ner1 s1 [Hp Hhead]. eapply wp_mono; [apply IH| |].
    + intros ner2 s2 (Hi & Ht & Hpt & Hn & _).
      split.
      { replace (Z.of_nat (length (p :: ns))) with (1 + Z.of_nat (length ns))
          by (cbn [length]; lia).
        eapply iterated_trans; [lia|lia|by eapply progress_iterated|done]. }
      split; [eapply traced_trans; [by eapply progress_traced|done]|].
      split; [rewrite Hpt; apply Hp|]. split.
      { intros n Hnot. apply not_elem_of_cons in Hnot as [Hne Hnot].
        destruct (Hn n Hnot) as [-> ->]. by eapply progress_others. }
      intros p' ns' [= <- <-] Hnot Hj Hc Haw.
      destruct (Hn p Hnot) as [-> ->]. by apply Hhead.
    + intros stop s2 Ha.
      eapply advanced_weaken;
        [eapply advanced_trans; [exact (handled_advanced _ _ _ _ _ _ (proj1 Hp))|exact Ha]
        |cbn [length]; lia..].
  - intros stop s1 Ha. eapply advanced_weaken; [exact Ha|cbn [length]; lia..].
Qed.

(** ** The end of an iteration *)

Lemma all_gt0_outcome ts s :
  (exists b, all_gt0 ts s = Returned b s /\
             (ts !! 0%nat = Some (Some 0) -> b = false) /\
             ts !! 0%nat <> Some None) \/
  all_gt0 ts s = Raised TypeError s.
Proof.
  induction ts as [|x ts IH]; [left; by exists true|].
  cbn. unfold bind. destruct x as [t|]; cbn; [|by right].
  destruct (0 <? t) eqn:Ht.
  - destruct IH as [(b & -> & _)| ->]; [left|by right].
    exists b. split; [done|]. split; [|done]. intros [= ->]. discriminate Ht.
  - left. exists false. by repeat split.
Qed.

Lemma wp_all_gt0 ts (Q : bool -> St -> Prop) E s :
  (forall b, (ts !! 0%nat = Some (Some 0) -> b = false) -> ts !! 0%nat <> Some None -> Q b s) ->
  E (Exception TypeError) s ->
  wp (all_gt0 ts) Q E s.
Proof.
  intros HQ HE. unfold wp.
  destruct (all_gt0_outcome ts s) as [(b & -> & Hb & Hn)| ->]; auto.
Qed.

Ltac solve_traced :=
  eexists; split; [cbn [fst snd]; trace_delta | cbn; solve_extends].

Ltac wp_stop ::= idtac.

Ltac wp_call ::=
  lazymatch goal with
  | |- wp (all_gt0 _) _ _ _ => apply wp_all_gt0; [intros ? ? ?|]
  end.

Lemma iteration_end_effect count ner s :
  wp (iteration_end count ner)
     (fun _ s' =>
        iterated 0 s.1 s'.1 /\
        (barrier_mid count s -> traced s s' /\ barrier_ready count s'))
     (fun _ s' => counters_moved 0 0 0 s.1 s'.1 /\ (barrier_mid count s -> traced s s')) s.
Proof.
  destruct s as [r tr]. unfold iteration_end. destruct_runner r.
  wp_steps.
  all: split;
    [ first [ unfold counters_moved; cbn; lia
            | split; [split; [reflexivity|intros _ L HL; exact HL]|];
              split; [unfold counters_moved; cbn; lia|];
              split; [exact id|]; by repeat split; left ]
    | unfold barrier_mid, barrier_ready; cbn [fst snd]; runner_simpl; intros Hmid ].
  all: try solve [apply traced_refl].
  all: try solve [split; [solve_traced|]; intros Hs; discriminate Hs].
  all: try (destruct count as [|count];
            [ split; [solve_traced | intros _ Hc; by destruct Hc]
            | destruct (Hmid eq_refl ltac:(done)) as [[Hz _]|Hn]; [|done];
              match goal with H : _ -> true = false |- _ => by specialize (H Hz) end ]).
  all: split; [solve_traced|]; intros Hs Hc;
    destruct (Hmid Hs Hc) as [[Hz Haw]|Hn]; [|done]; split; [done|].
  all: first [ exact Haw
             | unfold awaiting_reset in *; rewrite fold_left_app; cbn; exact Haw ].
Qed.

(** ** One iteration *)

Lemma iteration_effect w patience count s :
  join_agent_calls s.1 = false ->
  wp (iteration w patience count)
     (fun _ s' =>
        iterated (Z.of_nat count) s.1 s'.1 /\
        ((sync_episodes s.1 = true -> reset_contract w 0) -> barrier_ready count s ->
         traced s s' /\ barrier_ready count s'))
     (fun _ s' =>
        counters_moved (Z.of_nat count) (Z.of_nat count) (Z.of_nat count) s.1 s'.1 /\
        ((sync_episodes s.1 = true -> reset_contract w 0) -> barrier_ready count s ->
         traced s s')) s.
Proof.
  destruct s as [r tr]. cbn [fst snd]. intros Hj. unfold iteration.
  apply wp_bind, wp_attr. cbn [fst]. rewrite Hj.
  apply wp_bind, wp_bind, wp_attr, wp_assign. cbn [fst snd].
  set (s0 := (set_terminals (prev_terminals r) r, tr)).
  assert (iterated 0 r s0.1) as H0.
  { destruct_runner r. split; [split; [reflexivity|intros _ L HL; exact HL]|].
    split; [unfold counters_moved; cbn; lia|]. split; [exact id|]. by repeat split; left. }
  assert (s0.2 = tr) as Htr by reflexivity.
  assert (finished s0.1 = finished r) as Hfin by (by destruct_runner r).
  assert (join_agent_calls s0.1 = false) as Hj0 by (by destruct_runner r).
  assert (terminals s0.1 = prev_terminals r) as Hterm by (by destruct_runner r).
  assert (sync_episodes s0.1 = sync_episodes r) as Hsync by (by destruct_runner r).
  clearbody s0.
  assert (forall s', traced s0 s' -> traced (r, tr) s') as Hfrom.
  { intros s' (d & Hd & He). exists d. cbn [fst snd]. by rewrite <- Htr, <- Hfin. }
  apply wp_bind. eapply wp_mono; [apply sessions_effect| |].
  - intros ner s1 (Hi & Ht & Hpt & Hn & Hhead). rewrite length_seq in Hi.
    assert ((sync_episodes r = true -> reset_contract w 0) ->
            barrier_ready count (r, tr) -> barrier_mid count s1) as Hmid.
    { intros Hc Hready Hs Hcount. destruct count as [|c]; [done|].
      assert (sync_episodes r = true) as Hsr.
      { rewrite <- Hsync. destruct Hi as ([Hset _] & _).
        unfold settings in Hset. simplify_eq. congruence. }
      specialize (Hc Hsr).
      destruct (Hready Hsr Hcount) as [Hz Haw]. cbn [fst snd] in Hz, Haw.
      rewrite <- Hterm in Hz. rewrite <- Htr in Haw.
      destruct (Hhead 0%nat (seq 1 c) eq_refl) as [[Hsame Haw1]|Hnone]; try done.
      - intros Hin. apply elem_of_seq in Hin. lia.
      - left. by rewrite Hsame.
      - by right. }
    eapply wp_mono; [apply iteration_end_effect| |].
    + intros [] s2 (Hi2 & Hb). split.
      * replace (Z.of_nat count) with (0 + (Z.of_nat count + 0)) by lia.
        eapply iterated_trans; [lia|lia|exact H0|].
        eapply iterated_trans; [lia|lia|exact Hi|exact Hi2].
      * intros Hc Hready. destruct (Hb (Hmid Hc Hready)) as [Ht2 Hr2].
        split; [|done]. apply Hfrom. by eapply traced_trans.
    + intros stop s2 [Hc2 Hb]. split.
      * destruct H0 as (_ & Hc0 & _), Hi as (_ & Hc1 & _).
        unfold counters_moved in *. lia.
      * intros Hc Hready. apply Hfrom. eapply traced_trans; [done|]. by apply Hb, Hmid.
  - intros stop s1 [Hc1 Ht]. rewrite length_seq in Hc1. split.
    + destruct H0 as (_ & Hc0 & _). unfold counters_moved in *. lia.
    + intros _ _. by apply Hfrom.
Qed.

(** ** The runner loop *)

Lemma counters_le_refl r : counters_le r r.
Proof. unfold counters_le. lia. Qed.

Lemma counters_le_trans r1 r2 r3 : counters_le r1 r2 -> counters_le r2 r3 -> counters_le r1 r3.
Proof. unfold counters_le. lia. Qed.

Lemma counters_moved_le dt de du r r' : counters_moved dt de du r r' -> counters_le r r'.
Proof. unfold counters_moved, counters_le. lia. Qed.

Lemma iterated_respected count r r' :
  finished r = false -> ceilings_respected count r -> iterated (Z.of_nat count) r r' ->
  ceilings_respected count r'.
Proof.
  unfold ceilings_respected. intros -> (Ht & He & Hu) ([Hs _] & Hc & _ & Hk).
  unfold settings in Hs. simplify_eq. unfold counters_moved in Hc.
  destruct (finished r') eqn:Hfin.
  - unfold all_within, within, under in *.
    repeat match goal with H : ?a = ?b |- _ => rewrite H end.
    destruct (num_timesteps r), (num_episodes r), (num_updates r); repeat split; lia.
  - destruct (Hk Hfin) as (At & Ae & Au).
    unfold all_under, under, reached in *.
    repeat match goal with H : num_timesteps _ = _ |- _ => rewrite H in *
                      | H : num_episodes _ = _ |- _ => rewrite H in *
                      | H : num_updates _ = _ |- _ => rewrite H in * end.
    destruct (num_timesteps r), (num_episodes r), (num_updates r); repeat split;
      try done.
    all: repeat match goal with H : _ \/ _ |- _ => destruct H end; lia.
Qed.

Lemma runner_loop_effect w patience count fuel : forall s,
  join_agent_calls s.1 = false ->
  wp (runner_loop w fuel patience count)
     (fun _ s' =>
        finished s'.1 = true /\ steady s.1 s'.1 /\ counters_le s.1 s'.1 /\
        (ceilings_respected count s.1 -> all_within (Z.of_nat count) s'.1) /\
        ((sync_episodes s.1 = true -> reset_contract w 0) -> barrier_ready count s ->
         traced s s'))
     (fun _ s' =>
        counters_le s.1 s'.1 /\
        ((sync_episodes s.1 = true -> reset_contract w 0) -> barrier_ready count s ->
         traced s s')) s.
Proof.
  assert (forall s : St,
    finished s.1 = true ->
    finished s.1 = true /\ steady s.1 s.1 /\ counters_le s.1 s.1 /\
    (ceilings_respected count s.1 -> all_within (Z.of_nat count) s.1) /\
    ((sync_episodes s.1 = true -> reset_contract w 0) -> barrier_ready count s ->
     traced s s)) as Hdone.
  { intros s Hfin.
    split; [done|]. split; [apply steady_refl|]. split; [apply counters_le_refl|].
    split; [|intros _ _; apply traced_refl].
    unfold ceilings_respected. by rewrite Hfin. }
  induction fuel as [|fuel IH]; intros s Hj; cbn [runner_loop];
    apply wp_bind, wp_attr;
    destruct (finished s.1) eqn:Hfin; try (apply wp_ret; by apply Hdone).
  - apply wp_unfinished. split; [apply counters_le_refl|intros _ _; apply traced_refl].
  - apply wp_bind. eapply wp_mono; [by apply iteration_effect| |].
    + intros [] s1 (Hi & Hb).
      assert (join_agent_calls s1.1 = false) as Hj1.
      { destruct Hi as ([Hs _] & _). unfold settings in Hs. simplify_eq. congruence. }
      assert (sync_episodes s1.1 = sync_episodes s.1) as Hsync.
      { destruct Hi as ([Hs _] & _). unfold settings in Hs. by simplify_eq. }
      eapply wp_mono; [by apply IH| |].
      * intros [] s2 (Hf2 & Hs2 & Hc2 & Hw2 & Ht2).
        split; [done|]. split; [eapply steady_trans; [apply Hi|done]|].
        split; [eapply counters_le_trans; [|done];
                eapply counters_moved_le; apply Hi|].
        split; [intros Hr; by eapply Hw2, iterated_respected|].
        intros Hc Hready. destruct (Hb Hc Hready) as [Ht1 Hr1].
        eapply traced_trans; [done|]. apply Ht2; [|done]. by rewrite Hsync.
      * intros stop s2 (Hc2 & Ht2). split.
        { eapply counters_le_trans; [|done]. eapply counters_moved_le; apply Hi. }
        intros Hc Hready. destruct (Hb Hc Hready) as [Ht1 Hr1].
        eapply traced_trans; [done|]. apply Ht2; [|done]. by rewrite Hsync.
    + intros stop s1 (Hc1 & Ht1). split; [by eapply counters_moved_le|done].
Qed.

(** ** [run], from its first statement to its last *)

Lemma wp_timing_loop w (ns : list nat) E r : forall acc tr (Q : list float -> St -> Prop),
  (forall l, Q l (r, tr ++ replicate (length ns) TimeTime)) ->
  wp (for_each_with ns acc (fun _ acc => now <- time_time w ;; ret (acc ++ [now]))) Q E
     (r, tr).
Proof.
  induction ns as [|n ns IH]; intros acc tr Q HQ; cbn [for_each_with].
  - apply wp_ret. specialize (HQ acc). by rewrite app_nil_r in HQ.
  - apply wp_bind, wp_bind, wp_time_time, wp_ret. cbn [fst snd]. apply IH.
    intros l. specialize (HQ l). cbn in HQ. by rewrite <- app_assoc.
Qed.

Lemma preparatory_resets (ns : list nat) : forallb preparatory (EnvStartReset <$> ns) = true.
Proof. by induction ns. Qed.

Lemma preparatory_timing n : forallb preparatory (replicate n TimeTime) = true.
Proof. by induction n. Qed.

Lemma preparatory_running d : forallb preparatory d = true -> phase d = Running.
Proof.
  unfold phase. induction d as [|e d IH]; intros Hd; [done|].
  cbn in Hd. apply andb_prop in Hd as [He Hd]. cbn.
  destruct e; try discriminate He; cbn; auto.
Qed.

Lemma preparatory_trace_ok tr d : forallb preparatory d = true -> trace_ok tr false (tr ++ d).
Proof.
  intros Hd. exists d. split; [done|]. rewrite (preparatory_running d Hd). done.
Qed.

Lemma preparatory_pending n d : forall pending,
  forallb preparatory d = true -> pending = true \/ EnvStartReset n ∈ d ->
  fold_left (request_step n) d pending = true.
Proof.
  induction d as [|e d IH]; intros pending Hd Hor.
  - destruct Hor as [->|Hin]; [done|]. by apply elem_of_nil in Hin.
  - cbn in Hd. apply andb_prop in Hd as [He Hd]. cbn [fold_left]. apply IH; [done|].
    destruct Hor as [->|Hin].
    + left. destruct e; try discriminate He; cbn; try done. by destruct (_ =? _)%nat.
    + apply elem_of_cons in Hin as [<-|Hin]; [|by right].
      left. cbn. by rewrite Nat.eqb_refl.
Qed.

Lemma preparatory_awaiting n tr d :
  forallb preparatory d = true -> EnvStartReset n ∈ d -> awaiting_reset n (tr ++ d) = true.
Proof.
  intros Hd Hin. unfold awaiting_reset. rewrite fold_left_app.
  apply preparatory_pending; auto.
Qed.

Ltac wp_stop ::= idtac.

Ltac wp_call ::=
  lazymatch goal with
  | |- wp (for_each_with _ _ _) _ _ _ => apply wp_timing_loop; intros ?
  end.

Ltac unfold_args :=
  cbn [run_num_episodes run_num_timesteps run_num_updates
    run_join_agent_calls run_sync_timesteps run_sync_episodes run_num_sleep_secs
    run_callback run_callback_episode_frequency run_callback_timestep_frequency
    run_use_tqdm run_evaluation_callback] in *.

Lemma run_setup_effect w a r tr :
  wp (run_setup w a)
     (fun count s' =>
        count = sessions r /\
        join_agent_calls s'.1 = false /\
        finished s'.1 = false /\
        (timesteps s'.1 = 0 /\ episodes s'.1 = 0 /\ updates s'.1 = 0) /\
        (num_timesteps s'.1 = run_num_timesteps a /\
         num_episodes s'.1 = run_num_episodes a /\
         num_updates s'.1 = run_num_updates a) /\
        sync_episodes s'.1 = run_sync_episodes a /\
        (forall L, training_ledgers r L -> training_ledgers s'.1 L) /\
        same_evaluation_ledgers r s'.1 /\
        prev_terminals s'.1 = replicate count (Some 0) /\
        exists d, s'.2 = tr ++ d /\ forallb preparatory d = true /\
                  (count <> 0%nat -> EnvStartReset 0 ∈ d))
     (fun _ s' => exists d, s'.2 = tr ++ d /\ forallb preparatory d = true) (r, tr).
Proof.
  destruct a as [ne nt nu join sts sep secs cb cef ctf use ecb].
  unfold run_setup, sessions. destruct_runner r. unfold_args.
  wp_steps.
  all: repeat match goal with
         | |- _ /\ _ => split
         | |- _ = _ => first [reflexivity | lia]
         | |- forall L, training_ledgers _ L -> training_ledgers _ L =>
             intros L HL; exact HL
         | |- same_evaluation_ledgers _ _ => by repeat split
         | |- exists d, _ => eexists
         | |- _ = _ ++ _ => trace_delta
         | |- forallb preparatory _ = true =>
             cbn [app forallb preparatory andb];
             rewrite ?forallb_app, ?preparatory_resets, ?preparatory_timing;
             cbn [app forallb preparatory andb]; reflexivity
         | |- _ -> _ ∈ _ => intros Hcount
         end.
  all: destruct (length the_environments) as [|k]; [|cbn [seq fmap list_fmap app]];
    try done.
  all: rewrite ?elem_of_cons, ?elem_of_app, ?elem_of_cons; auto 10.
Qed.

Lemma trace_ok_weaken tr0 fin tr : trace_ok tr0 fin tr -> trace_ok tr0 true tr.
Proof. intros (d & Hd & Hok & _). exists d. by repeat split. Qed.

Lemma traced_trace_ok tr0 s s' :
  trace_ok tr0 (finished s.1) s.2 -> traced s s' -> trace_ok tr0 true s'.2.
Proof.
  intros Hok (d & -> & He). eapply trace_ok_weaken, trace_ok_extends; eassumption.
Qed.

Lemma run_effect w fuel patience a r tr :
  wp (run w fuel patience a)
     (fun _ s' =>
        finished s'.1 = true /\
        (forall L, training_ledgers r L -> training_ledgers s'.1 (L + episodes s'.1)) /\
        same_evaluation_ledgers r s'.1 /\
        (0 <= timesteps s'.1 /\ 0 <= episodes s'.1 /\ 0 <= updates s'.1) /\
        (num_timesteps s'.1 = run_num_timesteps a /\
         num_episodes s'.1 = run_num_episodes a /\
         num_updates s'.1 = run_num_updates a) /\
        all_within (Z.of_nat (sessions r)) s'.1 /\
        ((run_sync_episodes a = true -> reset_contract w 0) -> trace_ok tr true s'.2))
     (fun _ s' =>
        (run_sync_episodes a = true -> reset_contract w 0) -> trace_ok tr true s'.2)
     (r, tr).
Proof.
  unfold run. apply wp_bind. eapply wp_mono; [apply run_setup_effect| |].
  - intros count s0 (Hcount & Hj & Hfin & (Ht & He & Hu) & (Hnt & Hne & Hnu) & Hsync
                     & Hled & Hev & Hprev & d & Hd & Hprep & Hin).
    assert (barrier_ready count s0) as Hready.
    { intros _ Hc. split.
      - rewrite Hprev. apply lookup_replicate_2. lia.
      - rewrite Hd. apply preparatory_awaiting; auto. }
    assert (trace_ok tr (finished s0.1) s0.2) as Hok.
    { rewrite Hfin, Hd. by apply preparatory_trace_ok. }
    eapply wp_mono; [by apply runner_loop_effect| |].
    + intros [] s1 (Hf1 & [Hset Hkept] & Hle & Hwithin & Htr).
      unfold settings in Hset. simplify_eq.
      split; [done|]. split.
      { intros L HL. apply (Hkept Hj). rewrite He, Z.add_0_r. by apply Hled. }
      split.
      { destruct Hev as (? & ? & ? & ?). repeat split; congruence. }
      split; [unfold counters_le in Hle; lia|].
      split; [repeat split; congruence|].
      split.
      { apply Hwithin. unfold ceilings_respected. rewrite Hfin.
        unfold all_under, under. rewrite Ht, He, Hu.
        destruct (num_timesteps s0.1), (num_episodes s0.1), (num_updates s0.1);
          repeat split; lia. }
      intros Hc. eapply traced_trace_ok; [exact Hok|]. apply Htr; [|done].
      by rewrite Hsync.
    + intros stop s1 (Hle & Htr) Hc.
      eapply traced_trace_ok; [exact Hok|]. apply Htr; [|done]. by rewrite Hsync.
  - intros stop s0 (d & Hd & Hprep) _. rewrite Hd.
    by eapply trace_ok_weaken, preparatory_trace_ok.
Qed.

(** ** The ledgers of a completed run *)

Lemma wp_trivial {A} (m : M A) (s : St) : wp m (fun _ _ => True) (fun _ _ => True) s.
Proof. unfold wp. by destruct (m s). Qed.

(** A runner as [__init__] leaves it has empty ledgers. *)
Lemma new_runner_ledgers agent environment num_parallel environments_arg
    evaluation_environment_arg save_best_agent_arg tr r tr' :
  ParallelRunner agent environment num_parallel environments_arg
                 evaluation_environment_arg save_best_agent_arg tr
  = Returned tt (r, tr') ->
  training_ledgers r 0 /\ evaluation_ledgers r 0.
Proof.
  unfold ParallelRunner. intros Hinit.
  cut (wp (init agent environment num_parallel environments_arg
             evaluation_environment_arg save_best_agent_arg)
          (fun _ s' => training_ledgers s'.1 0 /\ evaluation_ledgers s'.1 0)
          (fun _ _ => True) (blank, tr)).
  { unfold wp. by rewrite Hinit. }
  unfold init.
  apply wp_bind. eapply wp_mono; [apply wp_trivial| |done]. intros [] s0 _.
  apply wp_bind. eapply wp_mono; [apply wp_trivial| |done]. intros env s1 _.
  apply wp_bind. eapply wp_mono; [apply wp_trivial| |done]. intros [] [r2 tr2] _.
  destruct_runner r2. wp_steps. by repeat split.
Qed.

(** C1, as the code has it.  The ledgers are created by [__init__] and
    [run] only appends to them, while it sets [episodes] back to 0: after
    a completed run each of the four training ledgers is as long as it
    was before the run plus [episodes] (so as long as [episodes] says on
    a runner that has not run before).  The handlers of the evaluation
    session never return, so a run that completes has appended nothing to
    the evaluation ledgers: they are as they were before the run, of
    equal length if they were before. *)
Theorem completed_run_ledgers (w : World) (fuel patience : nat) (a : RunArgs)
    (r : Runner) (tr : Trace) (r' : Runner) (tr' : Trace) (L K : Z) :
  training_ledgers r L ->
  evaluation_ledgers r K ->
  run w fuel patience a (r, tr) = Returned tt (r', tr') ->
  training_ledgers r' (L + episodes r') /\
  evaluation_ledgers r' K /\
  same_evaluation_ledgers r r'.
Proof.
  intros HL HK Hrun. pose proof (run_effect w fuel patience a r tr) as H.
  unfold wp in H. rewrite Hrun in H. cbn [fst snd] in H.
  destruct H as (_ & Hled & Hev & _).
  split; [by apply Hled|]. split; [|done].
  destruct Hev as (E1 & E2 & E3 & E4), HK as (K1 & K2 & K3 & K4).
  unfold evaluation_ledgers. rewrite E1, E2, E3, E4. done.
Qed.

Lemma completed_run_ledgers_witness :
  let s' := final (run episode_world 10 1 one_episode_args (runner_of 1, [])) in
  training_ledgers (runner_of 1) 0 /\
  evaluation_ledgers (runner_of 1) 0 /\
  run episode_world 10 1 one_episode_args (runner_of 1, []) = Returned tt (s'.1, s'.2) /\
  training_ledgers s'.1 (0 + episodes s'.1) /\
  evaluation_ledgers s'.1 0 /\
  same_evaluation_ledgers (runner_of 1) s'.1.
Proof.
  intros s'.
  assert (training_ledgers (runner_of 1) 0) as HL by (by vm_compute).
  assert (evaluation_ledgers (runner_of 1) 0) as HK by (by vm_compute).
  assert (run episode_world 10 1 one_episode_args (runner_of 1, [])
          = Returned tt (s'.1, s'.2)) as Hrun by (vm_compute; reflexivity).
  split; [exact HL|]. split; [exact HK|]. split; [exact Hrun|].
  exact (completed_run_ledgers episode_world 10 1 one_episode_args (runner_of 1) []
           s'.1 s'.2 0 0 HL HK Hrun).
Defined.

(** C1 as stated fails for the second run of a runner: the first run
    completes one episode, the second one another; [episodes] is 1 at the
    end of the second run and every training ledger has 2 entries. *)
Lemma second_run_ledgers_counterexample :
  exists s1 s2,
    run episode_world 10 1 one_episode_args (runner_of 1, []) = Returned tt s1 /\
    run episode_world 10 1 one_episode_args s1 = Returned tt s2 /\
    episodes s1.1 = 1 /\ training_ledgers s1.1 1 /\
    episodes s2.1 = 1 /\ training_ledgers s2.1 2.
Proof.
  eexists. eexists. split; [vm_compute; reflexivity|].
  split; [vm_compute; reflexivity|]. by vm_compute.
Qed.

(** ** Counters and ceilings *)

(** Once [finished] is set the loop starts no further iteration. *)
Lemma runner_loop_finished w fuel patience count s :
  finished s.1 = true -> runner_loop w fuel patience count s = Returned tt s.
Proof. intros Hfin. destruct fuel; cbn; unfold bind, attr; by rewrite Hfin. Qed.

(** From one head of the loop to the next the counters do not decrease. *)
Lemma runner_loop_fuel w patience count fuel : forall s,
  join_agent_calls s.1 = false ->
  counters_le (final (runner_loop w fuel patience count s)).1
              (final (runner_loop w (S fuel) patience count s)).1.
Proof.
  induction fuel as [|fuel IH]; intros s Hj.
  - assert (final (runner_loop w 0 patience count s) = s) as ->.
    { cbn. unfold bind, attr. by destruct (finished s.1). }
    assert (wp (runner_loop w 1 patience count)
               (fun _ s' => counters_le s.1 s'.1) (fun _ s' => counters_le s.1 s'.1) s)
      as H.
    { eapply wp_mono; [by apply runner_loop_effect| |].
      - by intros [] s' (_ & _ & Hle & _).
      - by intros stop s' (Hle & _). }
    by apply wp_final in H.
  - destruct (finished s.1) eqn:Hfin.
    { rewrite !runner_loop_finished by done. apply counters_le_refl. }
    pose proof (iteration_effect w patience count s Hj) as Hit.
    change (runner_loop w (S (S fuel)) patience count s)
      with ((fin <- attr finished ;;
             if fin then ret tt
             else iteration w patience count ;; runner_loop w (S fuel) patience count) s).
    change (runner_loop w (S fuel) patience count s)
      with ((fin <- attr finished ;;
             if fin then ret tt
             else iteration w patience count ;; runner_loop w fuel patience count) s).
    unfold bind at 1 3. unfold attr. rewrite Hfin. unfold bind.
    unfold wp in Hit. destruct (iteration w patience count s) as [[] s1|e s1|s1];
      try apply counters_le_refl.
    apply IH. destruct Hit as [[[Hs _] _] _]. unfold settings in Hs.
    simplify_eq. congruence.
Qed.

(** C3, as the code has it.  From one head of the runner loop to the
    next the counters do not decrease.  A handler that increments a
    counter up to its ceiling sets [finished] in the same call.  The loop
    starts no iteration once [finished] is set, but the iteration in
    which it was set goes on with the remaining sessions: when the run
    returns, [finished] is set and every counter is less than the number
    of sessions above the last value under its ceiling. *)
Theorem counters_and_ceilings (w : World) (patience : nat) (a : RunArgs)
    (r : Runner) (tr : Trace) :
  (forall fuel,
     counters_le (final (run w fuel patience a (r, tr))).1
                 (final (run w (S fuel) patience a (r, tr))).1) /\
  (forall fuel r' tr',
     run w fuel patience a (r, tr) = Returned tt (r', tr') ->
     finished r' = true /\
     (0 <= timesteps r' /\ 0 <= episodes r' /\ 0 <= updates r') /\
     (num_timesteps r' = run_num_timesteps a /\
      num_episodes r' = run_num_episodes a /\
      num_updates r' = run_num_updates a) /\
     all_within (Z.of_nat (sessions r)) r') /\
  (forall p s s',
     (handle_act w p s = Returned tt s' -> ceilings_checked s.1 s'.1) /\
     (handle_observe w p s = Returned tt s' -> ceilings_checked s.1 s'.1) /\
     (handle_terminal w p s = Returned tt s' -> ceilings_checked s.1 s'.1)) /\
  (forall fuel count s,
     finished s.1 = true -> runner_loop w fuel patience count s = Returned tt s).
Proof.
  split; [|split; [|split]].
  - intros fuel. unfold run, bind.
    pose proof (run_setup_effect w a r tr) as Hsetup. unfold wp in Hsetup.
    destruct (run_setup w a (r, tr)) as [count s0|e s0|s0];
      try apply counters_le_refl.
    apply runner_loop_fuel. apply Hsetup.
  - intros fuel r' tr' Hrun.
    pose proof (run_effect w fuel patience a r tr) as H.
    unfold wp in H. rewrite Hrun in H. cbn [fst snd] in H.
    destruct H as (Hfin & _ & _ & Hpos & Hceil & Hwithin & _). done.
  - intros p s s'. split; [|split]; intros Hret.
    + pose proof (handle_act_effect w p s) as H. unfold wp in H. rewrite Hret in H.
      apply H.
    + pose proof (handle_observe_effect w p s) as H. unfold wp in H. rewrite Hret in H.
      apply H.
    + pose proof (handle_terminal_effect w p s) as H. unfold wp in H. rewrite Hret in H.
      apply H.
  - intros fuel count s. apply runner_loop_finished.
Qed.

(** C3 as stated fails with two sessions and [num_timesteps=1]: the
    first action of session 0 reaches the ceiling and sets [finished],
    and the same iteration still asks the agent to act for session 1, so
    the run ends with [timesteps] at 2. *)
Lemma ceiling_overshoot_counterexample :
  exists r',
    run pair_world 10 1 one_timestep_args (runner_of 2, [])
    = Returned tt
        (r',
         [AgentReset false; EnvStartReset 0; EnvStartReset 1; TimeTime; TimeTime;
          EnvReceiveExecute 0; TimeTime; AgentAct (Some 0) (Some 0%nat) false; TimeTime;
          EnvStartExecute 0 0; FinishedSet;
          EnvReceiveExecute 1; TimeTime; AgentAct (Some 0) (Some 1%nat) false; TimeTime;
          EnvStartExecute 1 0; FinishedSet]) /\
    num_timesteps r' = Some 1 /\ timesteps r' = 2.
Proof. eexists. split; [vm_compute; reflexivity|]. by vm_compute. Qed.

(** ** Resets and the finished flag *)




(** The protocol is needed: with [sync_episodes], an environment whose
    first observation after the reset is terminal ends the run and is
    then reset with all the others. *)
Lemma barrier_resets_without_protocol :
  exists r',
    run unruly_world 10 1 sync_episodes_args (runner_of 1, [])
    = Returned tt
        (r',
         [AgentReset false; EnvStartReset 0; TimeTime; EnvReceiveExecute 0; TimeTime;
          AgentObserve (Some 1) (Some 1%float) 0; TimeTime; TimeTime;
          FinishedSet; TimeTime; EnvStartReset 0]) /\
    finished r' = true.
Proof. eexists. split; [vm_compute; reflexivity|]. by vm_compute. Qed.

(** * Further properties *)

(** ** [__init__] with a list of environments *)

Ltac wp_stop ::= idtac.
Ltac wp_call ::= fail.

(** X1.  The guards of [__init__] when no single [environment] is given:
    [num_parallel] must be absent and [environments] present
    ([AssertionError] otherwise), [environments] must be iterable
    ([TensorforceError.type]) and not empty ([TensorforceError.value]).
    In each case nothing has been assigned but the empty list
    [environments], and no collaborator has been called. *)
Theorem init_rejects_environments (agent : AgentArg) (num_parallel : option Z)
    (environments_arg : option EnvironmentsArg) (evaluation : option EnvironmentArg)
    (directory : option string) (tr : Trace) :
  ParallelRunner agent None num_parallel environments_arg evaluation directory tr
  = match num_parallel, environments_arg with
    | Some _, _ | None, None => Raised AssertionError (blank, tr)
    | None, Some NotIterable => Raised TensorforceError_type (blank, tr)
    | None, Some (Iterable []) => Raised TensorforceError_value (blank, tr)
    | None, Some (Iterable (first :: rest)) =>
        ParallelRunner agent None None (Some (Iterable (first :: rest)))
                       evaluation directory tr
    end.
Proof.
  destruct num_parallel as [n|], environments_arg as [[|[|first rest]]|]; reflexivity.
Qed.

(** The loop of [__init__] over the environments after the first. *)
Lemma init_loop_effect (first : EnvironmentArg) (rest : list EnvironmentArg) :
  forall (acc : Environment) (r : Runner) (tr : Trace),
  is_environment_external r = arg_is_object first ->
  wp (for_each_with rest acc (fun e _ =>
        external <- attr is_environment_external ;;
        py_assert (Bool.eqb (arg_is_object e) external) ;;
        let environment := Environment_create e in
        py_assert (env_states environment =? env_states (Environment_create first)) ;;
        py_assert (env_actions environment =? env_actions (Environment_create first)) ;;
        append_environment environment ;;
        ret environment))
     (fun _ s' =>
        uniform first rest = true /\
        s' = (set_environments (environments r ++ (Environment_create <$> rest)) r, tr))
     (fun stop s' =>
        uniform first rest = false /\ stop = Exception AssertionError /\ s'.2 = tr)
     (r, tr).
Proof.
  induction rest as [|e rest IH]; intros acc r tr Hext; cbn [for_each_with].
  - apply wp_ret. split; [reflexivity|]. cbn. rewrite app_nil_r. by destruct r.
  - unfold uniform. cbn [forallb]. fold (uniform first rest).
    apply wp_bind, wp_bind, wp_attr. cbn [fst]. rewrite Hext.
    apply wp_bind, wp_assert; intros ->; cbn [andb]; [|by repeat split].
    apply wp_bind, wp_assert; cbn [Environment_create env_states];
      intros ->; cbn [andb]; [|by repeat split].
    apply wp_bind, wp_assert; cbn [Environment_create env_actions];
      intros ->; cbn [andb]; [|by repeat split].
    unfold append_environment.
    apply wp_bind, wp_bind, wp_attr, wp_assign, wp_ret. cbn [fst snd].
    eapply wp_mono; [apply IH; by destruct r| |].
    + intros _ s' [Hu ->]. split; [done|]. destruct r; cbn.
      by rewrite <- app_assoc.
    + intros stop s' H. exact H.
Qed.

Ltac wp_call ::=
  lazymatch goal with
  | |- wp (append_environment _) _ _ _ => unfold append_environment
  | |- wp (for_each_with ?rest _ _) _ _ (?r, ?tr) =>
      eapply wp_mono;
      [ apply (init_loop_effect _ rest); reflexivity
      | intros ? ? [? ->]
      | intros ? [? ?] (? & -> & ?); cbn [snd] in *; subst ]
  end.

(** X2.  [ParallelRunner(agent, environments=[first, ...],
    evaluation_environment=..., save_best_agent=...)] succeeds exactly
    when every further environment is of the same kind (object or
    specification) as the first and has its states and actions, and the
    evaluation environment, if any, has them too; otherwise an assertion
    fails.  The runner it builds holds one environment per argument, in
    order, all with the same states and actions, and empty ledgers; no
    collaborator is called. *)
Theorem init_environments_list (agent : AgentArg) (first : EnvironmentArg)
    (rest : list EnvironmentArg) (evaluation : option EnvironmentArg)
    (directory : option string) (tr : Trace) :
  if uniform first rest && matching first evaluation
  then exists r,
         ParallelRunner agent None None (Some (Iterable (first :: rest)))
                        evaluation directory tr = Returned tt (r, tr) /\
         environments r = Environment_create <$> (first :: rest) /\
         (forall e, e ∈ environments r -> e = Environment_create first) /\
         is_environment_external r = arg_is_object first /\
         evaluation_environment r = Environment_create <$> evaluation /\
         (forall e, evaluation = Some e ->
                    is_eval_environment_external r = arg_is_object e) /\
         is_agent_external r = agent_is_object agent /\
         save_best_agent r = directory /\
         training_ledgers r 0 /\ evaluation_ledgers r 0
  else exists r,
         ParallelRunner agent None None (Some (Iterable (first :: rest)))
                        evaluation directory tr = Raised AssertionError (r, tr).
Proof.
  assert (forall e, e ∈ Environment_create <$> rest -> uniform first rest = true ->
                    e = Environment_create first) as Hsame.
  { intros e Hin Hu. apply list_elem_of_fmap in Hin as (x & -> & Hx).
    unfold uniform in Hu. rewrite forallb_forall in Hu.
    apply list_elem_of_In in Hx. specialize (Hu x Hx).
    apply andb_prop in Hu as [Hu Ha]. apply andb_prop in Hu as [_ Hs].
    apply Z.eqb_eq in Ha, Hs. unfold Environment_create. by rewrite Ha, Hs. }
  cut (wp (init agent None None (Some (Iterable (first :: rest))) evaluation directory)
          (fun _ s' =>
             uniform first rest && matching first evaluation = true /\
             s'.2 = tr /\
             environments s'.1 = Environment_create <$> (first :: rest) /\
             is_environment_external s'.1 = arg_is_object first /\
             evaluation_environment s'.1 = Environment_create <$> evaluation /\
             (forall e, evaluation = Some e ->
                        is_eval_environment_external s'.1 = arg_is_object e) /\
             is_agent_external s'.1 = agent_is_object agent /\
             save_best_agent s'.1 = directory /\
             training_ledgers s'.1 0 /\ evaluation_ledgers s'.1 0)
          (fun stop s' =>
             uniform first rest && matching first evaluation = false /\
             stop = Exception AssertionError /\ s'.2 = tr)
          (blank, tr)).
  { unfold ParallelRunner, wp.
    destruct (init _ _ _ _ _ _ (blank, tr)) as [[] [r tr']|e [r tr']|[r tr']].
    - intros (Hum & Htr & Henvs & Hrest). rewrite Hum. cbn [fst snd] in *. subst tr'.
      exists r. split; [done|]. split; [done|]. split; [|done].
      intros e. rewrite Henvs, fmap_cons, elem_of_cons. intros [->|Hin]; [done|].
      apply Hsame; [done|]. by apply andb_prop in Hum as [? _].
    - intros (-> & [= ->] & Htr). cbn in Htr. subst tr'. by exists r.
    - by intros (_ & [=] & _). }
  unfold init, blank, matching. destruct evaluation as [e|]; wp_steps.
  all: cbn [Environment_create env_states env_actions] in *.
  all: repeat match goal with
         | H : _ = true |- _ => rewrite H
         | H : _ = false |- _ => rewrite H
         end; cbn [andb]; rewrite ?andb_false_r.
  all: repeat match goal with
         | |- _ /\ _ => split
         | |- _ = _ => reflexivity
         | |- training_ledgers _ _ => by repeat split
         | |- evaluation_ledgers _ _ => by repeat split
         | |- forall e0, Some _ = Some e0 -> _ => by intros ? [= <-]
         | |- forall e0, None = Some e0 -> _ => by intros ? [=]
         end.
Qed.

(** ** [close] *)

Lemma count_events_app f d1 d2 :
  count_events f (d1 ++ d2) = (count_events f d1 + count_events f d2)%nat.
Proof. unfold count_events. by rewrite List.filter_app, length_app. Qed.

Lemma count_env_close_seq (n k : nat) : forall start,
  count_events (is_env_close n) (EnvClose <$> seq start k)
  = if bool_decide (start <= n < start + k)%nat then 1%nat else 0%nat.
Proof.
  induction k as [|k IH]; intros start.
  - cbn. case_bool_decide; [lia|done].
  - cbn [seq fmap list_fmap]. change (?x :: ?l) with ([x] ++ l).
    rewrite count_events_app, IH. unfold count_events at 1. cbn.
    destruct (Nat.eqb_spec start n) as [->|Hne]; cbn;
      repeat case_bool_decide; lia.
Qed.

Lemma count_agent_close_envs (ns : list nat) :
  count_events is_agent_close (EnvClose <$> ns) = 0%nat.
Proof. by induction ns. Qed.

(** X3.  [close] always returns and leaves the runner as it is.  It
    closes the agent once if the caller supplied it and twice if the
    runner created it; it closes each training environment once, in
    order, unless they were supplied as objects, and the evaluation
    environment once unless it was; it closes nothing else. *)
Theorem close_calls (r : Runner) (tr : Trace) :
  exists d,
    close (r, tr) = Returned tt (r, tr ++ d) /\
    count_events is_agent_close d = (if is_agent_external r then 1 else 2)%nat /\
    (forall n, (n < length (environments r))%nat ->
               count_events (is_env_close n) d
               = if is_environment_external r then 0%nat else 1%nat) /\
    count_events (is_env_close (length (environments r))) d
    = match evaluation_environment r with
      | Some _ => if is_eval_environment_external r then 0%nat else 1%nat
      | None => 0%nat
      end /\
    (forall n, (length (environments r) < n)%nat ->
               count_events (is_env_close n) d = 0%nat) /\
    forallb (fun e => match e with
                      | TqdmClose | AgentClose | EnvClose _ => true
                      | _ => false
                      end) d = true.
Proof.
  exists ((if tqdm r then [TqdmClose] else [])
          ++ (if is_agent_external r then [] else [AgentClose])
          ++ (if is_environment_external r then []
              else EnvClose <$> seq 0 (length (environments r)))
          ++ match evaluation_environment r with
             | Some _ => if is_eval_environment_external r then []
                         else [EnvClose (length (environments r))]
             | None => []
             end
          ++ [AgentClose]).
  assert (forall f, count_events f [] = 0%nat) as Hnil by done.
  assert (forall f e, count_events f [e] = if f e then 1%nat else 0%nat) as Hone
    by (intros f e; unfold count_events; cbn; by destruct (f e)).
  split; [|split; [|split; [|split; [|split]]]].
  - apply wp_returns. unfold close. destruct_runner r.
    wp_steps; (split; [reflexivity|]); cbn [app]; rewrite <- ?app_assoc, ?app_nil_r;
      reflexivity.
  - rewrite !count_events_app.
    destruct (tqdm r), (is_agent_external r), (is_environment_external r),
      (evaluation_environment r); try destruct (is_eval_environment_external r);
      rewrite ?count_agent_close_envs, ?Hnil, ?Hone; reflexivity.
  - intros n Hn. rewrite !count_events_app.
    assert (is_env_close n (EnvClose (length (environments r))) = false) as Hne
      by (apply Nat.eqb_neq; lia).
    assert (count_events (is_env_close n)
              (EnvClose <$> seq 0 (length (environments r))) = 1%nat) as Hseq
      by (rewrite count_env_close_seq; case_bool_decide; [done|lia]).
    destruct (tqdm r), (is_agent_external r), (is_environment_external r),
      (evaluation_environment r); try destruct (is_eval_environment_external r);
      rewrite ?Hseq, ?Hnil, ?Hone, ?Hne; reflexivity.
  - rewrite !count_events_app.
    assert (is_env_close (length (environments r))
              (EnvClose (length (environments r))) = true) as Heq
      by apply Nat.eqb_refl.
    assert (count_events (is_env_close (length (environments r)))
              (EnvClose <$> seq 0 (length (environments r))) = 0%nat) as Hseq
      by (rewrite count_env_close_seq; case_bool_decide; [lia|done]).
    destruct (tqdm r), (is_agent_external r), (is_environment_external r),
      (evaluation_environment r); try destruct (is_eval_environment_external r);
      rewrite ?Hseq, ?Hnil, ?Hone, ?Heq; reflexivity.
  - intros n Hn. rewrite !count_events_app.
    assert (is_env_close n (EnvClose (length (environments r))) = false) as Hne
      by (apply Nat.eqb_neq; lia).
    assert (count_events (is_env_close n)
              (EnvClose <$> seq 0 (length (environments r))) = 0%nat) as Hseq
      by (rewrite count_env_close_seq; case_bool_decide; [lia|done]).
    destruct (tqdm r), (is_agent_external r), (is_environment_external r),
      (evaluation_environment r); try destruct (is_eval_environment_external r);
      rewrite ?Hseq, ?Hnil, ?Hone, ?Hne; reflexivity.
  - rewrite !forallb_app.
    assert (forall ns : list nat,
              forallb (fun e => match e with
                                | TqdmClose | AgentClose | EnvClose _ => true
                                | _ => false
                                end) (EnvClose <$> ns) = true) as Henvs
      by (intros ns; by induction ns).
    destruct (tqdm r), (is_agent_external r), (is_environment_external r),
      (evaluation_environment r); try destruct (is_eval_environment_external r);
      rewrite ?Henvs; reflexivity.
Qed.

(** ** The assertions and the preparations of [run] *)

Ltac refute_assertions :=
  exfalso;
  repeat match goal with
         | H : context [is_set ?x] |- _ => is_var x; destruct x
         | H : context [negb ?x] |- _ => is_var x; destruct x
         end;
  cbn [negb andb orb is_set] in *; discriminate.

Ltac wp_stop ::=
  lazymatch goal with
  | |- wp _ _ _ _ => idtac
  | |- _ => try solve [refute_assertions]
  end.

Ltac wp_call ::=
  lazymatch goal with
  | |- wp (for_each_with _ _ _) _ _ _ => apply wp_timing_loop; intros ?
  end.

(** X4.  [run] checks its arguments before it calls the agent or an
    environment: when both callback frequencies are given, or the
    progress bar is asked for without [num_episodes] or [num_timesteps],
    or an evaluation callback or a snapshot directory is used without an
    evaluation environment, it raises [AssertionError].  Nothing has been
    reset then; only the progress bar may have been closed and created
    anew, and the ledgers are as they were. *)
Theorem run_rejects_arguments (w : World) (fuel patience : nat) (a : RunArgs)
    (r : Runner) (tr : Trace) :
  run_assertions a r = false ->
  exists r' d,
    run w fuel patience a (r, tr) = Raised AssertionError (r', tr ++ d) /\
    forallb (fun e => match e with TqdmClose | TqdmCreate => true | _ => false end) d
    = true /\
    episode_rewards r' = episode_rewards r /\
    episode_timesteps r' = episode_timesteps r /\
    episode_seconds r' = episode_seconds r /\
    episode_agent_seconds r' = episode_agent_seconds r /\
    same_evaluation_ledgers r r'.
Proof.
  intros Hfalse.
  cut (wp (run w fuel patience a) (fun _ _ => False)
          (fun stop s' =>
             stop = Exception AssertionError /\
             (exists d, s'.2 = tr ++ d /\
                forallb (fun e => match e with
                                  | TqdmClose | TqdmCreate => true
                                  | _ => false
                                  end) d = true) /\
             episode_rewards s'.1 = episode_rewards r /\
             episode_timesteps s'.1 = episode_timesteps r /\
             episode_seconds s'.1 = episode_seconds r /\
             episode_agent_seconds s'.1 = episode_agent_seconds r /\
             same_evaluation_ledgers r s'.1)
          (r, tr)).
  { unfold wp. destruct (run w fuel patience a (r, tr)) as [? ?|e [r' tr']|s]; [done| |].
    - intros ([= ->] & (d & Htr & Hd) & H). cbn [fst snd] in *. subst tr'.
      by exists r', d.
    - by intros ([=] & _). }
  destruct a as [ne nt nu join sts sep secs cb cef ctf use ecb].
  unfold run, run_setup, run_assertions in *. destruct_runner r. unfold_args.
  wp_steps.
  all: try solve [refute_assertions].
  all: split; [reflexivity|].
  all: split; [eexists; split; [trace_delta|reflexivity]|].
  all: by repeat split.
Qed.

Lemma run_rejects_arguments_witness :
  run_assertions (mkRunArgs None None None false false false 0.5%float NoCallback
                            (Some 1) (Some 1) false false) (runner_of 1) = false /\
  exists r' d,
    run episode_world 10 1
        (mkRunArgs None None None false false false 0.5%float NoCallback
                   (Some 1) (Some 1) false false) (runner_of 1, [])
    = Raised AssertionError (r', [] ++ d) /\
    forallb (fun e => match e with TqdmClose | TqdmCreate => true | _ => false end) d
    = true /\
    episode_rewards r' = episode_rewards (runner_of 1) /\
    episode_timesteps r' = episode_timesteps (runner_of 1) /\
    episode_seconds r' = episode_seconds (runner_of 1) /\
    episode_agent_seconds r' = episode_agent_seconds (runner_of 1) /\
    same_evaluation_ledgers (runner_of 1) r'.
Proof.
  split; [reflexivity|].
  apply (run_rejects_arguments episode_world 10 1
           (mkRunArgs None None None false false false 0.5%float NoCallback
                      (Some 1) (Some 1) false false) (runner_of 1) []).
  reflexivity.
Defined.

(** X5.  A run without [join_agent_calls] whose arguments pass the
    assertions prepares the loop as follows: the progress bar, if asked
    for, is created anew; the agent is reset, then a reset of every
    training environment is started, in order, and of the evaluation
    environment last; the counters are 0 and [finished] is unset; the
    episode frequency of the callback is 1 when neither frequency is
    given; the accumulators of the sessions are zero; and the ledgers
    are as they were. *)
Theorem run_setup_prepares (w : World) (a : RunArgs) (r : Runner) (tr : Trace) :
  run_join_agent_calls a = false ->
  run_assertions a r = true ->
  let n := length (environments r) in
  exists r',
    run_setup w a (r, tr)
    = Returned (sessions r)
        (r',
         tr ++ (if run_use_tqdm a
                then (if tqdm r then [TqdmClose] else []) ++ [TqdmCreate] else [])
            ++ [AgentReset false]
            ++ (EnvStartReset <$> seq 0 n)
            ++ replicate n TimeTime
            ++ (if is_set (evaluation_environment r) then [EnvStartReset n] else [])) /\
    (timesteps r' = 0 /\ episodes r' = 0 /\ updates r' = 0 /\ finished r' = false) /\
    (num_episodes r' = run_num_episodes a /\
     num_timesteps r' = run_num_timesteps a /\
     num_updates r' = run_num_updates a) /\
    callback_episode_frequency r'
    = match run_callback_episode_frequency a, run_callback_timestep_frequency a with
      | None, None => Some 1
      | f, _ => f
      end /\
    callback_timestep_frequency r' = run_callback_timestep_frequency a /\
    (episode_reward r' = replicate n 0%float /\ episode_timestep r' = replicate n 0) /\
    (prev_terminals r' = replicate (sessions r) (Some 0) /\
     terminals r' = replicate (sessions r) None) /\
    (episode_rewards r' = episode_rewards r /\
     episode_timesteps r' = episode_timesteps r /\
     episode_seconds r' = episode_seconds r /\
     episode_agent_seconds r' = episode_agent_seconds r /\
     same_evaluation_ledgers r r').
Proof.
  intros Hjoin Htrue n. subst n.
  cut (wp (run_setup w a)
          (fun count s' =>
             count = sessions r /\
             s'.2 = tr ++ (if run_use_tqdm a
                           then (if tqdm r then [TqdmClose] else []) ++ [TqdmCreate]
                           else [])
                       ++ [AgentReset false]
                       ++ (EnvStartReset <$> seq 0 (length (environments r)))
                       ++ replicate (length (environments r)) TimeTime
                       ++ (if is_set (evaluation_environment r)
                           then [EnvStartReset (length (environments r))] else []) /\
             (timesteps s'.1 = 0 /\ episodes s'.1 = 0 /\ updates s'.1 = 0 /\
              finished s'.1 = false) /\
             (num_episodes s'.1 = run_num_episodes a /\
              num_timesteps s'.1 = run_num_timesteps a /\
              num_updates s'.1 = run_num_updates a) /\
             callback_episode_frequency s'.1
             = match run_callback_episode_frequency a,
                     run_callback_timestep_frequency a with
               | None, None => Some 1
               | f, _ => f
               end /\
             callback_timestep_frequency s'.1 = run_callback_timestep_frequency a /\
             (episode_reward s'.1 = replicate (length (environments r)) 0%float /\
              episode_timestep s'.1 = replicate (length (environments r)) 0) /\
             (prev_terminals s'.1 = replicate (sessions r) (Some 0) /\
              terminals s'.1 = replicate (sessions r) None) /\
             (episode_rewards s'.1 = episode_rewards r /\
              episode_timesteps s'.1 = episode_timesteps r /\
              episode_seconds s'.1 = episode_seconds r /\
              episode_agent_seconds s'.1 = episode_agent_seconds r /\
              same_evaluation_ledgers r s'.1))
          (fun _ _ => False) (r, tr)).
  { intros H. apply wp_returned in H as (count & [r' tr'] & Hrun & -> & Htr & H).
    cbn [fst snd] in *. subst tr'. by exists r'. }
  destruct a as [ne nt nu join sts sep secs cb cef ctf use ecb].
  unfold run_setup, run_assertions, sessions in *. destruct_runner r. unfold_args.
  subst join. wp_steps.
  all: rewrite ?length_seq.
  all: repeat match goal with
         | |- _ /\ _ => split
         | |- same_evaluation_ledgers _ _ => by repeat split
         | |- _ = _ ++ _ =>
             cbn [app is_set]; rewrite <- ?app_assoc, ?app_nil_r; cbn [app]; reflexivity
         | |- _ = _ => first [reflexivity | lia | f_equal; lia]
         end.
Qed.

Lemma run_setup_prepares_witness :
  run_join_agent_calls one_episode_args = false /\
  run_assertions one_episode_args (runner_of 1) = true /\
  exists r',
    run_setup episode_world one_episode_args (runner_of 1, [])
    = Returned (sessions (runner_of 1))
        (r',
         [] ++ (if run_use_tqdm one_episode_args
                then (if tqdm (runner_of 1) then [TqdmClose] else []) ++ [TqdmCreate]
                else [])
            ++ [AgentReset false]
            ++ (EnvStartReset <$> seq 0 (length (environments (runner_of 1))))
            ++ replicate (length (environments (runner_of 1))) TimeTime
            ++ (if is_set (evaluation_environment (runner_of 1))
                then [EnvStartReset (length (environments (runner_of 1)))] else [])) /\
    callback_episode_frequency r' = Some 1.
Proof.
  split; [reflexivity|]. split; [reflexivity|].
  destruct (run_setup_prepares episode_world one_episode_args (runner_of 1) []
              eq_refl eq_refl) as (r' & Hrun & _ & _ & Hfreq & _).
  exists r'. split; [exact Hrun|exact Hfreq].
Defined.

(** ** The end of an episode: [handle_terminal] *)

Ltac wp_stop ::= idtac.
Ltac wp_call ::= fail.

Lemma app_cons_assoc {A} (l : list A) (x : A) (l' : list A) :
  l ++ x :: l' = (l ++ [x]) ++ l'.
Proof. by rewrite <- app_assoc. Qed.






(** ** An observation: [handle_observe] *)

(** X7.  [handle_observe] adds the reward of the observation to the
    session's episode reward first: an observation without a reward, as
    the one that follows a reset, raises [TypeError] before anything is
    assigned and before the agent is called. *)
Theorem handle_observe_needs_reward (w : World) (r : Runner) (tr : Trace) (p : nat)
    (acc : float) :
  episode_reward r !! p = Some acc ->
  rewards r !! p = Some None ->
  handle_observe w p (r, tr) = Raised TypeError (r, tr).
Proof.
  intros Hacc Hreward. apply wp_raises. unfold handle_observe.
  apply wp_bind, wp_attr, wp_bind. cbn [fst].
  unfold wp, getitem. rewrite Hacc. cbn.
  unfold bind, attr, getitem. cbn. rewrite Hreward. cbn. done.
Qed.

Lemma handle_observe_needs_reward_witness :
  rewards episode_start_state.1 !! 0%nat = Some None /\
  handle_observe episode_world 0 (episode_start_state.1, episode_start_state.2)
  = Raised TypeError (episode_start_state.1, episode_start_state.2).
Proof.
  assert (rewards episode_start_state.1 !! 0%nat = Some None) as Hreward
    by (vm_compute; reflexivity).
  split; [exact Hreward|].
  exact (handle_observe_needs_reward episode_world episode_start_state.1
           episode_start_state.2 0 0%float ltac:(vm_compute; reflexivity) Hreward).
Defined.

(** X8.  For a training session [p] with an observation that carries a
    terminal code and a reward, [handle_observe] adds the reward to the
    session's episode reward, asks the agent to observe once (with the
    code 2 in place of 0 when [finished] is already set), adds 1 to
    [updates] exactly when the agent reports an update, and sets
    [finished] exactly when [updates] has then reached [num_updates]. *)
Theorem handle_observe_counts_updates (w : World) (r : Runner) (tr : Trace) (p : nat)
    (acc reward : float) (t : Z) (seconds : list float) (sec : float) :
  join_agent_calls r = false ->
  episode_reward r !! p = Some acc ->
  rewards r !! p = Some (Some reward) ->
  terminals r !! p = Some (Some t) ->
  episode_agent_second r = PerEnvironment seconds ->
  seconds !! p = Some sec ->
  let code := if (t =? 0) && finished r then 2 else t in
  let updated := observe_result w (tr ++ [TimeTime]) in
  let ceiling := reached (updates r + Z.b2z updated) (num_updates r) in
  exists r',
    handle_observe w p (r, tr)
    = Returned tt
        (r',
         tr ++ [TimeTime; AgentObserve (Some code) (Some reward) p; TimeTime]
            ++ (if ceiling then [FinishedSet] else [])) /\
    episode_reward r' = <[p:=(acc + reward)%float]> (episode_reward r) /\
    terminals r' !! p = Some (Some code) /\
    updates r' = updates r + Z.b2z updated /\
    finished r' = finished r || ceiling /\
    timesteps r' = timesteps r /\ episodes r' = episodes r.
Proof.
  intros Hjoin Hacc Hreward Ht Hsec Hsecp code updated ceiling.
  cut (wp (handle_observe w p)
          (fun _ s' =>
             s'.2 = tr ++ [TimeTime; AgentObserve (Some code) (Some reward) p; TimeTime]
                       ++ (if ceiling then [FinishedSet] else []) /\
             episode_reward s'.1 = <[p:=(acc + reward)%float]> (episode_reward r) /\
             terminals s'.1 !! p = Some (Some code) /\
             updates s'.1 = updates r + Z.b2z updated /\
             finished s'.1 = finished r || ceiling /\
             timesteps s'.1 = timesteps r /\ episodes s'.1 = episodes r)
          (fun _ _ => False) (r, tr)).
  { intros H. apply wp_returned in H as ([] & [r' tr'] & Hrun & Htr & H).
    cbn [fst snd] in *. subst tr'. by exists r'. }
  subst code updated ceiling. unfold handle_observe. destruct_runner r. subst.
  wp_steps.
  all: try (assert ((t =? 0) = false) as -> by (apply Z.eqb_neq; congruence)).
  all: use_conditions; cbn [Z.eqb andb]; rewrite ?orb_true_r, ?orb_false_r.
  all: repeat match goal with
         | |- _ /\ _ => split
         | |- _ = _ ++ _ => rewrite <- ?app_assoc; reflexivity
         | |- <[_:=_]> _ !! _ = _ => by apply list_lookup_insert_eq
         | |- _ = _ => first [reflexivity | assumption]
         end.
Qed.

Lemma handle_observe_counts_updates_witness :
  terminals (set_rewards [Some 1%float] (set_terminals [Some 0] episode_start_state.1))
    !! 0%nat = Some (Some 0) /\
  exists r',
    handle_observe episode_world 0
      (set_rewards [Some 1%float] (set_terminals [Some 0] episode_start_state.1),
       episode_start_state.2)
    = Returned tt
        (r', episode_start_state.2
               ++ [TimeTime; AgentObserve (Some 0) (Some 1%float) 0; TimeTime] ++ []) /\
    updates r' = 0.
Proof.
  assert (terminals (set_rewards [Some 1%float]
                       (set_terminals [Some 0] episode_start_state.1))
            !! 0%nat = Some (Some 0)) as Ht by (vm_compute; reflexivity).
  split; [exact Ht|].
  destruct (handle_observe_counts_updates episode_world
              (set_rewards [Some 1%float] (set_terminals [Some 0] episode_start_state.1))
              episode_start_state.2 0 0%float 1%float 0 [0%float] 0%float
              ltac:(vm_compute; reflexivity) ltac:(vm_compute; reflexivity)
              ltac:(vm_compute; reflexivity) Ht
              ltac:(vm_compute; reflexivity) ltac:(vm_compute; reflexivity))
    as (r' & Hrun & _ & _ & Hu & _).
  exists r'. split; [exact Hrun|exact Hu].
Defined.

(** ** A callback frequency of zero *)

(** X9.  [run] accepts [callback_timestep_frequency=0].  The remainder
    is then computed by [handle_act], after the action has been
    submitted and the counters incremented: unless the timestep ceiling
    is reached by this increment, [handle_act] raises
    [ZeroDivisionError], and the callback is not called. *)
Theorem handle_act_zero_frequency (w : World) (r : Runner) (tr : Trace) (p : nat)
    (st : option StateVal) (k : Z) (l : list float) :
  join_agent_calls r = false ->
  callback_timestep_frequency r = Some 0 ->
  reached (timesteps r + 1) (num_timesteps r) = false ->
  states r !! p = Some st ->
  episode_timestep r !! p = Some k ->
  episode_agent_second r = PerEnvironment l ->
  (p < length l)%nat ->
  (p < length (environments r))%nat ->
  exists r',
    handle_act w p (r, tr)
    = Raised ZeroDivisionError
        (r', tr ++ [TimeTime; AgentAct st (Some p) false; TimeTime;
                    EnvStartExecute p (act_result w (tr ++ [TimeTime]))]) /\
    timesteps r' = timesteps r + 1 /\
    episode_timestep r' !! p = Some (k + 1) /\
    finished r' = finished r.
Proof.
  intros Hjoin Hfreq Hceiling Hst Hk Hl Hpl Hpe.
  cut (wp (handle_act w p) (fun _ _ => False)
          (fun stop s' =>
             stop = Exception ZeroDivisionError /\
             s'.2 = tr ++ [TimeTime; AgentAct st (Some p) false; TimeTime;
                           EnvStartExecute p (act_result w (tr ++ [TimeTime]))] /\
             timesteps s'.1 = timesteps r + 1 /\
             episode_timestep s'.1 !! p = Some (k + 1) /\
             finished s'.1 = finished r)
          (r, tr)).
  { unfold wp. destruct (handle_act w p (r, tr)) as [? ?|e [r' tr']|?]; [done| |].
    - intros ([= ->] & Htr & H). cbn [fst snd] in *. subst tr'. by exists r'.
    - by intros ([=] & _). }
  unfold handle_act. destruct_runner r. subst. cbn [reached] in Hceiling.
  wp_steps.
  all: try congruence.
  all: repeat match goal with
         | H : divides _ (Some 0) = _ |- _ => cbn in H; try discriminate H
         end.
  all: repeat match goal with
         | |- _ /\ _ => split
         | |- _ = _ ++ _ => rewrite <- ?app_assoc; reflexivity
         | |- <[_:=_]> _ !! _ = _ => by apply list_lookup_insert_eq
         | |- _ = _ => first [reflexivity | congruence]
         end.
Qed.

Lemma handle_act_zero_frequency_witness :
  callback_timestep_frequency
    (set_callback_timestep_frequency (Some 0) episode_start_state.1) = Some 0 /\
  exists r',
    handle_act episode_world 0
      (set_callback_timestep_frequency (Some 0) episode_start_state.1,
       episode_start_state.2)
    = Raised ZeroDivisionError
        (r', episode_start_state.2
               ++ [TimeTime; AgentAct None (Some 0%nat) false; TimeTime;
                   EnvStartExecute 0
                     (act_result episode_world (episode_start_state.2 ++ [TimeTime]))]).
Proof.
  split; [reflexivity|].
  destruct (handle_act_zero_frequency episode_world
              (set_callback_timestep_frequency (Some 0) episode_start_state.1)
              episode_start_state.2 0 None 0 [0%float]
              ltac:(vm_compute; reflexivity) ltac:(vm_compute; reflexivity)
              ltac:(vm_compute; reflexivity) ltac:(vm_compute; reflexivity)
              ltac:(vm_compute; reflexivity) ltac:(vm_compute; reflexivity)
              ltac:(vm_compute; lia) ltac:(vm_compute; lia))
    as (r' & Hrun & _).
  exists r'. exact Hrun.
Defined.

(** ** The evaluation session *)

(** X10.  The handlers of the evaluation session read names that are
    not bound in them.  Handling an observation of the evaluation
    environment therefore raises [NameError]: at the first observation
    in [handle_act_evaluation], after the clock has been read, and at a
    later one in [handle_observe_evaluation]; the agent is not called
    and no action is submitted. *)
Theorem evaluation_step_raises (w : World) (r : Runner) (tr : Trace) (o : Observation) :
  join_agent_calls r = false ->
  let p := length (environments r) in
  (p < length (states r))%nat ->
  (p < length (terminals r))%nat ->
  (p < length (rewards r))%nat ->
  exists r',
    step w p (Some o) (r, tr)
    = Raised NameError (r', tr ++ (if is_set (obs_terminal o) then [] else [TimeTime])) /\
    states r' !! p = Some (Some (obs_states o)) /\
    terminals r' !! p = Some (obs_terminal o) /\
    settings r' = settings r /\ ledgers r' = ledgers r.
Proof.
  intros Hjoin p Hs Ht Hr. subst p.
  cut (wp (step w (length (environments r)) (Some o)) (fun _ _ => False)
          (fun stop s' =>
             stop = Exception NameError /\
             s'.2 = tr ++ (if is_set (obs_terminal o) then [] else [TimeTime]) /\
             states s'.1 !! length (environments r) = Some (Some (obs_states o)) /\
             terminals s'.1 !! length (environments r) = Some (obs_terminal o) /\
             settings s'.1 = settings r /\ ledgers s'.1 = ledgers r)
          (r, tr)).
  { unfold wp. destruct (step w _ _ (r, tr)) as [? ?|e [r' tr']|?]; [done| |].
    - intros ([= ->] & Htr & H). cbn [fst snd] in *. subst tr'. by exists r'.
    - by intros ([=] & _). }
  unfold step, handle_act_evaluation, handle_observe_evaluation.
  destruct_runner r. subst. destruct o as [ost [ot|] orw]; cbn [obs_states obs_terminal
    obs_reward is_set].
  all: wp_steps.
  all: repeat match goal with
         | |- _ /\ _ => split
         | |- _ = _ ++ [] => by rewrite app_nil_r
         | |- <[_:=_]> _ !! _ = _ => by apply list_lookup_insert_eq
         | |- _ = _ => reflexivity
         end.
Qed.

Lemma evaluation_step_raises_witness :
  join_agent_calls scores_start.1 = false /\
  exists r',
    step scores_world (length (environments scores_start.1)) (Some initial_observation)
         (scores_start.1, scores_start.2)
    = Raised NameError
        (r', scores_start.2
               ++ (if is_set (obs_terminal initial_observation) then [] else [TimeTime])).
Proof.
  assert (join_agent_calls scores_start.1 = false) as Hjoin by (vm_compute; reflexivity).
  split; [exact Hjoin|].
  destruct (evaluation_step_raises scores_world scores_start.1 scores_start.2
              initial_observation Hjoin
              ltac:(vm_compute; lia) ltac:(vm_compute; lia) ltac:(vm_compute; lia))
    as (r' & Hrun & _).
  exists r'. exact Hrun.
Defined.

(** ** Runs that cannot complete *)

Lemma wp_conj {A} (m : M A) (Q1 Q2 : A -> St -> Prop) (E1 E2 : Stop -> St -> Prop) s :
  wp m Q1 E1 s -> wp m Q2 E2 s ->
  wp m (fun a s' => Q1 a s' /\ Q2 a s') (fun stop s' => E1 stop s' /\ E2 stop s') s.
Proof. unfold wp. destruct (m s); auto. Qed.

Lemma wp_not_returned {A} (m : M A) (s : St) :
  wp m (fun _ _ => False) (fun _ _ => True) s -> forall a s', m s <> Returned a s'.
Proof. unfold wp. intros H a s' Heq. by rewrite Heq in H. Qed.

Ltac wp_stop ::= try exact I.
Ltac wp_call ::=
  lazymatch goal with
  | |- wp (for_each_with _ _ _) _ _ _ => apply wp_timing_loop; intros ?
  end.

(** What the preparations of [run] leave of the runner and take from
    the arguments. *)
Lemma run_setup_settings w a r tr :
  wp (run_setup w a)
     (fun _ s' =>
        environments s'.1 = environments r /\
        evaluation_environment s'.1 = evaluation_environment r /\
        sync_timesteps s'.1 = run_sync_timesteps a /\
        length (states s'.1) = sessions r /\
        length (terminals s'.1) = sessions r /\
        length (rewards s'.1) = sessions r)
     (fun _ _ => True) (r, tr).
Proof.
  destruct a as [ne nt nu join sts sep secs cb cef ctf use ecb].
  unfold run_setup, sessions. destruct_runner r. unfold_args.
  wp_steps.
  all: cbn [is_set]; rewrite ?length_replicate; repeat split; lia.
Qed.

(** The loop goes on as long as no iteration returns. *)
Lemma runner_loop_blocked w patience count (J : St -> Prop) :
  (forall s, J s ->
             finished s.1 = false /\
             wp (iteration w patience count) (fun _ _ => False) (fun _ _ => True) s) ->
  forall fuel s, J s ->
    wp (runner_loop w fuel patience count) (fun _ _ => False) (fun _ _ => True) s.
Proof.
  intros HJ fuel s Hs. destruct (HJ s Hs) as [Hfin Hit].
  destruct fuel as [|fuel]; cbn [runner_loop]; apply wp_bind, wp_attr; rewrite Hfin.
  - by apply wp_unfinished.
  - apply wp_bind. eapply wp_mono; [exact Hit|done|done].
Qed.

(** A session whose body never returns blocks the loop over the
    sessions, when the sessions before it keep what it relies on. *)
Lemma sessions_blocked w patience (n : nat) (J : St -> Prop) :
  (forall ner s, J s ->
     wp (environment_body w patience n ner) (fun _ _ => False) (fun _ _ => True) s) ->
  (forall p s s', p <> n -> J s -> progress p 1 1 1 s s' -> J s') ->
  forall ns ner s, n ∈ ns -> J s ->
    wp (for_each_with ns ner (environment_body w patience))
       (fun _ _ => False) (fun _ _ => True) s.
Proof.
  intros Hn Hkeep ns. induction ns as [|p ns IH]; intros ner s Hin Hs.
  { by apply elem_of_nil in Hin. }
  cbn [for_each_with]. apply wp_bind.
  destruct (decide (p = n)) as [->|Hne].
  - eapply wp_mono; [by apply Hn|done|done].
  - apply elem_of_cons in Hin as [->|Hin]; [done|].
    eapply wp_mono; [apply environment_body_effect| |done].
    intros ner1 s1 [Hp _]. apply IH; [done|]. by eapply Hkeep.
Qed.

Ltac wp_call ::=
  lazymatch goal with
  | |- wp (wait_execute _ _ _) _ _ (?r, ?tr) =>
      let r' := fresh "r" in
      let tr' := fresh "tr" in
      let d := fresh "d" in
      let Hd := fresh "Hd" in
      let Ho := fresh "Ho" in
      eapply wp_mono;
      [ apply wait_execute_polls
      | intros ? [r' tr'] [[? (d & ? & Hd)] Ho]; cbn [fst snd] in *; subst r' tr'
      | intros ? [r' tr'] [? (d & ? & Hd)]; cbn [fst snd] in *; subst r' tr' ]
  | |- wp (handle_act_evaluation _) _ _ _ =>
      wp_handler_stops handle_act_evaluation_stops
  | |- wp (handle_observe_evaluation _) _ _ _ =>
      wp_handler_stops handle_observe_evaluation_stops
  | |- wp (handle_terminal_evaluation _) _ _ _ =>
      wp_handler_stops handle_terminal_evaluation_stops
  end.

(** With [sync_timesteps], the body of the loop for the evaluation
    session waits for its observation and hands it to the handlers of
    the evaluation session, which never return. *)
Lemma evaluation_body_blocked w patience ner s :
  join_agent_calls s.1 = false ->
  sync_timesteps s.1 = true ->
  prev_terminals s.1 !! length (environments s.1) = Some (Some 0) ->
  wp (environment_body w patience (length (environments s.1)) ner)
     (fun _ _ => False) (fun _ _ => True) s.
Proof.
  destruct s as [r tr]. unfold environment_body, poll, step. destruct_runner r.
  cbn [fst snd]. runner_simpl. intros -> -> Hprev.
  wp_steps.
Qed.

(** X11.  A run with an evaluation environment and [sync_timesteps=True]
    (or [join_agent_calls=True], which implies it) never completes: in
    the first iteration the loop waits for the first observation of the
    evaluation environment and hands it to [handle_act_evaluation],
    which raises; so the run raises an exception, or waits for an
    environment for ever. *)
Theorem evaluation_run_never_returns (w : World) (fuel patience : nat) (a : RunArgs)
    (r : Runner) (tr : Trace) :
  is_set (evaluation_environment r) = true ->
  run_sync_timesteps a = true ->
  forall s', run w fuel patience a (r, tr) <> Returned tt s'.
Proof.
  intros Heval Hsync. apply wp_not_returned. unfold run. apply wp_bind.
  eapply wp_mono;
    [exact (wp_conj _ _ _ _ _ _ (run_setup_effect w a r tr) (run_setup_settings w a r tr))
    | |done].
  intros count s0 [(Hcount & Hj & Hfin & _ & _ & _ & _ & _ & Hprev & _)
                    (Henvs & _ & Hsts & _)].
  unfold sessions in Hcount. rewrite Heval in Hcount.
  set (n := length (environments r)) in *.
  assert (count = S n) as -> by lia.
  apply (runner_loop_blocked w patience (S n)
           (fun s => finished s.1 = false /\ join_agent_calls s.1 = false /\
                     sync_timesteps s.1 = true /\ length (environments s.1) = n /\
                     prev_terminals s.1 !! n = Some (Some 0))).
  - intros s (Hf & Hjs & Hss & Hn & Hp). split; [done|].
    unfold iteration. apply wp_bind, wp_attr. rewrite Hjs.
    apply wp_bind, wp_bind, wp_attr, wp_assign. cbn [fst snd]. apply wp_bind.
    eapply (wp_mono _ _ _ _ (fun _ _ => False) (fun _ _ => True));
      [|by intros ? ? []|done].
    apply (sessions_blocked w patience n
             (fun s => join_agent_calls s.1 = false /\ sync_timesteps s.1 = true /\
                       length (environments s.1) = n /\
                       prev_terminals s.1 !! n = Some (Some 0))).
    + intros ner s1 (H1 & H2 & H3 & H4). rewrite <- H3 in *.
      by apply evaluation_body_blocked.
    + intros p s1 s2 _ (H1 & H2 & H3 & H4) ((Hset & Hpt & _) & _).
      unfold settings in Hset. simplify_eq. rewrite Hpt. repeat split; congruence.
    + apply elem_of_seq. lia.
    + destruct s as [rs trs]. cbn [fst snd] in *. by destruct rs.
  - repeat split; try done.
    + by rewrite Hsts.
    + by rewrite Henvs.
    + rewrite Hprev. apply lookup_replicate_2. lia.
Qed.

Lemma evaluation_run_never_returns_witness :
  is_set (evaluation_environment scores_runner) = true /\
  forall s',
    run scores_world 10 1
        (mkRunArgs (Some 1) None None false true false 0.5%float NoCallback
                   None None false true) (scores_runner, [])
    <> Returned tt s'.
Proof.
  split; [reflexivity|].
  exact (evaluation_run_never_returns scores_world 10 1
           (mkRunArgs (Some 1) None None false true false 0.5%float NoCallback
                      None None false true) scores_runner [] eq_refl eq_refl).
Defined.
